(** * The planning and reporting workflow of [plans]: a shallow embedding

    The development follows the Python sources of the [plans] application:
    [models.py] (entry windows, quarters, cascades), [serializers.py] (the
    [create] and [update] methods of the child serializers, the computed
    fields of a plan, the bulk serializers), [views/base.py] (profile lookup,
    access predicate, audit logging, permissions), [views/annual_plans.py],
    [views/quarterly_reports.py], [views/indicators.py], [views/api.py],
    [views/audit.py] and [admin.py].

    Conventions of the embedding.
    - A Python exception is a value of [Exn]; a computation that may raise
      returns a [Result].
    - A view runs against the relational store: it is a function from the
      store to a [Result] and the store it leaves behind ([M]).  The store
      commits every [save] at once (autocommit); [atomic] restores the store
      at entry when its block raises, as [transaction.atomic] does.
    - An aware [datetime] is a number of seconds: the proleptic Gregorian
      ordinal of its date times 86400, plus the seconds of its day, in the
      configured time zone taken at a fixed offset.  Where the code takes
      [timezone.now().year], the year is that of the clock read in UTC, and
      the function takes that reading ([utc_now]).
    - [self.get_object()] belongs to the framework: a view receives the
      instance the lookup resolved ([get_object] below is that lookup).  The
      rendering of a plan into the response body evaluates the computed fields
      of its serializer, which can raise; the body names the instance it
      renders.
    - A table with an automatic primary key remembers the largest key it
      ever held ([target_seq], [entry_seq]): a new row gets a key above it. *)

From Stdlib Require Import ZArith Floats.
From stdpp Require Import base option list gmap strings pretty.

Open Scope Z_scope.

(** ** Exceptions and results *)

Inductive Exn : Type :=
| AttributeError
| ValueError
| TypeError
| KeyError
| OverflowError
| ZeroDivisionError
| IntegrityError
| DoesNotExist (model : string)
| Http404 (model : string).

Inductive Result (A : Type) : Type :=
| Ok (a : A)
| Raise (e : Exn).

Arguments Ok {A} a.
Arguments Raise {A} e.

Definition result_bind {A B : Type} (r : Result A) (k : A → Result B) : Result B :=
  match r with
  | Ok a => k a
  | Raise e => Raise e
  end.

#[global] Instance Result_ret : MRet Result := @Ok.
#[global] Instance Result_bind : MBind Result := λ A B k r, result_bind r k.

Definition is_ok {A : Type} (r : Result A) : bool :=
  match r with
  | Ok _ => true
  | Raise _ => false
  end.

(** ** [datetime] and [timedelta]

    The arithmetic is that of CPython's [datetime] module: [_ymd2ord] for the
    proleptic Gregorian ordinal of a date, the constructor's range checks
    ([MINYEAR] to [MAXYEAR], month, day of the month, time of day), and the
    overflow check of [datetime + timedelta]. *)

Module datetime.

Definition t : Type := Z.

Definition MINYEAR : Z := 1.
Definition MAXYEAR : Z := 9999.

Definition is_leap (year : Z) : bool :=
  (year mod 4 =? 0) && (negb (year mod 100 =? 0) || (year mod 400 =? 0)).

Definition days_before_year (year : Z) : Z :=
  let y := year - 1 in
  y * 365 + y / 4 - y / 100 + y / 400.

Definition days_in_month (year month : Z) : Z :=
  if month =? 2 then (if is_leap year then 29 else 28)
  else if (month =? 4) || (month =? 6) || (month =? 9) || (month =? 11) then 30
  else 31.

Definition days_before_month (year month : Z) : Z :=
  nth (Z.to_nat month)
      [0; 0; 31; 59; 90; 120; 151; 181; 212; 243; 273; 304; 334] 0
  + (if (2 <? month) && is_leap year then 1 else 0).

Definition ymd2ord (year month day : Z) : Z :=
  days_before_year year + days_before_month year month + day.

Definition seconds_per_day : Z := 86400.

(** [datetime(year, month, day, hour, minute, second, tzinfo=tz)] *)
Definition new (year month day hour minute second : Z) : Result t :=
  if negb ((MINYEAR <=? year) && (year <=? MAXYEAR)) then Raise ValueError
  else if negb ((1 <=? month) && (month <=? 12)) then Raise ValueError
  else if negb ((1 <=? day) && (day <=? days_in_month year month)) then Raise ValueError
  else if negb ((0 <=? hour) && (hour <=? 23)) then Raise ValueError
  else if negb ((0 <=? minute) && (minute <=? 59)) then Raise ValueError
  else if negb ((0 <=? second) && (second <=? 59)) then Raise ValueError
  else Ok (ymd2ord year month day * seconds_per_day
           + hour * 3600 + minute * 60 + second).

Definition min : t := ymd2ord MINYEAR 1 1 * seconds_per_day.
Definition max : t := ymd2ord MAXYEAR 12 31 * seconds_per_day + 86399.

(** [timedelta(days=n)], in seconds *)
Definition timedelta (days : Z) : Z := days * seconds_per_day.

(** [self + delta]: [OverflowError] when the date leaves the supported years *)
Definition add (d : t) (delta : Z) : Result t :=
  let r := d + delta in
  if (min <=? r) && (r <=? max) then Ok r else Raise OverflowError.

(** The [year] attribute, by the divisions of [_ord2ymd]. *)
Definition year (d : t) : Z :=
  let n := d / seconds_per_day - 1 in
  let n400 := n / 146097 in
  let n := n mod 146097 in
  let n100 := n / 36524 in
  let n := n mod 36524 in
  let n4 := n / 1461 in
  let n := n mod 1461 in
  let n1 := n / 365 in
  let y := n400 * 400 + 1 + n100 * 100 + n4 * 4 + n1 in
  if (n1 =? 4) || (n100 =? 4) then y - 1 else y.

(** [start <= when <= end] *)
Definition between (start when_ end_ : t) : bool :=
  (start <=? when_) && (when_ <=? end_).

End datetime.

(** ** The models of [models.py] *)

Inductive Role : Type := SUPERADMIN | STRATEGIC_AFFAIRS | STATE_MINISTER | ADVISOR.

Inductive Status : Type := DRAFT | SUBMITTED | APPROVED | REJECTED.

#[global] Instance Role_eq_dec : EqDecision Role.
Proof. solve_decision. Defined.

#[global] Instance Status_eq_dec : EqDecision Status.
Proof. solve_decision. Defined.

Definition Role_eqb (a b : Role) : bool :=
  match a, b with
  | SUPERADMIN, SUPERADMIN | STRATEGIC_AFFAIRS, STRATEGIC_AFFAIRS
  | STATE_MINISTER, STATE_MINISTER | ADVISOR, ADVISOR => true
  | _, _ => false
  end.

Definition Status_eqb (a b : Status) : bool :=
  match a, b with
  | DRAFT, DRAFT | SUBMITTED, SUBMITTED | APPROVED, APPROVED
  | REJECTED, REJECTED => true
  | _, _ => false
  end.

(** A decimal column ([max_digits=20, decimal_places=4]) in ten-thousandths. *)
Definition Decimal : Type := Z.

Module Unit.
Record t : Type := Build { id : Z; name : string }.
(** Model instances are equal when their primary keys are. *)
Definition eqb (a b : t) : bool := id a =? id b.
End Unit.

Module User.
Record t : Type := Build { id : Z; username : string; is_anonymous : bool }.
End User.

Module UserProfile.
Record t : Type := Build { role : Role; unit : Unit.t }.
End UserProfile.

Module Indicator.
Record t : Type := Build {
  code : string;
  name : string;
  owner_unit : Unit.t;
  active : bool
}.
End Indicator.

Module AnnualPlan.

Record t : Type := Build {
  year : Z;
  unit : Unit.t;
  status : Status;
  created_by : Z;
  submitted_at : option datetime.t;
  approved_by : option Z;
  approved_at : option datetime.t;
  entry_window_start : option datetime.t;
  entry_window_end : option datetime.t
}.

(** Attribute assignments *)
Definition set_status (v : Status) (self : t) : t :=
  Build (year self) (unit self) v (created_by self) (submitted_at self)
        (approved_by self) (approved_at self)
        (entry_window_start self) (entry_window_end self).

Definition set_submitted_at (v : option datetime.t) (self : t) : t :=
  Build (year self) (unit self) (status self) (created_by self) v
        (approved_by self) (approved_at self)
        (entry_window_start self) (entry_window_end self).

Definition set_approved_by (v : option Z) (self : t) : t :=
  Build (year self) (unit self) (status self) (created_by self) (submitted_at self)
        v (approved_at self)
        (entry_window_start self) (entry_window_end self).

Definition set_approved_at (v : option datetime.t) (self : t) : t :=
  Build (year self) (unit self) (status self) (created_by self) (submitted_at self)
        (approved_by self) v
        (entry_window_start self) (entry_window_end self).

Definition default_entry_window (self : t) : Result (datetime.t * datetime.t) :=
  result_bind (datetime.new (year self) 1 1 0 0 0) (λ start,
  result_bind (datetime.add start (datetime.timedelta 30)) (λ end_,
  Ok (start, end_))).

(** [when_] is the optional argument, [now] the value of [timezone.now()]. *)
Definition is_within_entry_window (self : t) (when_ : option datetime.t)
    (now : datetime.t) : Result bool :=
  let when_ := default now when_ in
  match entry_window_start self, entry_window_end self with
  | Some start, Some end_ => Ok (datetime.between start when_ end_)
  | _, _ =>
      result_bind (default_entry_window self) (λ '(start, end_),
      Ok (datetime.between start when_ end_))
  end.

End AnnualPlan.

Module QuarterlyReport.

Record t : Type := Build {
  year : Z;
  quarter : Z;
  unit : Unit.t;
  status : Status;
  created_by : Z;
  submitted_at : option datetime.t;
  approved_by : option Z;
  approved_at : option datetime.t;
  entry_window_start : option datetime.t;
  entry_window_end : option datetime.t
}.

(** Attribute assignments *)
Definition set_status (v : Status) (self : t) : t :=
  Build (year self) (quarter self) (unit self) v (created_by self) (submitted_at self)
        (approved_by self) (approved_at self)
        (entry_window_start self) (entry_window_end self).

Definition set_submitted_at (v : option datetime.t) (self : t) : t :=
  Build (year self) (quarter self) (unit self) (status self) (created_by self) v
        (approved_by self) (approved_at self)
        (entry_window_start self) (entry_window_end self).

Definition set_approved_by (v : option Z) (self : t) : t :=
  Build (year self) (quarter self) (unit self) (status self) (created_by self) (submitted_at self)
        v (approved_at self)
        (entry_window_start self) (entry_window_end self).

Definition set_approved_at (v : option datetime.t) (self : t) : t :=
  Build (year self) (quarter self) (unit self) (status self) (created_by self) (submitted_at self)
        (approved_by self) v
        (entry_window_start self) (entry_window_end self).

Definition quarter_date_range (self : t) : Result (datetime.t * datetime.t) :=
  if quarter self =? 1 then
    result_bind (datetime.new (year self) 1 1 0 0 0) (λ start,
    result_bind (datetime.new (year self) 3 31 23 59 59) (λ end_,
    Ok (start, end_)))
  else if quarter self =? 2 then
    result_bind (datetime.new (year self) 4 1 0 0 0) (λ start,
    result_bind (datetime.new (year self) 6 30 23 59 59) (λ end_,
    Ok (start, end_)))
  else if quarter self =? 3 then
    result_bind (datetime.new (year self) 7 1 0 0 0) (λ start,
    result_bind (datetime.new (year self) 9 30 23 59 59) (λ end_,
    Ok (start, end_)))
  else
    result_bind (datetime.new (year self) 10 1 0 0 0) (λ start,
    result_bind (datetime.new (year self) 12 31 23 59 59) (λ end_,
    Ok (start, end_))).

Definition default_entry_window (self : t) : Result (datetime.t * datetime.t) :=
  result_bind (quarter_date_range self) (λ '(_, qend),
  let start := qend in
  result_bind (datetime.add qend (datetime.timedelta 15)) (λ end_,
  Ok (start, end_))).

Definition is_within_entry_window (self : t) (when_ : option datetime.t)
    (now : datetime.t) : Result bool :=
  let when_ := default now when_ in
  match entry_window_start self, entry_window_end self with
  | Some start, Some end_ => Ok (datetime.between start when_ end_)
  | _, _ =>
      result_bind (default_entry_window self) (λ '(start, end_),
      Ok (datetime.between start when_ end_))
  end.

End QuarterlyReport.

Module AnnualPlanTarget.
Record t : Type := Build {
  id : Z;
  plan : Z;
  indicator : Z;
  target_value : Decimal;
  baseline_value : option Decimal;
  remarks : option string
}.
End AnnualPlanTarget.

Module QuarterlyIndicatorEntry.
Record t : Type := Build {
  id : Z;
  report : Z;
  indicator : Z;
  achieved_value : Decimal;
  remarks : option string;
  evidence_file : option string;
  updated_by : Z;
  updated_at : datetime.t
}.
End QuarterlyIndicatorEntry.

Module WorkflowAudit.
Record t : Type := Build {
  actor : Z;
  unit : Unit.t;
  action : string;
  context_plan : option Z;
  context_report : option Z;
  message : string;
  created_at : datetime.t
}.
End WorkflowAudit.

(** ** Python values

    The arguments of [log_action] are bound by position, so what reaches a
    column of [WorkflowAudit] is whatever object the caller put in that
    position.  [pyval] is the part of Python's universe these calls range
    over. *)

Inductive pyval : Type :=
| PNone
| PStr (s : string)
| PUser (u : User.t)
| PUnit (u : Unit.t)
| PPlan (pk : Z) (p : AnnualPlan.t)
| PReport (pk : Z) (r : QuarterlyReport.t).

(** [str(v)], through the [__str__] methods of [models.py]. *)
Definition py_str (v : pyval) : string :=
  match v with
  | PNone => "None"
  | PStr s => s
  | PUser u => User.username u
  | PUnit u => Unit.name u
  | PPlan _ p =>
      Unit.name (AnnualPlan.unit p) +:+ " - Annual Plan " +:+ pretty (AnnualPlan.year p)
  | PReport _ r =>
      Unit.name (QuarterlyReport.unit r) +:+ " - Q" +:+ pretty (QuarterlyReport.quarter r)
        +:+ " " +:+ pretty (QuarterlyReport.year r)
  end.

(** ** The store *)

Record State : Type := mkState {
  users : gmap Z User.t;
  profiles : gmap Z UserProfile.t;      (* keyed by the user's primary key *)
  indicators : gmap Z Indicator.t;
  plans : gmap Z AnnualPlan.t;
  targets : list AnnualPlanTarget.t;
  reports : gmap Z QuarterlyReport.t;
  entries : list QuarterlyIndicatorEntry.t;
  audits : list WorkflowAudit.t;        (* in order of insertion *)
  target_seq : Z;                       (* the largest key a target ever had *)
  entry_seq : Z                         (* the largest key an entry ever had *)
}.

Definition set_plans (f : gmap Z AnnualPlan.t → gmap Z AnnualPlan.t) (st : State) : State :=
  mkState (users st) (profiles st) (indicators st) (f (plans st)) (targets st)
          (reports st) (entries st) (audits st) (target_seq st) (entry_seq st).

Definition set_targets (f : list AnnualPlanTarget.t → list AnnualPlanTarget.t)
    (st : State) : State :=
  mkState (users st) (profiles st) (indicators st) (plans st) (f (targets st))
          (reports st) (entries st) (audits st) (target_seq st) (entry_seq st).

Definition set_reports (f : gmap Z QuarterlyReport.t → gmap Z QuarterlyReport.t)
    (st : State) : State :=
  mkState (users st) (profiles st) (indicators st) (plans st) (targets st)
          (f (reports st)) (entries st) (audits st) (target_seq st) (entry_seq st).

Definition set_entries (f : list QuarterlyIndicatorEntry.t → list QuarterlyIndicatorEntry.t)
    (st : State) : State :=
  mkState (users st) (profiles st) (indicators st) (plans st) (targets st)
          (reports st) (f (entries st)) (audits st) (target_seq st) (entry_seq st).

Definition set_audits (f : list WorkflowAudit.t → list WorkflowAudit.t) (st : State) : State :=
  mkState (users st) (profiles st) (indicators st) (plans st) (targets st)
          (reports st) (entries st) (f (audits st)) (target_seq st) (entry_seq st).

Definition set_target_seq (f : Z → Z) (st : State) : State :=
  mkState (users st) (profiles st) (indicators st) (plans st) (targets st)
          (reports st) (entries st) (audits st) (f (target_seq st)) (entry_seq st).

Definition set_entry_seq (f : Z → Z) (st : State) : State :=
  mkState (users st) (profiles st) (indicators st) (plans st) (targets st)
          (reports st) (entries st) (audits st) (target_seq st) (f (entry_seq st)).

(** ** Views as store transformers that may raise *)

Definition M (A : Type) : Type := State → Result A * State.

Definition ret {A : Type} (a : A) : M A := λ st, (Ok a, st).

Definition bind {A B : Type} (m : M A) (k : A → M B) : M B :=
  λ st, match m st with
        | (Ok a, st') => k a st'
        | (Raise e, st') => (Raise e, st')
        end.

Definition raise {A : Type} (e : Exn) : M A := λ st, (Raise e, st).

Definition lift {A : Type} (r : Result A) : M A := λ st, (r, st).

Definition gets {A : Type} (f : State → A) : M A := λ st, (Ok (f st), st).

Definition modify (f : State → State) : M () := λ st, (Ok (), f st).

(** [with transaction.atomic(): m] *)
Definition atomic {A : Type} (m : M A) : M A :=
  λ st, match m st with
        | (Ok a, st') => (Ok a, st')
        | (Raise e, _) => (Raise e, st)
        end.

(** [try: m  except exc: h], for the exceptions [handles] selects *)
Definition try_except {A : Type} (m : M A) (handles : Exn → bool) (h : Exn → M A) : M A :=
  λ st, match m st with
        | (Ok a, st') => (Ok a, st')
        | (Raise e, st') => if handles e then h e st' else (Raise e, st')
        end.

#[global] Instance M_ret : MRet M := @ret.
#[global] Instance M_bind : MBind M := λ A B k m, bind m k.

(** ** Responses *)

Definition HTTP_200_OK : Z := 200.
Definition HTTP_201_CREATED : Z := 201.
Definition HTTP_400_BAD_REQUEST : Z := 400.
Definition HTTP_403_FORBIDDEN : Z := 403.
Definition HTTP_404_NOT_FOUND : Z := 404.

(** What a response carries: an [{'error': ...}] dictionary, the errors of a
    serializer, the instance a serializer renders, or the result of a bulk
    operation ([{'message': ..., count_key: count}]). *)
Inductive Body : Type :=
| ErrorBody (error : string)
| ErrorsBody
| PlanBody (pk : Z) (plan : AnnualPlan.t)
| ReportBody (pk : Z) (report : QuarterlyReport.t)
| TargetBody (target : AnnualPlanTarget.t)
| EntryBody (entry : QuarterlyIndicatorEntry.t)
| BulkBody (message : string) (count_key : string) (count : Z).

Module Response.
Record t : Type := Build { data : Body; status : Z }.
End Response.

(** [Response(data)] answers 200. *)
Definition Response_ok (data : Body) : Response.t := Response.Build data HTTP_200_OK.

(** ** The model managers *)

(** Assigning a user object to a relation to [User]. *)
Definition user_pk (u : User.t) : Result Z :=
  if User.is_anonymous u then Raise ValueError else Ok (User.id u).

(** What [Model.__init__] accepts for a relation: [None] or an instance of the
    related model ([ValueError] otherwise; [AnonymousUser] is no [User]). *)
Definition fk_user (v : pyval) : Result (option Z) :=
  match v with
  | PNone => Ok None
  | PUser u => result_bind (user_pk u) (λ pk, Ok (Some pk))
  | _ => Raise ValueError
  end.

Definition fk_unit (v : pyval) : Result (option Unit.t) :=
  match v with
  | PNone => Ok None
  | PUnit u => Ok (Some u)
  | _ => Raise ValueError
  end.

Definition fk_plan (v : pyval) : Result (option Z) :=
  match v with
  | PNone => Ok None
  | PPlan pk _ => Ok (Some pk)
  | _ => Raise ValueError
  end.

Definition fk_report (v : pyval) : Result (option Z) :=
  match v with
  | PNone => Ok None
  | PReport pk _ => Ok (Some pk)
  | _ => Raise ValueError
  end.

(** [CharField.to_python]: [None] stays, anything else becomes its [str]. *)
Definition char_value (v : pyval) : option string :=
  match v with
  | PNone => None
  | _ => Some (py_str v)
  end.

(** A [NOT NULL] column refuses [None] when the row is written. *)
Definition not_null {A : Type} (o : option A) : Result A :=
  match o with
  | Some a => Ok a
  | None => Raise IntegrityError
  end.

(** [WorkflowAudit.objects.create(actor=..., unit=..., action=...,
    context_plan=..., context_report=..., message=...)]: the relations are
    checked when the instance is built, the row is written afterwards. *)
Definition WorkflowAudit_objects_create
    (actor unit action context_plan context_report : pyval) (message : string)
    (now : datetime.t) : M () :=
  actor ← lift (fk_user actor);
  unit ← lift (fk_unit unit);
  context_plan ← lift (fk_plan context_plan);
  context_report ← lift (fk_report context_report);
  actor ← lift (not_null actor);
  unit ← lift (not_null unit);
  action ← lift (not_null (char_value action));
  modify (set_audits (λ rows,
    rows ++ [WorkflowAudit.Build actor unit action context_plan context_report
                                 message now])).

(** [Indicator.objects.get(id=pk)] *)
Definition Indicator_objects_get (pk : Z) : M Indicator.t :=
  λ st, match indicators st !! pk with
        | Some i => (Ok i, st)
        | None => (Raise (DoesNotExist "Indicator"), st)
        end.

(** [Indicator.objects.get(id=pk, owner_unit=unit)] *)
Definition Indicator_objects_get_owned (pk : Z) (unit : Unit.t) : M Indicator.t :=
  λ st, match indicators st !! pk with
        | Some i =>
            if Unit.eqb (Indicator.owner_unit i) unit then (Ok i, st)
            else (Raise (DoesNotExist "Indicator"), st)
        | None => (Raise (DoesNotExist "Indicator"), st)
        end.

(** [User.objects.get(id=pk)] *)
Definition User_objects_get (pk : Z) : M User.t :=
  λ st, match users st !! pk with
        | Some u => (Ok u, st)
        | None => (Raise (DoesNotExist "User"), st)
        end.

(** [AnnualPlan.objects.get(id=pk)] *)
Definition AnnualPlan_objects_get (pk : Z) : M AnnualPlan.t :=
  λ st, match plans st !! pk with
        | Some p => (Ok p, st)
        | None => (Raise (DoesNotExist "AnnualPlan"), st)
        end.

(** [QuarterlyReport.objects.get(id=pk)] *)
Definition QuarterlyReport_objects_get (pk : Z) : M QuarterlyReport.t :=
  λ st, match reports st !! pk with
        | Some r => (Ok r, st)
        | None => (Raise (DoesNotExist "QuarterlyReport"), st)
        end.

(** [plan.save()] and [report.save()] write the row of the instance. *)
Definition AnnualPlan_save (pk : Z) (plan : AnnualPlan.t) : M () :=
  modify (set_plans (λ m, <[pk := plan]> m)).

Definition QuarterlyReport_save (pk : Z) (report : QuarterlyReport.t) : M () :=
  modify (set_reports (λ m, <[pk := report]> m)).

(** [plan.targets] and [report.entries], the reverse relations *)
Definition plan_targets (pk : Z) (st : State) : list AnnualPlanTarget.t :=
  filter (λ t, AnnualPlanTarget.plan t = pk) (targets st).

Definition report_entries (pk : Z) (st : State) : list QuarterlyIndicatorEntry.t :=
  filter (λ e, QuarterlyIndicatorEntry.report e = pk) (entries st).

(** [queryset.exists()] *)
Definition exists_ {A : Type} (rows : list A) : bool :=
  match rows with
  | [] => false
  | _ :: _ => true
  end.

(** [queryset.count()] *)
Definition count {A : Type} (rows : list A) : Z := Z.of_nat (length rows).

(** The next value of an automatic primary key: one more than the largest
    of [ids], which are the keys stored in the table together with the largest
    key the table ever held.  The key of a deleted row is not given again. *)
Definition next_id (ids : list Z) : Z := 1 + foldr Z.max 0 ids.

(** ** [views/base.py] *)

Definition get_user_profile (user : User.t) (st : State) : option UserProfile.t :=
  if User.is_anonymous user then None
  else profiles st !! User.id user.

Definition can_user_access_unit (user : User.t) (unit : Unit.t) (st : State) : bool :=
  match get_user_profile user st with
  | None => false
  | Some profile =>
      if Role_eqb (UserProfile.role profile) SUPERADMIN then true
      else Unit.eqb (UserProfile.unit profile) unit
  end.

Definition log_workflow_action (user unit action context_plan context_report : pyval)
    (message : string) (now : datetime.t) : M () :=
  WorkflowAudit_objects_create user unit action context_plan context_report message now.

(** [BaseViewSet.log_action(self, unit, action, context_plan=None,
    context_report=None, message="")]; [request_user] is [self.request.user]. *)
Definition log_action (request_user : User.t)
    (unit action context_plan context_report : pyval) (message : string)
    (now : datetime.t) : M () :=
  log_workflow_action (PUser request_user) unit action context_plan context_report
                      message now.

(** [profile.role] where [profile] may be [None] *)
Definition profile_role (profile : option UserProfile.t) : Result Role :=
  match profile with
  | Some p => Ok (UserProfile.role p)
  | None => Raise AttributeError
  end.

(** [profile.unit] where [profile] may be [None] *)
Definition profile_unit (profile : option UserProfile.t) : Result Unit.t :=
  match profile with
  | Some p => Ok (UserProfile.unit p)
  | None => Raise AttributeError
  end.

(** [role in ['SUPERADMIN', 'STRATEGIC_AFFAIRS']] *)
Definition is_approver_role (role : Role) : bool :=
  Role_eqb role SUPERADMIN || Role_eqb role STRATEGIC_AFFAIRS.

(** ** [serializers.py]: targets

    A dictionary over a fixed set of keys is a record of optional entries:
    [None] is an absent key.  [TargetData] is [request.data] as the target
    endpoints read it; [TargetDict] is [validated_data], to which
    the keyword arguments of [save] add the keys [plan] and [indicator]. *)

Module TargetData.
Record t : Type := Build {
  plan_id : option Z;
  indicator_id : option Z;
  target_value : option Decimal;
  baseline_value : option (option Decimal);
  remarks : option (option string)
}.
End TargetData.

Module TargetDict.
Record t : Type := Build {
  indicator_id : option Z;
  target_value : option Decimal;
  baseline_value : option (option Decimal);
  remarks : option (option string);
  plan : option (Z * AnnualPlan.t);
  indicator : option (Z * Indicator.t)
}.
End TargetDict.

(** [AnnualPlanTarget.objects.create(indicator=indicator, **kwargs)]: a key
    given twice is a [TypeError] of the call; the row must have its [NOT NULL]
    columns and respect [unique_together = (plan, indicator)]. *)
Definition AnnualPlanTarget_objects_create (indicator : Z * Indicator.t)
    (kwargs : TargetDict.t) : M AnnualPlanTarget.t :=
  if bool_decide (is_Some (TargetDict.indicator kwargs)) then raise TypeError
  else
    plan ← lift (not_null (TargetDict.plan kwargs));
    target_value ← lift (not_null (TargetDict.target_value kwargs));
    rows ← gets targets;
    if existsb (λ t, (AnnualPlanTarget.plan t =? plan.1)
                     && (AnnualPlanTarget.indicator t =? indicator.1)) rows
    then raise IntegrityError
    else
      seq ← gets target_seq;
      let row := AnnualPlanTarget.Build
                   (next_id (seq :: map AnnualPlanTarget.id rows)) plan.1 indicator.1
                   target_value
                   (default None (TargetDict.baseline_value kwargs))
                   (default None (TargetDict.remarks kwargs)) in
      modify (set_targets (λ rows, rows ++ [row]));;
      modify (set_target_seq (λ _, AnnualPlanTarget.id row));;
      mret row.

(** [target.save()] on an instance that has a primary key: the stored row
    with the key is written, or, when there is none, the row is inserted with
    the key, which the sequence of the table then takes into account *)
Definition AnnualPlanTarget_save (row : AnnualPlanTarget.t) : M () :=
  rows ← gets targets;
  if existsb (λ t, negb (AnnualPlanTarget.id t =? AnnualPlanTarget.id row)
                   && (AnnualPlanTarget.plan t =? AnnualPlanTarget.plan row)
                   && (AnnualPlanTarget.indicator t =? AnnualPlanTarget.indicator row)) rows
  then raise IntegrityError
  else if existsb (λ t, AnnualPlanTarget.id t =? AnnualPlanTarget.id row) rows
  then modify (set_targets (map (λ t,
         if AnnualPlanTarget.id t =? AnnualPlanTarget.id row then row else t)))
  else modify (set_targets (λ rows, rows ++ [row]));;
       modify (set_target_seq (Z.max (AnnualPlanTarget.id row))).

(** [target.delete()] *)
Definition AnnualPlanTarget_delete (row : AnnualPlanTarget.t) : M () :=
  modify (set_targets (filter (λ t, AnnualPlanTarget.id t ≠ AnnualPlanTarget.id row))).

Module AnnualPlanTargetSerializer.

(** [is_valid()] and [validated_data]: [indicator_id] and [target_value] are
    required unless the update is partial; [plan_id] is no field of the
    serializer. *)
Definition validated_data (partial : bool) (data : TargetData.t) : option TargetDict.t :=
  if partial
     || (bool_decide (is_Some (TargetData.indicator_id data))
         && bool_decide (is_Some (TargetData.target_value data)))
  then Some (TargetDict.Build (TargetData.indicator_id data)
                              (TargetData.target_value data)
                              (TargetData.baseline_value data)
                              (TargetData.remarks data) None None)
  else None.

Definition create (validated_data : TargetDict.t) : M AnnualPlanTarget.t :=
  (* indicator_id = validated_data.pop('indicator_id') *)
  indicator_id ← lift (match TargetDict.indicator_id validated_data with
                       | Some i => Ok i
                       | None => Raise KeyError
                       end);
  let validated_data :=
    TargetDict.Build None (TargetDict.target_value validated_data)
                     (TargetDict.baseline_value validated_data)
                     (TargetDict.remarks validated_data)
                     (TargetDict.plan validated_data)
                     (TargetDict.indicator validated_data) in
  indicator ← Indicator_objects_get indicator_id;
  AnnualPlanTarget_objects_create (indicator_id, indicator) validated_data.

Definition update (instance : AnnualPlanTarget.t) (validated_data : TargetDict.t)
    : M AnnualPlanTarget.t :=
  instance ← match TargetDict.indicator_id validated_data with
             | Some indicator_id =>
                 _ ← Indicator_objects_get indicator_id;
                 mret (AnnualPlanTarget.Build
                         (AnnualPlanTarget.id instance) (AnnualPlanTarget.plan instance)
                         indicator_id
                         (AnnualPlanTarget.target_value instance)
                         (AnnualPlanTarget.baseline_value instance)
                         (AnnualPlanTarget.remarks instance))
             | None => mret instance
             end;
  (* super().update(instance, validated_data): setattr for every key left *)
  let instance :=
    AnnualPlanTarget.Build
      (AnnualPlanTarget.id instance)
      (default (AnnualPlanTarget.plan instance) (fst <$> TargetDict.plan validated_data))
      (default (AnnualPlanTarget.indicator instance)
               (fst <$> TargetDict.indicator validated_data))
      (default (AnnualPlanTarget.target_value instance)
               (TargetDict.target_value validated_data))
      (default (AnnualPlanTarget.baseline_value instance)
               (TargetDict.baseline_value validated_data))
      (default (AnnualPlanTarget.remarks instance) (TargetDict.remarks validated_data)) in
  AnnualPlanTarget_save instance;;
  mret instance.

(** [serializer.save(plan=..., indicator=...)]: the keyword arguments are
    merged into [validated_data], then [create] or [update] runs according to
    whether the serializer was built on an instance. *)
Definition save (instance : option AnnualPlanTarget.t) (validated_data : TargetDict.t)
    (plan : option (Z * AnnualPlan.t)) (indicator : option (Z * Indicator.t))
    : M AnnualPlanTarget.t :=
  let validated_data :=
    TargetDict.Build (TargetDict.indicator_id validated_data)
                     (TargetDict.target_value validated_data)
                     (TargetDict.baseline_value validated_data)
                     (TargetDict.remarks validated_data)
                     (match plan with
                      | Some p => Some p
                      | None => TargetDict.plan validated_data
                      end)
                     (match indicator with
                      | Some i => Some i
                      | None => TargetDict.indicator validated_data
                      end) in
  match instance with
  | Some instance => update instance validated_data
  | None => create validated_data
  end.

End AnnualPlanTargetSerializer.

(** ** [serializers.py]: the bulk serializers *)

Module BulkData.
(** [plan_ids] is [None] when the key is missing or is no list of integers. *)
Record t : Type := Build { plan_ids : option (list Z); reason : option string }.
End BulkData.

(** [CharField(max_length=500)] on a given string, taken after trimming *)
Definition reason_ok (reason : string) : bool :=
  negb (String.eqb reason "") && (Z.of_nat (String.length reason) <=? 500).

(** [BulkApproveSerializer]: [plan_ids] with [allow_empty=False], [reason]
    not required. *)
Definition BulkApproveSerializer_validated_data (data : BulkData.t)
    : option (list Z * option string) :=
  match BulkData.plan_ids data with
  | Some (id :: ids) =>
      match BulkData.reason data with
      | Some reason => if reason_ok reason then Some (id :: ids, Some reason) else None
      | None => Some (id :: ids, None)
      end
  | _ => None
  end.

(** [BulkRejectSerializer]: as above with [reason] required. *)
Definition BulkRejectSerializer_validated_data (data : BulkData.t)
    : option (list Z * string) :=
  match BulkData.plan_ids data with
  | Some (id :: ids) =>
      match BulkData.reason data with
      | Some reason => if reason_ok reason then Some (id :: ids, reason) else None
      | None => None
      end
  | _ => None
  end.

(** [for x in xs: acc = body(acc, x)] *)
Fixpoint for_each {A S : Type} (body : S → A → M S) (acc : S) (xs : list A) : M S :=
  match xs with
  | [] => mret acc
  | x :: xs => acc ← body acc x; for_each body acc xs
  end.

(** [except Model.DoesNotExist] *)
Definition is_DoesNotExist (model : string) (e : Exn) : bool :=
  match e with
  | DoesNotExist m => String.eqb m model
  | _ => false
  end.

(** The framework's exception handler: [Http404] becomes the 404 response;
    the exceptions of Python are raised again. *)
Definition handle_exception (view : M Response.t) : M Response.t :=
  try_except view
    (λ e, match e with
          | Http404 _ => true
          | _ => false
          end)
    (λ _, mret (Response.Build (ErrorBody "Not found.") HTTP_404_NOT_FOUND)).

(** The value of a query parameter, as the conversion to an integer column
    sees the raw string. *)
Inductive QueryParam : Type :=
| QAbsent
| QInt (n : Z)
| QNotInt.

(** ** [serializers.py]: the computed fields of a plan

    [obj] is the instance being rendered, [pk] its primary key; [a and b] is
    [a] when [a] is false.  [now] is the value of [timezone.now()] that
    [is_within_entry_window] reads. *)
Module AnnualPlanSerializer.

Definition get_can_edit (obj : AnnualPlan.t) (now : datetime.t) : Result bool :=
  if Status_eqb (AnnualPlan.status obj) DRAFT
  then AnnualPlan.is_within_entry_window obj None now
  else Ok false.



Definition get_is_within_entry_window (obj : AnnualPlan.t) (now : datetime.t)
    : Result bool :=
  AnnualPlan.is_within_entry_window obj None now.

(** [serializer.data]: the fields are evaluated in the order of
    [Meta.fields]; of the computed ones, [can_edit] and
    [is_within_entry_window] can raise. *)
Definition data (pk : Z) (obj : AnnualPlan.t) (now : datetime.t) : Result Body :=
  _ ← get_can_edit obj now;
  _ ← get_is_within_entry_window obj now;
  Ok (PlanBody pk obj).

End AnnualPlanSerializer.

(** ** [views/base.py]: [BaseViewSet]

    [permission_classes = [IsAuthenticated]]: a request without credentials
    is answered by the framework, before the view runs; the view of any other
    request runs under the exception handler. *)
Definition not_authenticated : Response.t :=
  Response.Build (ErrorBody "Authentication credentials were not provided.")
                 HTTP_403_FORBIDDEN.

Definition dispatch (user : User.t) (view : M Response.t) : M Response.t :=
  if User.is_anonymous user then mret not_authenticated
  else handle_exception view.

(** ** [views/annual_plans.py] *)

Module AnnualPlanViewSet.

(** A queryset is the condition its rows satisfy. *)
Definition get_queryset (user : User.t) (year_param : QueryParam) (utc_now : datetime.t)
    (st : State) : Result (AnnualPlan.t → bool) :=
  let profile := get_user_profile user st in
  (* year = query_params.get('year', timezone.now().year); filter(year=year) *)
  year ← match year_param with
         | QAbsent => Ok (datetime.year utc_now)
         | QInt n => Ok n
         | QNotInt => Raise ValueError
         end;
  role ← profile_role profile;
  if negb (Role_eqb role SUPERADMIN) then
    unit ← profile_unit profile;
    Ok (λ p, (AnnualPlan.year p =? year) && Unit.eqb (AnnualPlan.unit p) unit)
  else Ok (λ p, AnnualPlan.year p =? year).

(** The framework's [get_object()]: the row of [get_queryset()] with the
    primary key of the URL, or [Http404]. *)
Definition get_object (user : User.t) (year_param : QueryParam) (utc_now : datetime.t)
    (pk : Z) (st : State) : Result AnnualPlan.t :=
  result_bind (get_queryset user year_param utc_now st) (λ queryset,
  match plans st !! pk with
  | Some p => if queryset p then Ok p else Raise (Http404 "AnnualPlan")
  | None => Raise (Http404 "AnnualPlan")
  end).

(** A detail route: past the permission check the framework resolves the
    object and runs the view, under its exception handler. *)
Definition detail_route (view : Z → AnnualPlan.t → M Response.t)
    (user : User.t) (year_param : QueryParam) (utc_now : datetime.t) (pk : Z)
    : M Response.t :=
  dispatch user
    (plan ← (λ st, (get_object user year_param utc_now pk st, st));
     view pk plan).

(** The transitions end by rendering the plan they have stored.  [now] is
    the clock of the call, which the rendering reads a moment later: whether
    the rendering raises does not depend on the reading, and the body does not
    keep the fields that do. *)
Definition submit (user : User.t) (now : datetime.t) (pk : Z) (plan : AnnualPlan.t)
    : M Response.t :=
  access ← gets (can_user_access_unit user (AnnualPlan.unit plan));
  if negb access then
    mret (Response.Build (ErrorBody "Permission denied") HTTP_403_FORBIDDEN)
  else if negb (Status_eqb (AnnualPlan.status plan) DRAFT) then
    mret (Response.Build (ErrorBody "Only draft plans can be submitted")
                         HTTP_400_BAD_REQUEST)
  else
    has_targets ← gets (λ st, exists_ (plan_targets pk st));
    if negb has_targets then
      mret (Response.Build (ErrorBody "Cannot submit plan without targets")
                           HTTP_400_BAD_REQUEST)
    else
      let plan := AnnualPlan.set_status SUBMITTED plan in
      let plan := AnnualPlan.set_submitted_at (Some now) plan in
      AnnualPlan_save pk plan;;
      log_action user (PUnit (AnnualPlan.unit plan)) (PStr "SUBMIT")
                 (PPlan pk plan) PNone
                 ("Submitted annual plan for " +:+ pretty (AnnualPlan.year plan)) now;;
      body ← lift (AnnualPlanSerializer.data pk plan now);
      mret (Response_ok body).

Definition approve (user : User.t) (now : datetime.t) (pk : Z) (plan : AnnualPlan.t)
    : M Response.t :=
  profile ← gets (get_user_profile user);
  access ← gets (can_user_access_unit user (AnnualPlan.unit plan));
  if negb access then
    mret (Response.Build (ErrorBody "Permission denied") HTTP_403_FORBIDDEN)
  else
    role ← lift (profile_role profile);
    if negb (is_approver_role role) then
      mret (Response.Build (ErrorBody "Insufficient permissions") HTTP_403_FORBIDDEN)
    else if negb (Status_eqb (AnnualPlan.status plan) SUBMITTED) then
      mret (Response.Build (ErrorBody "Only submitted plans can be approved")
                           HTTP_400_BAD_REQUEST)
    else
      let plan := AnnualPlan.set_status APPROVED plan in
      let plan := AnnualPlan.set_approved_by (Some (User.id user)) plan in
      let plan := AnnualPlan.set_approved_at (Some now) plan in
      AnnualPlan_save pk plan;;
      log_action user (PUnit (AnnualPlan.unit plan)) (PStr "APPROVE")
                 (PPlan pk plan) PNone
                 ("Approved annual plan for " +:+ pretty (AnnualPlan.year plan)) now;;
      body ← lift (AnnualPlanSerializer.data pk plan now);
      mret (Response_ok body).

Definition reject (user : User.t) (now : datetime.t) (pk : Z) (plan : AnnualPlan.t)
    : M Response.t :=
  profile ← gets (get_user_profile user);
  access ← gets (can_user_access_unit user (AnnualPlan.unit plan));
  if negb access then
    mret (Response.Build (ErrorBody "Permission denied") HTTP_403_FORBIDDEN)
  else
    role ← lift (profile_role profile);
    if negb (is_approver_role role) then
      mret (Response.Build (ErrorBody "Insufficient permissions") HTTP_403_FORBIDDEN)
    else if negb (Status_eqb (AnnualPlan.status plan) SUBMITTED) then
      mret (Response.Build (ErrorBody "Only submitted plans can be rejected")
                           HTTP_400_BAD_REQUEST)
    else
      let plan := AnnualPlan.set_status REJECTED plan in
      AnnualPlan_save pk plan;;
      log_action user (PUnit (AnnualPlan.unit plan)) (PStr "REJECT")
                 (PPlan pk plan) PNone
                 ("Rejected annual plan for " +:+ pretty (AnnualPlan.year plan)) now;;
      body ← lift (AnnualPlanSerializer.data pk plan now);
      mret (Response_ok body).

Definition add_target (user : User.t) (now : datetime.t) (pk : Z) (plan : AnnualPlan.t)
    (data : TargetData.t) : M Response.t :=
  access ← gets (can_user_access_unit user (AnnualPlan.unit plan));
  if negb access then
    mret (Response.Build (ErrorBody "Permission denied") HTTP_403_FORBIDDEN)
  else if negb (Status_eqb (AnnualPlan.status plan) DRAFT) then
    mret (Response.Build (ErrorBody "Cannot add targets to submitted/approved plans")
                         HTTP_400_BAD_REQUEST)
  else
    match AnnualPlanTargetSerializer.validated_data false data with
    | Some validated_data =>
        try_except
          (indicator_id ← lift (match TargetDict.indicator_id validated_data with
                                | Some i => Ok i
                                | None => Raise (DoesNotExist "Indicator")
                                end);
           indicator ← Indicator_objects_get_owned indicator_id (AnnualPlan.unit plan);
           target ← AnnualPlanTargetSerializer.save None validated_data
                      (Some (pk, plan)) (Some (indicator_id, indicator));
           log_action user (PUnit (AnnualPlan.unit plan)) (PStr "CREATE")
                      (PPlan pk plan) PNone
                      ("Added target for indicator " +:+ Indicator.code indicator) now;;
           mret (Response.Build (TargetBody target) HTTP_201_CREATED))
          (is_DoesNotExist "Indicator")
          (λ _, mret (Response.Build (ErrorBody "Invalid indicator for this unit")
                                     HTTP_400_BAD_REQUEST))
    | None => mret (Response.Build ErrorsBody HTTP_400_BAD_REQUEST)
    end.

(** The body of the loop of [bulk_approve] for one [plan_id]. *)
Definition bulk_approve_item (user : User.t) (reason : string) (now : datetime.t)
    (approved_count : Z) (plan_id : Z) : M Z :=
  try_except
    (plan ← AnnualPlan_objects_get plan_id;
     if Status_eqb (AnnualPlan.status plan) SUBMITTED then
       let plan := AnnualPlan.set_status APPROVED plan in
       let plan := AnnualPlan.set_approved_by (Some (User.id user)) plan in
       let plan := AnnualPlan.set_approved_at (Some now) plan in
       AnnualPlan_save plan_id plan;;
       let approved_count := approved_count + 1 in
       log_action user (PUnit (AnnualPlan.unit plan)) (PStr "APPROVE")
                  (PPlan plan_id plan) PNone ("Bulk approved: " +:+ reason) now;;
       mret approved_count
     else mret approved_count)
    (is_DoesNotExist "AnnualPlan")
    (λ _, mret approved_count).

Definition bulk_approve (user : User.t) (now : datetime.t) (data : BulkData.t)
    : M Response.t :=
  profile ← gets (get_user_profile user);
  role ← lift (profile_role profile);
  if negb (is_approver_role role) then
    mret (Response.Build (ErrorBody "Insufficient permissions") HTTP_403_FORBIDDEN)
  else
    match BulkApproveSerializer_validated_data data with
    | Some (plan_ids, reason) =>
        let reason := default "" reason in
        approved_count ← atomic (for_each (bulk_approve_item user reason now) 0 plan_ids);
        mret (Response_ok (BulkBody (pretty approved_count +:+ " plans approved successfully")
                                    "approved_count" approved_count))
    | None => mret (Response.Build ErrorsBody HTTP_400_BAD_REQUEST)
    end.

Definition bulk_reject_item (user : User.t) (reason : string) (now : datetime.t)
    (rejected_count : Z) (plan_id : Z) : M Z :=
  try_except
    (plan ← AnnualPlan_objects_get plan_id;
     if Status_eqb (AnnualPlan.status plan) SUBMITTED then
       let plan := AnnualPlan.set_status REJECTED plan in
       AnnualPlan_save plan_id plan;;
       let rejected_count := rejected_count + 1 in
       log_action user (PUnit (AnnualPlan.unit plan)) (PStr "REJECT")
                  (PPlan plan_id plan) PNone ("Bulk rejected: " +:+ reason) now;;
       mret rejected_count
     else mret rejected_count)
    (is_DoesNotExist "AnnualPlan")
    (λ _, mret rejected_count).

Definition bulk_reject (user : User.t) (now : datetime.t) (data : BulkData.t)
    : M Response.t :=
  profile ← gets (get_user_profile user);
  role ← lift (profile_role profile);
  if negb (is_approver_role role) then
    mret (Response.Build (ErrorBody "Insufficient permissions") HTTP_403_FORBIDDEN)
  else
    match BulkRejectSerializer_validated_data data with
    | Some (plan_ids, reason) =>
        rejected_count ← atomic (for_each (bulk_reject_item user reason now) 0 plan_ids);
        mret (Response_ok (BulkBody (pretty rejected_count +:+ " plans rejected successfully")
                                    "rejected_count" rejected_count))
    | None => mret (Response.Build ErrorsBody HTTP_400_BAD_REQUEST)
    end.

End AnnualPlanViewSet.

Module AnnualPlanTargetViewSet.

(** The hooks return what their [return] statements give: [None] when the
    body runs to its end.  [serializer] is the validated data of the
    serializer the framework hands over. *)

Definition perform_create (user : User.t) (now : datetime.t) (data : TargetData.t)
    (serializer : TargetDict.t) : M (option Response.t) :=
  match TargetData.plan_id data with
  | Some plan_id =>
      if plan_id =? 0 then
        mret (Some (Response.Build (ErrorBody "plan_id is required") HTTP_400_BAD_REQUEST))
      else
        try_except
          (plan ← AnnualPlan_objects_get plan_id;
           access ← gets (can_user_access_unit user (AnnualPlan.unit plan));
           if negb access then
             mret (Some (Response.Build (ErrorBody "Permission denied") HTTP_403_FORBIDDEN))
           else if negb (Status_eqb (AnnualPlan.status plan) DRAFT) then
             mret (Some (Response.Build
                           (ErrorBody "Cannot add targets to submitted/approved plans")
                           HTTP_400_BAD_REQUEST))
           else
             instance ← AnnualPlanTargetSerializer.save None serializer
                          (Some (plan_id, plan)) None;
             indicator ← Indicator_objects_get (AnnualPlanTarget.indicator instance);
             log_action user (PUnit (AnnualPlan.unit plan)) (PStr "CREATE")
                        (PPlan plan_id plan) PNone
                        ("Added target for indicator " +:+ Indicator.code indicator) now;;
             mret None)
          (is_DoesNotExist "AnnualPlan")
          (λ _, mret (Some (Response.Build (ErrorBody "Plan not found") HTTP_404_NOT_FOUND)))
  | None =>
      mret (Some (Response.Build (ErrorBody "plan_id is required") HTTP_400_BAD_REQUEST))
  end.

(** [target] is the instance [self.get_object()] resolved, on which the
    serializer was built. *)
Definition perform_update (user : User.t) (now : datetime.t) (target : AnnualPlanTarget.t)
    (serializer : TargetDict.t) : M (option Response.t) :=
  plan ← AnnualPlan_objects_get (AnnualPlanTarget.plan target);
  access ← gets (can_user_access_unit user (AnnualPlan.unit plan));
  if negb access then
    mret (Some (Response.Build (ErrorBody "Permission denied") HTTP_403_FORBIDDEN))
  else if negb (Status_eqb (AnnualPlan.status plan) DRAFT) then
    mret (Some (Response.Build
                  (ErrorBody "Cannot modify targets in submitted/approved plans")
                  HTTP_400_BAD_REQUEST))
  else
    AnnualPlanTargetSerializer.save (Some target) serializer None None;;
    indicator ← Indicator_objects_get (AnnualPlanTarget.indicator target);
    log_action user (PUnit (AnnualPlan.unit plan)) (PStr "UPDATE")
               (PPlan (AnnualPlanTarget.plan target) plan) PNone
               ("Updated target for indicator " +:+ Indicator.code indicator) now;;
    mret None.

Definition perform_destroy (user : User.t) (now : datetime.t) (instance : AnnualPlanTarget.t)
    : M (option Response.t) :=
  plan ← AnnualPlan_objects_get (AnnualPlanTarget.plan instance);
  access ← gets (can_user_access_unit user (AnnualPlan.unit plan));
  if negb access then
    mret (Some (Response.Build (ErrorBody "Permission denied") HTTP_403_FORBIDDEN))
  else if negb (Status_eqb (AnnualPlan.status plan) DRAFT) then
    mret (Some (Response.Build
                  (ErrorBody "Cannot delete targets from submitted/approved plans")
                  HTTP_400_BAD_REQUEST))
  else
    indicator ← Indicator_objects_get (AnnualPlanTarget.indicator instance);
    log_action user (PUnit (AnnualPlan.unit plan)) (PStr "DELETE")
               (PPlan (AnnualPlanTarget.plan instance) plan) PNone
               ("Deleted target for indicator " +:+ Indicator.code indicator) now;;
    AnnualPlanTarget_delete instance;;
    mret None.

End AnnualPlanTargetViewSet.

(** ** [serializers.py]: entries *)

Module EntryData.
Record t : Type := Build {
  report_id : option Z;
  indicator_id : option Z;
  achieved_value : option Decimal;
  remarks : option (option string);
  evidence_file : option (option string);
  updated_by_id : option Z
}.
End EntryData.

Module EntryDict.
Record t : Type := Build {
  indicator_id : option Z;
  updated_by_id : option Z;
  achieved_value : option Decimal;
  remarks : option (option string);
  evidence_file : option (option string);
  report : option (Z * QuarterlyReport.t);
  indicator : option (Z * Indicator.t);
  updated_by : option User.t
}.
End EntryDict.

(** [QuarterlyIndicatorEntry.objects.create(indicator=indicator,
    updated_by=updated_by, **kwargs)]; [updated_at] has [auto_now]. *)
Definition QuarterlyIndicatorEntry_objects_create (indicator : Z * Indicator.t)
    (updated_by : User.t) (kwargs : EntryDict.t) (now : datetime.t)
    : M QuarterlyIndicatorEntry.t :=
  if bool_decide (is_Some (EntryDict.indicator kwargs))
     || bool_decide (is_Some (EntryDict.updated_by kwargs))
  then raise TypeError
  else
    updated_by ← lift (user_pk updated_by);
    report ← lift (not_null (EntryDict.report kwargs));
    achieved_value ← lift (not_null (EntryDict.achieved_value kwargs));
    rows ← gets entries;
    if existsb (λ e, (QuarterlyIndicatorEntry.report e =? report.1)
                     && (QuarterlyIndicatorEntry.indicator e =? indicator.1)) rows
    then raise IntegrityError
    else
      seq ← gets entry_seq;
      let row := QuarterlyIndicatorEntry.Build
                   (next_id (seq :: map QuarterlyIndicatorEntry.id rows)) report.1
                   indicator.1 achieved_value
                   (default None (EntryDict.remarks kwargs))
                   (default None (EntryDict.evidence_file kwargs))
                   updated_by now in
      modify (set_entries (λ rows, rows ++ [row]));;
      modify (set_entry_seq (λ _, QuarterlyIndicatorEntry.id row));;
      mret row.

(** [entry.save()] on a stored instance; [auto_now] refreshes [updated_at]. *)
Definition QuarterlyIndicatorEntry_save (row : QuarterlyIndicatorEntry.t) (now : datetime.t)
    : M QuarterlyIndicatorEntry.t :=
  let row := QuarterlyIndicatorEntry.Build
               (QuarterlyIndicatorEntry.id row) (QuarterlyIndicatorEntry.report row)
               (QuarterlyIndicatorEntry.indicator row)
               (QuarterlyIndicatorEntry.achieved_value row)
               (QuarterlyIndicatorEntry.remarks row)
               (QuarterlyIndicatorEntry.evidence_file row)
               (QuarterlyIndicatorEntry.updated_by row) now in
  rows ← gets entries;
  if existsb (λ e, negb (QuarterlyIndicatorEntry.id e =? QuarterlyIndicatorEntry.id row)
                   && (QuarterlyIndicatorEntry.report e =? QuarterlyIndicatorEntry.report row)
                   && (QuarterlyIndicatorEntry.indicator e
                       =? QuarterlyIndicatorEntry.indicator row)) rows
  then raise IntegrityError
  else if existsb (λ e, QuarterlyIndicatorEntry.id e =? QuarterlyIndicatorEntry.id row) rows
  then modify (set_entries (map (λ e,
         if QuarterlyIndicatorEntry.id e =? QuarterlyIndicatorEntry.id row then row else e)));;
       mret row
  else modify (set_entries (λ rows, rows ++ [row]));;
       modify (set_entry_seq (Z.max (QuarterlyIndicatorEntry.id row)));;
       mret row.

(** [entry.delete()] *)
Definition QuarterlyIndicatorEntry_delete (row : QuarterlyIndicatorEntry.t) : M () :=
  modify (set_entries
            (filter (λ e, QuarterlyIndicatorEntry.id e ≠ QuarterlyIndicatorEntry.id row))).

Module QuarterlyIndicatorEntrySerializer.

(** [indicator_id], [achieved_value] and [updated_by_id] are required unless
    the update is partial; [report_id] is no field of the serializer. *)
Definition validated_data (partial : bool) (data : EntryData.t) : option EntryDict.t :=
  if partial
     || (bool_decide (is_Some (EntryData.indicator_id data))
         && bool_decide (is_Some (EntryData.achieved_value data))
         && bool_decide (is_Some (EntryData.updated_by_id data)))
  then Some (EntryDict.Build (EntryData.indicator_id data)
                             (EntryData.updated_by_id data)
                             (EntryData.achieved_value data)
                             (EntryData.remarks data)
                             (EntryData.evidence_file data) None None None)
  else None.

Definition create (validated_data : EntryDict.t) (now : datetime.t)
    : M QuarterlyIndicatorEntry.t :=
  (* indicator_id = validated_data.pop('indicator_id') *)
  indicator_id ← lift (match EntryDict.indicator_id validated_data with
                       | Some i => Ok i
                       | None => Raise KeyError
                       end);
  (* updated_by_id = validated_data.pop('updated_by_id') *)
  updated_by_id ← lift (match EntryDict.updated_by_id validated_data with
                        | Some i => Ok i
                        | None => Raise KeyError
                        end);
  let validated_data :=
    EntryDict.Build None None
                    (EntryDict.achieved_value validated_data)
                    (EntryDict.remarks validated_data)
                    (EntryDict.evidence_file validated_data)
                    (EntryDict.report validated_data)
                    (EntryDict.indicator validated_data)
                    (EntryDict.updated_by validated_data) in
  indicator ← Indicator_objects_get indicator_id;
  updated_by ← User_objects_get updated_by_id;
  QuarterlyIndicatorEntry_objects_create (indicator_id, indicator) updated_by
                                         validated_data now.

Definition update (instance : QuarterlyIndicatorEntry.t) (validated_data : EntryDict.t)
    (now : datetime.t) : M QuarterlyIndicatorEntry.t :=
  instance ← match EntryDict.indicator_id validated_data with
             | Some indicator_id =>
                 _ ← Indicator_objects_get indicator_id;
                 mret (QuarterlyIndicatorEntry.Build
                         (QuarterlyIndicatorEntry.id instance)
                         (QuarterlyIndicatorEntry.report instance)
                         indicator_id
                         (QuarterlyIndicatorEntry.achieved_value instance)
                         (QuarterlyIndicatorEntry.remarks instance)
                         (QuarterlyIndicatorEntry.evidence_file instance)
                         (QuarterlyIndicatorEntry.updated_by instance)
                         (QuarterlyIndicatorEntry.updated_at instance))
             | None => mret instance
             end;
  instance ← match EntryDict.updated_by_id validated_data with
             | Some updated_by_id =>
                 updated_by ← User_objects_get updated_by_id;
                 updated_by ← lift (user_pk updated_by);
                 mret (QuarterlyIndicatorEntry.Build
                         (QuarterlyIndicatorEntry.id instance)
                         (QuarterlyIndicatorEntry.report instance)
                         (QuarterlyIndicatorEntry.indicator instance)
                         (QuarterlyIndicatorEntry.achieved_value instance)
                         (QuarterlyIndicatorEntry.remarks instance)
                         (QuarterlyIndicatorEntry.evidence_file instance)
                         updated_by
                         (QuarterlyIndicatorEntry.updated_at instance))
             | None => mret instance
             end;
  (* super().update(instance, validated_data): setattr for every key left *)
  updated_by ← match EntryDict.updated_by validated_data with
               | Some u => lift (user_pk u)
               | None => mret (QuarterlyIndicatorEntry.updated_by instance)
               end;
  let instance :=
    QuarterlyIndicatorEntry.Build
      (QuarterlyIndicatorEntry.id instance)
      (default (QuarterlyIndicatorEntry.report instance)
               (fst <$> EntryDict.report validated_data))
      (default (QuarterlyIndicatorEntry.indicator instance)
               (fst <$> EntryDict.indicator validated_data))
      (default (QuarterlyIndicatorEntry.achieved_value instance)
               (EntryDict.achieved_value validated_data))
      (default (QuarterlyIndicatorEntry.remarks instance) (EntryDict.remarks validated_data))
      (default (QuarterlyIndicatorEntry.evidence_file instance)
               (EntryDict.evidence_file validated_data))
      updated_by
      (QuarterlyIndicatorEntry.updated_at instance) in
  QuarterlyIndicatorEntry_save instance now.

(** [serializer.save(report=..., indicator=..., updated_by=...)] *)
Definition save (instance : option QuarterlyIndicatorEntry.t) (validated_data : EntryDict.t)
    (report : option (Z * QuarterlyReport.t)) (indicator : option (Z * Indicator.t))
    (updated_by : option User.t) (now : datetime.t) : M QuarterlyIndicatorEntry.t :=
  let validated_data :=
    EntryDict.Build (EntryDict.indicator_id validated_data)
                    (EntryDict.updated_by_id validated_data)
                    (EntryDict.achieved_value validated_data)
                    (EntryDict.remarks validated_data)
                    (EntryDict.evidence_file validated_data)
                    (match report with
                     | Some r => Some r
                     | None => EntryDict.report validated_data
                     end)
                    (match indicator with
                     | Some i => Some i
                     | None => EntryDict.indicator validated_data
                     end)
                    (match updated_by with
                     | Some u => Some u
                     | None => EntryDict.updated_by validated_data
                     end) in
  match instance with
  | Some instance => update instance validated_data now
  | None => create validated_data now
  end.

End QuarterlyIndicatorEntrySerializer.

(** ** [views/quarterly_reports.py]

    The calls in this file are [self.log_action(request.user, report.unit,
    'SUBMIT', context_report=report, message=...)]: against the signature
    [log_action(self, unit, action, context_plan=None, context_report=None,
    message="")] the three positional arguments land in [unit], [action] and
    [context_plan]. *)

Module QuarterlyReportViewSet.

Definition submit (user : User.t) (now : datetime.t) (pk : Z) (report : QuarterlyReport.t)
    : M Response.t :=
  access ← gets (can_user_access_unit user (QuarterlyReport.unit report));
  if negb access then
    mret (Response.Build (ErrorBody "Permission denied") HTTP_403_FORBIDDEN)
  else if negb (Status_eqb (QuarterlyReport.status report) DRAFT) then
    mret (Response.Build (ErrorBody "Only draft reports can be submitted")
                         HTTP_400_BAD_REQUEST)
  else
    has_entries ← gets (λ st, exists_ (report_entries pk st));
    if negb has_entries then
      mret (Response.Build (ErrorBody "Cannot submit report without entries")
                           HTTP_400_BAD_REQUEST)
    else
      let report := QuarterlyReport.set_status SUBMITTED report in
      let report := QuarterlyReport.set_submitted_at (Some now) report in
      QuarterlyReport_save pk report;;
      log_action user (PUser user) (PUnit (QuarterlyReport.unit report)) (PStr "SUBMIT")
                 (PReport pk report)
                 ("Submitted quarterly report for Q" +:+ pretty (QuarterlyReport.quarter report)
                    +:+ " " +:+ pretty (QuarterlyReport.year report)) now;;
      mret (Response_ok (ReportBody pk report)).

Definition approve (user : User.t) (now : datetime.t) (pk : Z) (report : QuarterlyReport.t)
    : M Response.t :=
  profile ← gets (get_user_profile user);
  access ← gets (can_user_access_unit user (QuarterlyReport.unit report));
  if negb access then
    mret (Response.Build (ErrorBody "Permission denied") HTTP_403_FORBIDDEN)
  else
    role ← lift (profile_role profile);
    if negb (is_approver_role role) then
      mret (Response.Build (ErrorBody "Insufficient permissions") HTTP_403_FORBIDDEN)
    else if negb (Status_eqb (QuarterlyReport.status report) SUBMITTED) then
      mret (Response.Build (ErrorBody "Only submitted reports can be approved")
                           HTTP_400_BAD_REQUEST)
    else
      let report := QuarterlyReport.set_status APPROVED report in
      let report := QuarterlyReport.set_approved_by (Some (User.id user)) report in
      let report := QuarterlyReport.set_approved_at (Some now) report in
      QuarterlyReport_save pk report;;
      log_action user (PUser user) (PUnit (QuarterlyReport.unit report)) (PStr "APPROVE")
                 (PReport pk report)
                 ("Approved quarterly report for Q" +:+ pretty (QuarterlyReport.quarter report)
                    +:+ " " +:+ pretty (QuarterlyReport.year report)) now;;
      mret (Response_ok (ReportBody pk report)).

Definition reject (user : User.t) (now : datetime.t) (pk : Z) (report : QuarterlyReport.t)
    : M Response.t :=
  profile ← gets (get_user_profile user);
  access ← gets (can_user_access_unit user (QuarterlyReport.unit report));
  if negb access then
    mret (Response.Build (ErrorBody "Permission denied") HTTP_403_FORBIDDEN)
  else
    role ← lift (profile_role profile);
    if negb (is_approver_role role) then
      mret (Response.Build (ErrorBody "Insufficient permissions") HTTP_403_FORBIDDEN)
    else if negb (Status_eqb (QuarterlyReport.status report) SUBMITTED) then
      mret (Response.Build (ErrorBody "Only submitted reports can be rejected")
                           HTTP_400_BAD_REQUEST)
    else
      let report := QuarterlyReport.set_status REJECTED report in
      QuarterlyReport_save pk report;;
      log_action user (PUser user) (PUnit (QuarterlyReport.unit report)) (PStr "REJECT")
                 (PReport pk report)
                 ("Rejected quarterly report for Q" +:+ pretty (QuarterlyReport.quarter report)
                    +:+ " " +:+ pretty (QuarterlyReport.year report)) now;;
      mret (Response_ok (ReportBody pk report)).

Definition add_entry (user : User.t) (now : datetime.t) (pk : Z) (report : QuarterlyReport.t)
    (data : EntryData.t) : M Response.t :=
  access ← gets (can_user_access_unit user (QuarterlyReport.unit report));
  if negb access then
    mret (Response.Build (ErrorBody "Permission denied") HTTP_403_FORBIDDEN)
  else if negb (Status_eqb (QuarterlyReport.status report) DRAFT) then
    mret (Response.Build (ErrorBody "Cannot add entries to submitted/approved reports")
                         HTTP_400_BAD_REQUEST)
  else
    match QuarterlyIndicatorEntrySerializer.validated_data false data with
    | Some validated_data =>
        try_except
          (indicator_id ← lift (match EntryDict.indicator_id validated_data with
                                | Some i => Ok i
                                | None => Raise (DoesNotExist "Indicator")
                                end);
           indicator ← Indicator_objects_get_owned indicator_id (QuarterlyReport.unit report);
           entry ← QuarterlyIndicatorEntrySerializer.save None validated_data
                     (Some (pk, report)) (Some (indicator_id, indicator)) (Some user) now;
           log_action user (PUser user) (PUnit (QuarterlyReport.unit report)) (PStr "CREATE")
                      (PReport pk report)
                      ("Added entry for indicator " +:+ Indicator.code indicator) now;;
           mret (Response.Build (EntryBody entry) HTTP_201_CREATED))
          (is_DoesNotExist "Indicator")
          (λ _, mret (Response.Build (ErrorBody "Invalid indicator for this unit")
                                     HTTP_400_BAD_REQUEST))
    | None => mret (Response.Build ErrorsBody HTTP_400_BAD_REQUEST)
    end.

Definition bulk_approve_item (user : User.t) (reason : string) (now : datetime.t)
    (approved_count : Z) (report_id : Z) : M Z :=
  try_except
    (report ← QuarterlyReport_objects_get report_id;
     if Status_eqb (QuarterlyReport.status report) SUBMITTED then
       let report := QuarterlyReport.set_status APPROVED report in
       let report := QuarterlyReport.set_approved_by (Some (User.id user)) report in
       let report := QuarterlyReport.set_approved_at (Some now) report in
       QuarterlyReport_save report_id report;;
       let approved_count := approved_count + 1 in
       log_action user (PUser user) (PUnit (QuarterlyReport.unit report)) (PStr "APPROVE")
                  (PReport report_id report) ("Bulk approved: " +:+ reason) now;;
       mret approved_count
     else mret approved_count)
    (is_DoesNotExist "QuarterlyReport")
    (λ _, mret approved_count).

Definition bulk_approve (user : User.t) (now : datetime.t) (data : BulkData.t)
    : M Response.t :=
  profile ← gets (get_user_profile user);
  role ← lift (profile_role profile);
  if negb (is_approver_role role) then
    mret (Response.Build (ErrorBody "Insufficient permissions") HTTP_403_FORBIDDEN)
  else
    match BulkApproveSerializer_validated_data data with
    | Some (report_ids, reason) =>
        let reason := default "" reason in
        approved_count ← atomic (for_each (bulk_approve_item user reason now) 0 report_ids);
        mret (Response_ok (BulkBody (pretty approved_count +:+ " reports approved successfully")
                                    "approved_count" approved_count))
    | None => mret (Response.Build ErrorsBody HTTP_400_BAD_REQUEST)
    end.

End QuarterlyReportViewSet.

Module QuarterlyIndicatorEntryViewSet.

Definition perform_create (user : User.t) (now : datetime.t) (data : EntryData.t)
    (serializer : EntryDict.t) : M (option Response.t) :=
  match EntryData.report_id data with
  | Some report_id =>
      if report_id =? 0 then
        mret (Some (Response.Build (ErrorBody "report_id is required") HTTP_400_BAD_REQUEST))
      else
        try_except
          (report ← QuarterlyReport_objects_get report_id;
           access ← gets (can_user_access_unit user (QuarterlyReport.unit report));
           if negb access then
             mret (Some (Response.Build (ErrorBody "Permission denied") HTTP_403_FORBIDDEN))
           else if negb (Status_eqb (QuarterlyReport.status report) DRAFT) then
             mret (Some (Response.Build
                           (ErrorBody "Cannot add entries to submitted/approved reports")
                           HTTP_400_BAD_REQUEST))
           else
             instance ← QuarterlyIndicatorEntrySerializer.save None serializer
                          (Some (report_id, report)) None (Some user) now;
             indicator ← Indicator_objects_get (QuarterlyIndicatorEntry.indicator instance);
             log_action user (PUser user) (PUnit (QuarterlyReport.unit report)) (PStr "CREATE")
                        (PReport report_id report)
                        ("Added entry for indicator " +:+ Indicator.code indicator) now;;
             mret None)
          (is_DoesNotExist "QuarterlyReport")
          (λ _, mret (Some (Response.Build (ErrorBody "Report not found")
                                           HTTP_404_NOT_FOUND)))
  | None =>
      mret (Some (Response.Build (ErrorBody "report_id is required") HTTP_400_BAD_REQUEST))
  end.

Definition perform_update (user : User.t) (now : datetime.t)
    (entry : QuarterlyIndicatorEntry.t) (serializer : EntryDict.t)
    : M (option Response.t) :=
  report ← QuarterlyReport_objects_get (QuarterlyIndicatorEntry.report entry);
  access ← gets (can_user_access_unit user (QuarterlyReport.unit report));
  if negb access then
    mret (Some (Response.Build (ErrorBody "Permission denied") HTTP_403_FORBIDDEN))
  else if negb (Status_eqb (QuarterlyReport.status report) DRAFT) then
    mret (Some (Response.Build
                  (ErrorBody "Cannot modify entries in submitted/approved reports")
                  HTTP_400_BAD_REQUEST))
  else
    QuarterlyIndicatorEntrySerializer.save (Some entry) serializer None None (Some user) now;;
    indicator ← Indicator_objects_get (QuarterlyIndicatorEntry.indicator entry);
    log_action user (PUser user) (PUnit (QuarterlyReport.unit report)) (PStr "UPDATE")
               (PReport (QuarterlyIndicatorEntry.report entry) report)
               ("Updated entry for indicator " +:+ Indicator.code indicator) now;;
    mret None.

Definition perform_destroy (user : User.t) (now : datetime.t)
    (instance : QuarterlyIndicatorEntry.t) : M (option Response.t) :=
  report ← QuarterlyReport_objects_get (QuarterlyIndicatorEntry.report instance);
  access ← gets (can_user_access_unit user (QuarterlyReport.unit report));
  if negb access then
    mret (Some (Response.Build (ErrorBody "Permission denied") HTTP_403_FORBIDDEN))
  else if negb (Status_eqb (QuarterlyReport.status report) DRAFT) then
    mret (Some (Response.Build
                  (ErrorBody "Cannot delete entries from submitted/approved reports")
                  HTTP_400_BAD_REQUEST))
  else
    indicator ← Indicator_objects_get (QuarterlyIndicatorEntry.indicator instance);
    log_action user (PUser user) (PUnit (QuarterlyReport.unit report)) (PStr "DELETE")
               (PReport (QuarterlyIndicatorEntry.report instance) report)
               ("Deleted entry for indicator " +:+ Indicator.code indicator) now;;
    QuarterlyIndicatorEntry_delete instance;;
    mret None.

End QuarterlyIndicatorEntryViewSet.

(** ** Python numbers

    [a / b] on integers is true division: a [float], or [ZeroDivisionError].
    The operands here are row counts, far below 2^53, where the conversion to
    a binary64 float is exact and the quotient is the IEEE quotient of the
    converted operands. *)

Inductive pynum : Type :=
| PyInt (n : Z)
| PyFloat (f : float).

Definition float_of_int (n : Z) : float :=
  if n <? 0 then PrimFloat.opp (PrimFloat.of_uint63 (Uint63.of_Z (- n)))
  else PrimFloat.of_uint63 (Uint63.of_Z n).

Definition py_truediv (a b : Z) : Result float :=
  if b =? 0 then Raise ZeroDivisionError
  else Ok (PrimFloat.div (float_of_int a) (float_of_int b)).

(** [x * n] for a float [x] and an integer [n] *)
Definition py_mul_int (x : float) (n : Z) : float :=
  PrimFloat.mul x (float_of_int n).

(** ** [views/api.py] *)

Module api.

Inductive JsonBody : Type :=
| LoginRedirect
| JsonError (error : string)
| JsonException (e : Exn)          (* [{'error': str(e)}] *)
| JsonProgress (total_targets completed_entries : Z) (completion_percentage : pynum).

Record JsonResponse : Type := Build { data : JsonBody; status : Z }.

(** [@login_required] *)
Definition login_required (view : User.t → State → Result JsonResponse)
    (user : User.t) (st : State) : Result JsonResponse :=
  if User.is_anonymous user then Ok (Build LoginRedirect 302)
  else view user st.

(** [get_object_or_404(AnnualPlan, id=plan_id)] *)
Definition get_plan_or_404 (plan_id : Z) (st : State) : Result AnnualPlan.t :=
  match plans st !! plan_id with
  | Some p => Ok p
  | None => Raise (Http404 "AnnualPlan")
  end.

(** [QuarterlyIndicatorEntry.objects.filter(report__unit=unit,
    report__year=year)] *)
Definition entries_of_unit_year (unit : Unit.t) (year : Z) (st : State)
    : list QuarterlyIndicatorEntry.t :=
  List.filter (λ e, match reports st !! QuarterlyIndicatorEntry.report e with
                    | Some r => Unit.eqb (QuarterlyReport.unit r) unit
                                && (QuarterlyReport.year r =? year)
                    | None => false
                    end) (entries st).

(** [(completed_entries / total_targets * 100) if total_targets > 0 else 0] *)
Definition completion_percentage (completed_entries total_targets : Z) : Result pynum :=
  if 0 <? total_targets then
    q ← py_truediv completed_entries total_targets;
    Ok (PyFloat (py_mul_int q 100))
  else Ok (PyInt 0).

Definition get_annual_plan_progress_body (plan_id : Z) (user : User.t) (st : State)
    : Result JsonResponse :=
  plan ← get_plan_or_404 plan_id st;
  if negb (can_user_access_unit user (AnnualPlan.unit plan) st) then
    Ok (Build (JsonError "Permission denied") 403)
  else
    let total_targets := count (plan_targets plan_id st) in
    let completed_entries :=
      count (entries_of_unit_year (AnnualPlan.unit plan) (AnnualPlan.year plan) st) in
    percentage ← completion_percentage completed_entries total_targets;
    Ok (Build (JsonProgress total_targets completed_entries percentage) 200).

(** The view: the body under [try: ... except Exception as e], behind
    [@login_required]. *)
Definition get_annual_plan_progress (plan_id : Z) : User.t → State → Result JsonResponse :=
  login_required (λ user st,
    match get_annual_plan_progress_body plan_id user st with
    | Ok response => Ok response
    | Raise e => Ok (Build (JsonException e) 500)
    end).

End api.

(** ** [views/audit.py] *)

Module AuditViewSet.

(** The dictionary [stats] that [performance_summary] builds. *)
Record Stats : Type := BuildStats {
  year : Z;
  total_plans : Z;
  approved_plans : Z;
  total_reports : Z;
  approved_reports : Z;
  plan_approval_rate : pynum;
  report_approval_rate : pynum
}.

(** [(approved / total) * 100 if total > 0 else 0] *)
Definition approval_rate (approved total : Z) : Result pynum :=
  if 0 <? total then
    q ← py_truediv approved total;
    Ok (PyFloat (py_mul_int q 100))
  else Ok (PyInt 0).

Definition performance_summary_stats (user : User.t) (year_param : QueryParam)
    (utc_now : datetime.t) (st : State) : Result Stats :=
  let profile := get_user_profile user st in
  let year := match year_param with
              | QAbsent => Ok (datetime.year utc_now)
              | QInt n => Ok n
              | QNotInt => Raise ValueError
              end in
  role ← profile_role profile;
  accessible ← (if Role_eqb role SUPERADMIN then Ok (λ _ : Unit.t, true)
                else unit ← profile_unit profile; Ok (Unit.eqb unit));
  year ← year;
  let annual_plans :=
    List.filter (λ p, (AnnualPlan.year p =? year) && accessible (AnnualPlan.unit p))
                (snd <$> map_to_list (plans st)) in
  let quarterly_reports :=
    List.filter (λ r, (QuarterlyReport.year r =? year) && accessible (QuarterlyReport.unit r))
                (snd <$> map_to_list (reports st)) in
  let total_plans := count annual_plans in
  let approved_plans :=
    count (List.filter (λ p, Status_eqb (AnnualPlan.status p) APPROVED) annual_plans) in
  let total_reports := count quarterly_reports in
  let approved_reports :=
    count (List.filter (λ r, Status_eqb (QuarterlyReport.status r) APPROVED)
                       quarterly_reports) in
  plan_approval_rate ← approval_rate approved_plans total_plans;
  report_approval_rate ← approval_rate approved_reports total_reports;
  Ok (BuildStats year total_plans approved_plans total_reports approved_reports
                 plan_approval_rate report_approval_rate).

End AuditViewSet.

(** ** Vocabulary of the properties *)


(** The plan can be rendered: its entry window, stored or by the default
    rule, can be computed. *)
Definition renders (plan : AnnualPlan.t) (now : datetime.t) : Prop :=
  ∃ within, AnnualPlan.is_within_entry_window plan None now = Ok within.

(** What a transition returns once it has stored [plan]. *)
Definition rendered (pk : Z) (plan : AnnualPlan.t) (now : datetime.t)
    : Result Response.t :=
  body ← AnnualPlanSerializer.data pk plan now;
  Ok (Response_ok body).

Definition submitted (now : datetime.t) (plan : AnnualPlan.t) : AnnualPlan.t :=
  AnnualPlan.set_submitted_at (Some now) (AnnualPlan.set_status SUBMITTED plan).

Definition submit_audit (user : User.t) (now : datetime.t) (pk : Z) (plan : AnnualPlan.t)
    : WorkflowAudit.t :=
  WorkflowAudit.Build (User.id user) (AnnualPlan.unit plan) "SUBMIT" (Some pk) None
    ("Submitted annual plan for " +:+ pretty (AnnualPlan.year plan)) now.

Definition approved (user : User.t) (now : datetime.t) (plan : AnnualPlan.t) : AnnualPlan.t :=
  AnnualPlan.set_approved_at (Some now)
    (AnnualPlan.set_approved_by (Some (User.id user))
       (AnnualPlan.set_status APPROVED plan)).

Definition approve_audit (user : User.t) (now : datetime.t) (pk : Z) (plan : AnnualPlan.t)
    : WorkflowAudit.t :=
  WorkflowAudit.Build (User.id user) (AnnualPlan.unit plan) "APPROVE" (Some pk) None
    ("Approved annual plan for " +:+ pretty (AnnualPlan.year plan)) now.


Definition rejected (plan : AnnualPlan.t) : AnnualPlan.t :=
  AnnualPlan.set_status REJECTED plan.

Definition reject_audit (user : User.t) (now : datetime.t) (pk : Z) (plan : AnnualPlan.t)
    : WorkflowAudit.t :=
  WorkflowAudit.Build (User.id user) (AnnualPlan.unit plan) "REJECT" (Some pk) None
    ("Rejected annual plan for " +:+ pretty (AnnualPlan.year plan)) now.

Definition report_submitted (now : datetime.t) (report : QuarterlyReport.t)
    : QuarterlyReport.t :=
  QuarterlyReport.set_submitted_at (Some now) (QuarterlyReport.set_status SUBMITTED report).

Definition report_approved (user : User.t) (now : datetime.t) (report : QuarterlyReport.t)
    : QuarterlyReport.t :=
  QuarterlyReport.set_approved_at (Some now)
    (QuarterlyReport.set_approved_by (Some (User.id user))
       (QuarterlyReport.set_status APPROVED report)).

Definition report_rejected (report : QuarterlyReport.t) : QuarterlyReport.t :=
  QuarterlyReport.set_status REJECTED report.

(** ** A small ministry, for the concrete cases

    Two offices; [alice] (State Minister) and [bob] (Strategic Affairs) belong
    to office A, [dana] (Strategic Affairs) to office B, [carol] is
    authenticated and has no profile.  Plan 1 and report 1 belong to office A,
    are DRAFT and have one child each; plan 2 belongs to office B and is
    SUBMITTED.  Indicator 5 is owned by office A, indicator 6 by office B. *)

Module Sample.

Definition office_a : Unit.t := Unit.Build 1 "Office A".
Definition office_b : Unit.t := Unit.Build 2 "Office B".

Definition alice : User.t := User.Build 10 "alice" false.
Definition bob : User.t := User.Build 11 "bob" false.
Definition carol : User.t := User.Build 12 "carol" false.
Definition dana : User.t := User.Build 13 "dana" false.

(** Midnight of a date. *)
Definition midnight (year month day : Z) : datetime.t :=
  match datetime.new year month day 0 0 0 with
  | Ok d => d
  | Raise _ => 0
  end.

Definition plan1 : AnnualPlan.t :=
  AnnualPlan.Build 2025 office_a DRAFT 10 None None None None None.
Definition plan2 : AnnualPlan.t :=
  AnnualPlan.Build 2025 office_b SUBMITTED 13 (Some (midnight 2025 1 20)) None None None None.
Definition target1 : AnnualPlanTarget.t :=
  AnnualPlanTarget.Build 1 1 5 1000000 None None.

Definition report1 : QuarterlyReport.t :=
  QuarterlyReport.Build 2025 1 office_a DRAFT 10 None None None None None.
Definition entry1 : QuarterlyIndicatorEntry.t :=
  QuarterlyIndicatorEntry.Build 1 1 5 250000 None None 10 (midnight 2025 4 2).

Definition store : State :=
  mkState
    (<[10 := alice]> (<[11 := bob]> (<[12 := carol]> (<[13 := dana]> ∅))))
    (<[10 := UserProfile.Build STATE_MINISTER office_a]>
       (<[11 := UserProfile.Build STRATEGIC_AFFAIRS office_a]>
          (<[13 := UserProfile.Build STRATEGIC_AFFAIRS office_b]> ∅)))
    (<[5 := Indicator.Build "A-01" "Irrigated area" office_a true]>
       (<[6 := Indicator.Build "B-01" "Seed distributed" office_b true]> ∅))
    (<[1 := plan1]> (<[2 := plan2]> ∅))
    [target1]
    (<[1 := report1]> ∅)
    [entry1]
    []
    1 1.

(** The store of the bulk example: plans 1 (for 2025) and 3 (for 2026) are
    SUBMITTED, plan 2 (for 2024) is already APPROVED; all belong to office A. *)
Definition plan_submitted (year : Z) : AnnualPlan.t :=
  AnnualPlan.Build year office_a SUBMITTED 10 (Some (midnight year 1 20)) None None None None.
Definition plan_approved : AnnualPlan.t :=
  AnnualPlan.Build 2024 office_a APPROVED 10 (Some (midnight 2024 1 20)) (Some 11)
                   (Some (midnight 2024 1 25)) None None.

Definition bulk_store : State :=
  mkState
    (<[10 := alice]> (<[11 := bob]> ∅))
    (<[10 := UserProfile.Build STATE_MINISTER office_a]>
       (<[11 := UserProfile.Build STRATEGIC_AFFAIRS office_a]> ∅))
    ∅
    (<[1 := plan_submitted 2025]> (<[2 := plan_approved]> (<[3 := plan_submitted 2026]> ∅)))
    [] ∅ [] [] 0 0.

End Sample.

(** The row [bulk_approve] logs for a plan, and what the loop does to a
    stored plan: a listed plan that is SUBMITTED becomes APPROVED. *)
Definition bulk_approve_audit (user : User.t) (reason : string) (now : datetime.t)
    (pk : Z) (plan : AnnualPlan.t) : WorkflowAudit.t :=
  WorkflowAudit.Build (User.id user) (AnnualPlan.unit plan) "APPROVE" (Some pk) None
    ("Bulk approved: " +:+ reason) now.

Definition bulk_transition (user : User.t) (now : datetime.t) (ids : list Z)
    (pk : Z) (plan : AnnualPlan.t) : AnnualPlan.t :=
  if bool_decide (pk ∈ ids) && Status_eqb (AnnualPlan.status plan) SUBMITTED
  then approved user now plan
  else plan.

(** The last calendar day of a quarter: 31 March, 30 June, 30 September,
    31 December. *)
Definition quarter_end_month (quarter : Z) : Z := 3 * quarter.

Definition quarter_end_day (quarter : Z) : Z :=
  if (quarter =? 2) || (quarter =? 3) then 30 else 31.

(** [part / whole * 100] in floating point, and 0 for an empty whole. *)
Definition percentage (part whole : Z) : pynum :=
  if whole =? 0 then PyInt 0
  else PyFloat (PrimFloat.mul (PrimFloat.div (float_of_int part) (float_of_int whole))
                              (float_of_int 100)).

(** What [perform_update] of the target endpoint stores for [target] when the
    payload changes no relation: the values given replace the stored ones. *)
Definition target_updated (target : AnnualPlanTarget.t) (serializer : TargetDict.t)
    : AnnualPlanTarget.t :=
  AnnualPlanTarget.Build
    (AnnualPlanTarget.id target) (AnnualPlanTarget.plan target)
    (AnnualPlanTarget.indicator target)
    (default (AnnualPlanTarget.target_value target) (TargetDict.target_value serializer))
    (default (AnnualPlanTarget.baseline_value target) (TargetDict.baseline_value serializer))
    (default (AnnualPlanTarget.remarks target) (TargetDict.remarks serializer)).

(** [unique_together = (plan, indicator)] on the stored targets *)
Definition targets_unique (st : State) : Prop :=
  ∀ t1 t2, t1 ∈ targets st → t2 ∈ targets st →
    AnnualPlanTarget.plan t1 = AnnualPlanTarget.plan t2 →
    AnnualPlanTarget.indicator t1 = AnnualPlanTarget.indicator t2 →
    AnnualPlanTarget.id t1 = AnnualPlanTarget.id t2.

(** The 400 answer of a state guard. *)
Definition invalid_state (error : string) : Response.t :=
  Response.Build (ErrorBody error) HTTP_400_BAD_REQUEST.

(** ** Vocabulary of the further properties *)

(** The plan [pk] is stored with status SUBMITTED. *)
Definition plan_is_submitted (st : State) (pk : Z) : bool :=
  match plans st !! pk with
  | Some plan => Status_eqb (AnnualPlan.status plan) SUBMITTED
  | None => false
  end.

(** The report [pk] is stored with status SUBMITTED. *)
Definition report_is_submitted (st : State) (pk : Z) : bool :=
  match reports st !! pk with
  | Some report => Status_eqb (QuarterlyReport.status report) SUBMITTED
  | None => false
  end.

(** The row [bulk_reject] logs for a plan, and what its loop does to a stored
    plan: a listed plan that is SUBMITTED becomes REJECTED. *)
Definition bulk_reject_audit (user : User.t) (reason : string) (now : datetime.t)
    (pk : Z) (plan : AnnualPlan.t) : WorkflowAudit.t :=
  WorkflowAudit.Build (User.id user) (AnnualPlan.unit plan) "REJECT" (Some pk) None
    ("Bulk rejected: " +:+ reason) now.

Definition bulk_reject_transition (ids : list Z) (pk : Z) (plan : AnnualPlan.t)
    : AnnualPlan.t :=
  if bool_decide (pk ∈ ids) && Status_eqb (AnnualPlan.status plan) SUBMITTED
  then rejected plan
  else plan.

(** ** Invariants

    A computation preserves a property of the store when the store it leaves
    has the property whenever the store it started from has it, whether it
    returns or raises. *)
Definition preserves {A : Type} (P : State → Prop) (m : M A) : Prop :=
  ∀ st, P st → P (m st).2.

(** The stored targets are well formed: primary keys are not repeated, and
    [unique_together] holds. *)
Definition targets_wf (st : State) : Prop :=
  NoDup (AnnualPlanTarget.id <$> targets st) ∧ targets_unique st.

(** The row [perform_create] of the target endpoint stores, with the key the
    table gives it, and the rows it and [perform_destroy] log. *)
Definition target_created (plan_id indicator_id : Z) (serializer : TargetDict.t)
    (value : Decimal) (st : State) : AnnualPlanTarget.t :=
  AnnualPlanTarget.Build
    (next_id (target_seq st :: map AnnualPlanTarget.id (targets st)))
    plan_id indicator_id value
    (default None (TargetDict.baseline_value serializer))
    (default None (TargetDict.remarks serializer)).

Definition target_audit (user : User.t) (now : datetime.t) (action verb : string)
    (plan_id : Z) (plan : AnnualPlan.t) (indicator : Indicator.t) : WorkflowAudit.t :=
  WorkflowAudit.Build (User.id user) (AnnualPlan.unit plan) action (Some plan_id) None
    (verb +:+ " target for indicator " +:+ Indicator.code indicator) now.

Definition has_target (plan_id indicator_id : Z) (st : State) : bool :=
  existsb (λ t, (AnnualPlanTarget.plan t =? plan_id)
                && (AnnualPlanTarget.indicator t =? indicator_id)) (targets st).

(** ** The workflow endpoints of annual plans as requests

    A request names one of the routes of [AnnualPlanViewSet] that change the
    status of plans or add to them; a detail route resolves its plan from the
    store through [get_object]. *)
Inductive Request : Type :=
| Submit (pk : Z)
| Approve (pk : Z)
| Reject (pk : Z)
| AddTarget (pk : Z) (data : TargetData.t)
| BulkApprove (data : BulkData.t)
| BulkReject (data : BulkData.t).

Definition handle (user : User.t) (year_param : QueryParam) (utc_now now : datetime.t)
    (request : Request) : M Response.t :=
  match request with
  | Submit pk =>
      AnnualPlanViewSet.detail_route (AnnualPlanViewSet.submit user now)
        user year_param utc_now pk
  | Approve pk =>
      AnnualPlanViewSet.detail_route (AnnualPlanViewSet.approve user now)
        user year_param utc_now pk
  | Reject pk =>
      AnnualPlanViewSet.detail_route (AnnualPlanViewSet.reject user now)
        user year_param utc_now pk
  | AddTarget pk data =>
      AnnualPlanViewSet.detail_route
        (λ pk plan, AnnualPlanViewSet.add_target user now pk plan data)
        user year_param utc_now pk
  | BulkApprove data => dispatch user (AnnualPlanViewSet.bulk_approve user now data)
  | BulkReject data => dispatch user (AnnualPlanViewSet.bulk_reject user now data)
  end.

(** One request, by whatever user at whatever time, and any number of them. *)
Definition request_step (st st' : State) : Prop :=
  ∃ user year_param utc_now now request,
    (handle user year_param utc_now now request st).2 = st'.

Definition reachable : State → State → Prop := rtc request_step.

(** The order of the statuses: DRAFT, then SUBMITTED, then APPROVED or
    REJECTED. *)
Definition rank (status : Status) : Z :=
  match status with
  | DRAFT => 0
  | SUBMITTED => 1
  | APPROVED | REJECTED => 2
  end.

(** [p'] is [p] at a later stage of the workflow, or [p] itself. *)
Definition plan_advances (p p' : AnnualPlan.t) : Prop :=
  AnnualPlan.year p' = AnnualPlan.year p
  ∧ AnnualPlan.unit p' = AnnualPlan.unit p
  ∧ AnnualPlan.created_by p' = AnnualPlan.created_by p
  ∧ rank (AnnualPlan.status p) ≤ rank (AnnualPlan.status p')
  ∧ (rank (AnnualPlan.status p) = rank (AnnualPlan.status p') → p' = p).

(** What a run of requests can do to a store. *)
Definition advances (st st' : State) : Prop :=
  ∃ new,
    audits st' = audits st ++ new
    ∧ (∀ pk, match plans st !! pk with
             | Some p => ∃ p', plans st' !! pk = Some p' ∧ plan_advances p p'
             | None => plans st' !! pk = None
             end)
    ∧ (∀ pk, plans st' !! pk ≠ plans st !! pk →
             ∃ row, row ∈ new ∧ WorkflowAudit.context_plan row = Some pk)
    ∧ targets st' = targets st
    ∧ profiles st' = profiles st.

(** ** The destroy hooks of plans and reports

    [instance.delete()] takes with it the rows that point to the instance
    through a relation with [on_delete=CASCADE]: the targets and the audit
    rows of a plan, the entries and the audit rows of a report.  No relation
    to a plan or a report is protected. *)
Definition AnnualPlan_delete (pk : Z) : M () :=
  modify (λ st,
    set_audits (filter (λ row, WorkflowAudit.context_plan row ≠ Some pk))
      (set_targets (filter (λ t, AnnualPlanTarget.plan t ≠ pk))
         (set_plans (delete pk) st))).

Definition QuarterlyReport_delete (pk : Z) : M () :=
  modify (λ st,
    set_audits (filter (λ row, WorkflowAudit.context_report row ≠ Some pk))
      (set_entries (filter (λ e, QuarterlyIndicatorEntry.report e ≠ pk))
         (set_reports (delete pk) st))).

(** [AnnualPlanViewSet.perform_destroy] and
    [QuarterlyReportViewSet.perform_destroy]; [instance] is the row with the
    primary key [pk]. *)
Definition AnnualPlanViewSet_perform_destroy (user : User.t) (now : datetime.t)
    (pk : Z) (instance : AnnualPlan.t) : M () :=
  log_action user (PUnit (AnnualPlan.unit instance)) (PStr "DELETE")
             (PPlan pk instance) PNone
             ("Deleted annual plan for " +:+ pretty (AnnualPlan.year instance)) now;;
  AnnualPlan_delete pk.

Definition QuarterlyReportViewSet_perform_destroy (user : User.t) (now : datetime.t)
    (pk : Z) (instance : QuarterlyReport.t) : M () :=
  log_action user (PUnit (QuarterlyReport.unit instance)) (PStr "DELETE")
             PNone (PReport pk instance)
             ("Deleted quarterly report for Q" +:+ pretty (QuarterlyReport.quarter instance)
                +:+ " " +:+ pretty (QuarterlyReport.year instance)) now;;
  QuarterlyReport_delete pk.

(** ** [admin.py]: the actions of the plan changelist

    [selected] are the primary keys ticked in the changelist, of which the
    queryset of the action is made; [queryset.filter(status='SUBMITTED')
    .update(...)] writes the rows it matches and returns their number.
    [request.user] is given to [update] as the value of a relation. *)
Module AnnualPlanAdmin.

Definition matches (selected : list Z) (pk : Z) (plan : AnnualPlan.t) : bool :=
  bool_decide (pk ∈ selected) && Status_eqb (AnnualPlan.status plan) SUBMITTED.

Definition update_submitted (selected : list Z) (assign : AnnualPlan.t → AnnualPlan.t)
    : M Z :=
  λ st,
    (Ok (Z.of_nat (length (filter (λ row, matches selected row.1 row.2 = true)
                                  (map_to_list (plans st))))),
     set_plans (map_imap (λ pk plan,
                  Some (if matches selected pk plan then assign plan else plan))) st).

Definition approve_plans (user : User.t) (now : datetime.t) (selected : list Z)
    : M string :=
  if User.is_anonymous user then raise TypeError
  else
    updated ← update_submitted selected
                 (λ plan, AnnualPlan.set_approved_at (Some now)
                            (AnnualPlan.set_approved_by (Some (User.id user))
                               (AnnualPlan.set_status APPROVED plan)));
    mret (pretty updated +:+ " plans approved successfully.").

Definition reject_plans (selected : list Z) : M string :=
  updated ← update_submitted selected (AnnualPlan.set_status REJECTED);
  mret (pretty updated +:+ " plans rejected.").

End AnnualPlanAdmin.

(** ** [views/indicators.py]: [toggle_active] *)



Module IndicatorViewSet.

Inductive Body : Type :=
| Error (error : string)
| Rendered (pk : Z) (indicator : Indicator.t).

Record Response : Type := Build { data : Body; status : Z }.


End IndicatorViewSet.




(** * Properties *)

(** ** Running the store monad *)

Ltac run :=
  unfold mbind, M_bind, bind, mret, M_ret, ret, gets, lift, modify, raise,
         try_except, atomic, Result_bind, Result_ret, result_bind in *.

Ltac mstep :=
  cbn beta iota zeta delta [negb andb orb Status_eqb Role_eqb is_approver_role].

Lemma can_user_access_unit_not_anonymous user unit st :
  can_user_access_unit user unit st = true → User.is_anonymous user = false.
Proof.
  unfold can_user_access_unit, get_user_profile.
  destruct (User.is_anonymous user); [discriminate | reflexivity].
Qed.

Lemma can_user_access_unit_has_profile user unit st :
  can_user_access_unit user unit st = true →
  ∃ profile, get_user_profile user st = Some profile.
Proof.
  unfold can_user_access_unit.
  destruct (get_user_profile user st) as [p|]; [eauto | discriminate].
Qed.

(** The access predicate reads the profiles only. *)
Lemma can_user_access_unit_profiles user unit st st' :
  profiles st' = profiles st →
  can_user_access_unit user unit st' = can_user_access_unit user unit st.
Proof.
  intros H. unfold can_user_access_unit, get_user_profile. rewrite H. reflexivity.
Qed.

(** A call of [log_action] in the order of its signature appends one row. *)
Lemma log_action_plan user unit action pk plan message now st :
  User.is_anonymous user = false →
  log_action user (PUnit unit) (PStr action) (PPlan pk plan) PNone message now st
  = (Ok (), set_audits (λ rows, rows ++ [WorkflowAudit.Build (User.id user) unit action
                                           (Some pk) None message now]) st).
Proof.
  intros Hu. unfold log_action, log_workflow_action, WorkflowAudit_objects_create.
  run. simpl. unfold user_pk. rewrite Hu. reflexivity.
Qed.

(** A call that puts the user in the position of [unit] writes nothing. *)
Lemma log_action_user_as_unit user action context_plan context_report message now st :
  log_action user (PUser user) action context_plan context_report message now st
  = (Raise ValueError, st).
Proof.
  unfold log_action, log_workflow_action, WorkflowAudit_objects_create.
  run. simpl. unfold user_pk. destruct (User.is_anonymous user); reflexivity.
Qed.

(** ** The transitions of an annual plan *)

(** The rendering raises what the computation of the entry window raises. *)
Lemma data_cases pk obj now :
  AnnualPlanSerializer.data pk obj now
  = match AnnualPlan.is_within_entry_window obj None now with
    | Ok _ => Ok (PlanBody pk obj)
    | Raise e => Raise e
    end.
Proof.
  unfold AnnualPlanSerializer.data, AnnualPlanSerializer.get_can_edit,
    AnnualPlanSerializer.get_is_within_entry_window.
  unfold mbind, Result_bind, result_bind.
  destruct (Status_eqb (AnnualPlan.status obj) DRAFT);
    destruct (AnnualPlan.is_within_entry_window obj None now); reflexivity.
Qed.

Lemma rendered_cases pk obj now :
  rendered pk obj now
  = match AnnualPlan.is_within_entry_window obj None now with
    | Ok _ => Ok (Response_ok (PlanBody pk obj))
    | Raise e => Raise e
    end.
Proof.
  unfold rendered. rewrite data_cases. unfold mbind, Result_bind, result_bind.
  destruct (AnnualPlan.is_within_entry_window obj None now); reflexivity.
Qed.


Lemma rendered_succeeded pk obj now body :
  rendered pk obj now = Ok (Response_ok body) →
  body = PlanBody pk obj ∧ renders obj now.
Proof.
  rewrite rendered_cases. unfold renders.
  destruct (AnnualPlan.is_within_entry_window obj None now) as [within|e];
    [| discriminate].
  intros H. injection H as <-. split; [reflexivity | eauto].
Qed.




(** Past its guards, [submit] stores the transition and the audit row, and
    then renders the plan. *)
Lemma submit_committed user now pk plan st :
  can_user_access_unit user (AnnualPlan.unit plan) st = true →
  AnnualPlan.status plan = DRAFT →
  exists_ (plan_targets pk st) = true →
  AnnualPlanViewSet.submit user now pk plan st
  = (rendered pk (submitted now plan) now,
     set_audits (λ rows, rows ++ [submit_audit user now pk plan])
       (set_plans (λ m, <[pk := submitted now plan]> m) st)).
Proof.
  intros Ha Hs Ht. unfold AnnualPlanViewSet.submit. run.
  rewrite Ha. mstep. rewrite Hs. mstep. rewrite Ht. mstep.
  unfold AnnualPlan_save. run. mstep.
  rewrite log_action_plan by eauto using can_user_access_unit_not_anonymous.
  fold (submitted now plan). unfold rendered. unfold mbind, Result_bind, result_bind.
  destruct (AnnualPlanSerializer.data pk (submitted now plan) now); reflexivity.
Qed.


Lemma submit_denied user now pk plan st :
  can_user_access_unit user (AnnualPlan.unit plan) st = false →
  AnnualPlanViewSet.submit user now pk plan st
  = (Ok (Response.Build (ErrorBody "Permission denied") HTTP_403_FORBIDDEN), st).
Proof.
  intros Ha. unfold AnnualPlanViewSet.submit. run. rewrite Ha. reflexivity.
Qed.

Lemma submit_not_draft user now pk plan st :
  can_user_access_unit user (AnnualPlan.unit plan) st = true →
  AnnualPlan.status plan ≠ DRAFT →
  AnnualPlanViewSet.submit user now pk plan st
  = (Ok (Response.Build (ErrorBody "Only draft plans can be submitted")
                        HTTP_400_BAD_REQUEST), st).
Proof.
  intros Ha Hs. unfold AnnualPlanViewSet.submit. run. rewrite Ha. simpl.
  destruct (AnnualPlan.status plan); try reflexivity. congruence.
Qed.

Lemma submit_empty user now pk plan st :
  can_user_access_unit user (AnnualPlan.unit plan) st = true →
  AnnualPlan.status plan = DRAFT →
  exists_ (plan_targets pk st) = false →
  AnnualPlanViewSet.submit user now pk plan st
  = (Ok (Response.Build (ErrorBody "Cannot submit plan without targets")
                        HTTP_400_BAD_REQUEST), st).
Proof.
  intros Ha Hs Ht. unfold AnnualPlanViewSet.submit. run.
  rewrite Ha. mstep. rewrite Hs. mstep. rewrite Ht. reflexivity.
Qed.

Lemma exists_filter_true {A : Type} (P : A → Prop) `{∀ x, Decision (P x)} (l : list A) :
  exists_ (filter P l) = true ↔ ∃ x, x ∈ l ∧ P x.
Proof.
  split.
  - destruct (filter P l) as [|x l'] eqn:E; [discriminate |]. intros _.
    assert (Hx : x ∈ filter P l) by (rewrite E; left).
    apply list_elem_of_filter in Hx. exists x. tauto.
  - intros (x & Hx & HP).
    assert (Hf : x ∈ filter P l) by (apply list_elem_of_filter; tauto).
    destruct (filter P l); [inversion Hf | reflexivity].
Qed.







(** What [approve] does, guard by guard. *)
Lemma approve_cases user now pk plan st :
  AnnualPlanViewSet.approve user now pk plan st
  = if negb (can_user_access_unit user (AnnualPlan.unit plan) st) then
      (Ok (Response.Build (ErrorBody "Permission denied") HTTP_403_FORBIDDEN), st)
    else
      match get_user_profile user st with
      | None => (Raise AttributeError, st)
      | Some profile =>
          if negb (is_approver_role (UserProfile.role profile)) then
            (Ok (Response.Build (ErrorBody "Insufficient permissions") HTTP_403_FORBIDDEN), st)
          else if negb (Status_eqb (AnnualPlan.status plan) SUBMITTED) then
            (Ok (Response.Build (ErrorBody "Only submitted plans can be approved")
                                HTTP_400_BAD_REQUEST), st)
          else
            (rendered pk (approved user now plan) now,
             set_audits (λ rows, rows ++ [approve_audit user now pk plan])
               (set_plans (λ m, <[pk := approved user now plan]> m) st))
      end.
Proof.
  unfold AnnualPlanViewSet.approve. run.
  destruct (can_user_access_unit user (AnnualPlan.unit plan) st) eqn:Ha; [| reflexivity].
  cbn beta iota delta [negb].
  destruct (get_user_profile user st) as [profile|]; [| reflexivity].
  cbn beta iota delta [profile_role].
  destruct (negb (is_approver_role (UserProfile.role profile))); [reflexivity |].
  destruct (negb (Status_eqb (AnnualPlan.status plan) SUBMITTED)); [reflexivity |].
  unfold AnnualPlan_save. run. cbn beta iota.
  rewrite log_action_plan by eauto using can_user_access_unit_not_anonymous.
  fold (approved user now plan). unfold rendered. unfold mbind, Result_bind, result_bind.
  destruct (AnnualPlanSerializer.data pk (approved user now plan) now); reflexivity.
Qed.

Lemma Status_eqb_eq a b : Status_eqb a b = true ↔ a = b.
Proof. destruct a, b; simpl; split; congruence. Qed.

(** C8: when a call of [approve] on a plan has performed the approval, a
    second call by the same actor, at any later time, on the plan as it is
    then stored answers the 400 "Only submitted plans can be approved" and
    leaves the whole store as the first call left it: the stored plan keeps
    the status APPROVED, [approved_by] and [approved_at] of the first call,
    and the audit log keeps the single row the first call appended. *)
Theorem approve_twice user now now' pk plan plan1 st body st1 :
  AnnualPlanViewSet.approve user now pk plan st = (Ok (Response_ok body), st1) →
  plans st1 !! pk = Some plan1 →
  AnnualPlanViewSet.approve user now' pk plan1 st1
  = (Ok (Response.Build (ErrorBody "Only submitted plans can be approved")
                        HTTP_400_BAD_REQUEST), st1)
  ∧ plan1 = approved user now plan
  ∧ AnnualPlan.status plan1 = APPROVED
  ∧ AnnualPlan.approved_by plan1 = Some (User.id user)
  ∧ AnnualPlan.approved_at plan1 = Some now
  ∧ audits st1 = audits st ++ [approve_audit user now pk plan].
Proof.
  intros H1 Hget. rewrite approve_cases in H1.
  destruct (can_user_access_unit user (AnnualPlan.unit plan) st) eqn:Ha;
    [| discriminate H1].
  cbn beta iota delta [negb] in H1.
  destruct (get_user_profile user st) as [profile|] eqn:Hp; [| discriminate H1].
  destruct (is_approver_role (UserProfile.role profile)) eqn:Hr; [| discriminate H1].
  cbn beta iota delta [negb] in H1.
  destruct (Status_eqb (AnnualPlan.status plan) SUBMITTED) eqn:Hs; [| discriminate H1].
  cbn beta iota delta [negb] in H1.
  injection H1 as _ Hst. subst st1. simpl in Hget.
  rewrite lookup_insert_eq in Hget. injection Hget as <-.
  split; [| repeat split; reflexivity].
  rewrite approve_cases.
  assert (Ha' : can_user_access_unit user (AnnualPlan.unit (approved user now plan))
                  (set_audits (λ rows, rows ++ [approve_audit user now pk plan])
                     (set_plans (λ m, <[pk := approved user now plan]> m) st)) = true).
  { rewrite <- Ha. apply can_user_access_unit_profiles. reflexivity. }
  rewrite Ha'. cbn beta iota delta [negb].
  assert (Hp' : get_user_profile user
                  (set_audits (λ rows, rows ++ [approve_audit user now pk plan])
                     (set_plans (λ m, <[pk := approved user now plan]> m) st))
                = Some profile) by exact Hp.
  rewrite Hp', Hr. reflexivity.
Qed.

Lemma reject_cases user now pk plan st :
  AnnualPlanViewSet.reject user now pk plan st
  = if negb (can_user_access_unit user (AnnualPlan.unit plan) st) then
      (Ok (Response.Build (ErrorBody "Permission denied") HTTP_403_FORBIDDEN), st)
    else
      match get_user_profile user st with
      | None => (Raise AttributeError, st)
      | Some profile =>
          if negb (is_approver_role (UserProfile.role profile)) then
            (Ok (Response.Build (ErrorBody "Insufficient permissions") HTTP_403_FORBIDDEN), st)
          else if negb (Status_eqb (AnnualPlan.status plan) SUBMITTED) then
            (Ok (Response.Build (ErrorBody "Only submitted plans can be rejected")
                                HTTP_400_BAD_REQUEST), st)
          else
            (rendered pk (rejected plan) now,
             set_audits (λ rows, rows ++ [reject_audit user now pk plan])
               (set_plans (λ m, <[pk := rejected plan]> m) st))
      end.
Proof.
  unfold AnnualPlanViewSet.reject. run.
  destruct (can_user_access_unit user (AnnualPlan.unit plan) st) eqn:Ha; [| reflexivity].
  cbn beta iota delta [negb].
  destruct (get_user_profile user st) as [profile|]; [| reflexivity].
  cbn beta iota delta [profile_role].
  destruct (negb (is_approver_role (UserProfile.role profile))); [reflexivity |].
  destruct (negb (Status_eqb (AnnualPlan.status plan) SUBMITTED)); [reflexivity |].
  unfold AnnualPlan_save. run. cbn beta iota.
  rewrite log_action_plan by eauto using can_user_access_unit_not_anonymous.
  fold (rejected plan). unfold rendered. unfold mbind, Result_bind, result_bind.
  destruct (AnnualPlanSerializer.data pk (rejected plan) now); reflexivity.
Qed.

(** Every transition of an annual plan that answers 200 has stored the new
    status and appended exactly one audit row with the tag of the transition. *)
Lemma plan_transition_audited user now pk plan st :
  (∀ body st', AnnualPlanViewSet.submit user now pk plan st = (Ok (Response_ok body), st') →
     ∃ row, audits st' = audits st ++ [row] ∧ WorkflowAudit.action row = "SUBMIT"
            ∧ WorkflowAudit.context_plan row = Some pk
            ∧ AnnualPlan.status <$> plans st' !! pk = Some SUBMITTED)
  ∧ (∀ body st', AnnualPlanViewSet.approve user now pk plan st = (Ok (Response_ok body), st') →
     ∃ row, audits st' = audits st ++ [row] ∧ WorkflowAudit.action row = "APPROVE"
            ∧ WorkflowAudit.context_plan row = Some pk
            ∧ AnnualPlan.status <$> plans st' !! pk = Some APPROVED)
  ∧ (∀ body st', AnnualPlanViewSet.reject user now pk plan st = (Ok (Response_ok body), st') →
     ∃ row, audits st' = audits st ++ [row] ∧ WorkflowAudit.action row = "REJECT"
            ∧ WorkflowAudit.context_plan row = Some pk
            ∧ AnnualPlan.status <$> plans st' !! pk = Some REJECTED).
Proof.
  split; [| split]; intros body st' H.
  - destruct (can_user_access_unit user (AnnualPlan.unit plan) st) eqn:Ha.
    2:{ rewrite (submit_denied _ _ _ _ _ Ha) in H. discriminate H. }
    destruct (decide (AnnualPlan.status plan = DRAFT)) as [Hs|Hs].
    2:{ rewrite (submit_not_draft _ _ _ _ _ Ha Hs) in H. discriminate H. }
    destruct (exists_ (plan_targets pk st)) eqn:Ht.
    2:{ rewrite (submit_empty _ _ _ _ _ Ha Hs Ht) in H. discriminate H. }
    rewrite (submit_committed _ _ _ _ _ Ha Hs Ht) in H. injection H as _ <-.
    eexists. simpl. rewrite lookup_insert_eq. repeat split; reflexivity.
  - rewrite approve_cases in H.
    destruct (negb (can_user_access_unit user (AnnualPlan.unit plan) st)); [discriminate H |].
    destruct (get_user_profile user st) as [profile|]; [| discriminate H].
    destruct (negb (is_approver_role (UserProfile.role profile))); [discriminate H |].
    destruct (negb (Status_eqb (AnnualPlan.status plan) SUBMITTED)); [discriminate H |].
    injection H as _ <-.
    eexists. simpl. rewrite lookup_insert_eq. repeat split; reflexivity.
  - rewrite reject_cases in H.
    destruct (negb (can_user_access_unit user (AnnualPlan.unit plan) st)); [discriminate H |].
    destruct (get_user_profile user st) as [profile|]; [| discriminate H].
    destruct (negb (is_approver_role (UserProfile.role profile))); [discriminate H |].
    destruct (negb (Status_eqb (AnnualPlan.status plan) SUBMITTED)); [discriminate H |].
    injection H as _ <-.
    eexists. simpl. rewrite lookup_insert_eq. repeat split; reflexivity.
Qed.

(** ** The transitions of a quarterly report *)

Lemma has_entries_iff pk st :
  exists_ (report_entries pk st) = true
  ↔ ∃ e, e ∈ entries st ∧ QuarterlyIndicatorEntry.report e = pk.
Proof. unfold report_entries. apply exists_filter_true. Qed.

(** Past its guards, [submit] stores the new status and then raises in
    [log_action]: the row is written, the audit log is not. *)
Lemma report_submit_raises user now pk report st :
  can_user_access_unit user (QuarterlyReport.unit report) st = true →
  QuarterlyReport.status report = DRAFT →
  exists_ (report_entries pk st) = true →
  QuarterlyReportViewSet.submit user now pk report st
  = (Raise ValueError, set_reports (λ m, <[pk := report_submitted now report]> m) st).
Proof.
  intros Ha Hs He. unfold QuarterlyReportViewSet.submit. run.
  rewrite Ha. mstep. rewrite Hs. mstep. rewrite He. mstep.
  unfold QuarterlyReport_save. run. mstep.
  rewrite log_action_user_as_unit. reflexivity.
Qed.

Lemma report_approve_raises user now pk report st profile :
  can_user_access_unit user (QuarterlyReport.unit report) st = true →
  get_user_profile user st = Some profile →
  is_approver_role (UserProfile.role profile) = true →
  QuarterlyReport.status report = SUBMITTED →
  QuarterlyReportViewSet.approve user now pk report st
  = (Raise ValueError, set_reports (λ m, <[pk := report_approved user now report]> m) st).
Proof.
  intros Ha Hp Hr Hs. unfold QuarterlyReportViewSet.approve. run.
  rewrite Hp, Ha. mstep. cbn beta iota delta [profile_role]. rewrite Hr, Hs. mstep.
  unfold QuarterlyReport_save. run. mstep.
  rewrite log_action_user_as_unit. reflexivity.
Qed.

Lemma report_reject_raises user now pk report st profile :
  can_user_access_unit user (QuarterlyReport.unit report) st = true →
  get_user_profile user st = Some profile →
  is_approver_role (UserProfile.role profile) = true →
  QuarterlyReport.status report = SUBMITTED →
  QuarterlyReportViewSet.reject user now pk report st
  = (Raise ValueError, set_reports (λ m, <[pk := report_rejected report]> m) st).
Proof.
  intros Ha Hp Hr Hs. unfold QuarterlyReportViewSet.reject. run.
  rewrite Hp, Ha. mstep. cbn beta iota delta [profile_role]. rewrite Hr, Hs. mstep.
  unfold QuarterlyReport_save. run. mstep.
  rewrite log_action_user_as_unit. reflexivity.
Qed.

(** C1, at the failing input: [alice] of office A submits the DRAFT report 1
    of office A, which has an entry.  The guards pass and the report is stored
    as SUBMITTED; the call of [log_action] then binds the user to [unit], the
    unit to [action] and ['SUBMIT'] to [context_plan], so the audit row is
    refused and the view raises: the status has changed and the audit log has
    no row for it. *)
Theorem report_submit_without_audit :
  let out := QuarterlyReportViewSet.submit Sample.alice (Sample.midnight 2025 4 10) 1
               Sample.report1 Sample.store in
  can_user_access_unit Sample.alice (QuarterlyReport.unit Sample.report1) Sample.store = true
  ∧ reports Sample.store !! 1 = Some Sample.report1
  ∧ QuarterlyReport.status Sample.report1 = DRAFT
  ∧ report_entries 1 Sample.store = [Sample.entry1]
  ∧ out.1 = Raise ValueError
  ∧ QuarterlyReport.status <$> reports out.2 !! 1 = Some SUBMITTED
  ∧ QuarterlyReport.submitted_at <$> reports out.2 !! 1
    = Some (Some (Sample.midnight 2025 4 10))
  ∧ audits out.2 = [].
Proof.
  cbv zeta.
  rewrite report_submit_raises by (vm_compute; reflexivity).
  repeat split; vm_compute; reflexivity.
Qed.

(** ** Bulk approval *)

Lemma bulk_approve_item_cases user reason now n plan_id st :
  User.is_anonymous user = false →
  AnnualPlanViewSet.bulk_approve_item user reason now n plan_id st
  = match plans st !! plan_id with
    | Some plan =>
        if Status_eqb (AnnualPlan.status plan) SUBMITTED then
          (Ok (n + 1),
           set_audits (λ rows, rows ++ [bulk_approve_audit user reason now plan_id plan])
             (set_plans (λ m, <[plan_id := approved user now plan]> m) st))
        else (Ok n, st)
    | None => (Ok n, st)
    end.
Proof.
  intros Hu. unfold AnnualPlanViewSet.bulk_approve_item, AnnualPlan_objects_get. run.
  destruct (plans st !! plan_id) as [plan|]; [| reflexivity].
  destruct (Status_eqb (AnnualPlan.status plan) SUBMITTED); [| reflexivity].
  unfold AnnualPlan_save. run. cbn beta iota.
  rewrite log_action_plan by exact Hu. reflexivity.
Qed.

(** The loop of [bulk_approve]: it never raises; it appends one APPROVE row
    per plan it approves, each for a different plan; the plans it approves
    are the listed ones that were SUBMITTED; the counter grows by the number
    of rows; no other table changes. *)
Lemma bulk_approve_loop user reason now ids :
  User.is_anonymous user = false →
  ∀ n st, ∃ new st',
    for_each (AnnualPlanViewSet.bulk_approve_item user reason now) n ids st
    = (Ok (n + Z.of_nat (length new)), st')
    ∧ audits st' = audits st ++ new
    ∧ Forall (λ row, WorkflowAudit.action row = "APPROVE") new
    ∧ NoDup (WorkflowAudit.context_plan <$> new)
    ∧ (∀ pk, Some pk ∈ (WorkflowAudit.context_plan <$> new)
             ↔ pk ∈ ids ∧ ∃ p, plans st !! pk = Some p ∧ AnnualPlan.status p = SUBMITTED)
    ∧ (∀ pk, plans st' !! pk = bulk_transition user now ids pk <$> plans st !! pk)
    ∧ profiles st' = profiles st ∧ targets st' = targets st
    ∧ reports st' = reports st ∧ entries st' = entries st.
Proof.
  intros Hu. induction ids as [|id ids IH]; intros n st.
  - exists [], st. simpl. rewrite Z.add_0_r, app_nil_r.
    split; [reflexivity |]. split; [reflexivity |]. split; [constructor |].
    split; [constructor |]. split; [| split; [| repeat split]].
    + intros pk. split.
      * intros Hc. inversion Hc.
      * intros [Hc _]. inversion Hc.
    + intros pk. unfold bulk_transition. destruct (plans st !! pk); reflexivity.
  - cbn [for_each]. unfold mbind at 1, M_bind at 1, bind at 1.
    rewrite bulk_approve_item_cases by exact Hu.
    destruct (plans st !! id) as [plan|] eqn:Hplan;
      [destruct (Status_eqb (AnnualPlan.status plan) SUBMITTED) eqn:Hs |].
    + (* the plan is approved *)
      set (st1 := set_audits _ _).
      destruct (IH (n + 1) st1) as (new & st' & Hrun & Haud & Hact & Hnd & Hin & Hpl & Hrest).
      exists (bulk_approve_audit user reason now id plan :: new), st'.
      assert (Hfresh : Some id ∉ WorkflowAudit.context_plan <$> new).
      { intros Hc. apply Hin in Hc as (_ & p & Hp & Hps).
        subst st1. simpl in Hp. rewrite lookup_insert_eq in Hp. injection Hp as <-.
        discriminate Hps. }
      split; [| split; [| split; [| split; [| split; [| split]]]]].
      * rewrite Hrun. f_equal. f_equal. simpl length. lia.
      * rewrite Haud. subst st1. simpl. rewrite <- app_assoc. reflexivity.
      * constructor; [reflexivity | exact Hact].
      * simpl. constructor; [exact Hfresh | exact Hnd].
      * intros pk. simpl. rewrite elem_of_cons, Hin, elem_of_cons.
        subst st1. simpl. split.
        -- intros [Hpk | (Hpk & p & Hp & Hps)].
           ++ injection Hpk as ->. split; [left; reflexivity |].
              exists plan. split; [exact Hplan | apply Status_eqb_eq, Hs].
           ++ split; [right; exact Hpk |].
              destruct (decide (pk = id)) as [->|Hne].
              ** rewrite lookup_insert_eq in Hp. injection Hp as <-. discriminate Hps.
              ** rewrite lookup_insert_ne in Hp by congruence. eauto.
        -- intros ([-> | Hpk] & p & Hp & Hps); [left; reflexivity |].
           destruct (decide (pk = id)) as [->|Hne]; [left; reflexivity |].
           right. split; [exact Hpk |]. exists p.
           rewrite lookup_insert_ne by congruence. eauto.
      * intros pk. rewrite Hpl. subst st1. simpl.
        destruct (decide (pk = id)) as [->|Hne].
        -- rewrite lookup_insert_eq, Hplan. simpl. f_equal.
           unfold bulk_transition. rewrite Hs.
           rewrite (bool_decide_eq_true_2 (id ∈ id :: ids)) by left.
           simpl. rewrite andb_false_r. reflexivity.
        -- rewrite lookup_insert_ne by congruence.
           destruct (plans st !! pk) as [p|]; [| reflexivity]. simpl. f_equal.
           unfold bulk_transition.
           rewrite (bool_decide_ext (pk ∈ id :: ids) (pk ∈ ids)); [reflexivity |].
           rewrite elem_of_cons. tauto.
      * subst st1. simpl in Hrest. exact Hrest.
    + (* the plan is not SUBMITTED: skipped *)
      destruct (IH n st) as (new & st' & Hrun & Haud & Hact & Hnd & Hin & Hpl & Hrest).
      exists new, st'.
      split; [exact Hrun |]. split; [exact Haud |]. split; [exact Hact |].
      split; [exact Hnd |]. split; [| split; [| exact Hrest]].
      * intros pk. rewrite Hin, elem_of_cons. split.
        -- intros (Hpk & Hp). split; [right; exact Hpk | exact Hp].
        -- intros ([-> | Hpk] & p & Hp & Hps); [| eauto].
           rewrite Hplan in Hp. injection Hp as <-.
           apply Status_eqb_eq in Hps. congruence.
      * intros pk. rewrite Hpl.
        destruct (plans st !! pk) as [p|] eqn:Hp; [| reflexivity]. simpl. f_equal.
        unfold bulk_transition.
        destruct (Status_eqb (AnnualPlan.status p) SUBMITTED) eqn:Hps;
          [| rewrite !andb_false_r; reflexivity].
        rewrite (bool_decide_ext (pk ∈ id :: ids) (pk ∈ ids)); [reflexivity |].
        rewrite elem_of_cons. split; [| tauto].
        intros [-> | H]; [| exact H]. congruence.
    + (* no such plan: continue *)
      destruct (IH n st) as (new & st' & Hrun & Haud & Hact & Hnd & Hin & Hpl & Hrest).
      exists new, st'.
      split; [exact Hrun |]. split; [exact Haud |]. split; [exact Hact |].
      split; [exact Hnd |]. split; [| split; [| exact Hrest]].
      * intros pk. rewrite Hin, elem_of_cons. split.
        -- intros (Hpk & Hp). split; [right; exact Hpk | exact Hp].
        -- intros ([-> | Hpk] & p & Hp & Hps); [| eauto]. congruence.
      * intros pk. rewrite Hpl.
        destruct (plans st !! pk) as [p|] eqn:Hp; [| reflexivity]. simpl. f_equal.
        unfold bulk_transition.
        rewrite (bool_decide_ext (pk ∈ id :: ids) (pk ∈ ids)); [reflexivity |].
        rewrite elem_of_cons. split; [| tauto].
        intros [-> | H]; [| exact H]. congruence.
Qed.

Lemma get_user_profile_not_anonymous user st profile :
  get_user_profile user st = Some profile → User.is_anonymous user = false.
Proof.
  unfold get_user_profile. destruct (User.is_anonymous user); [discriminate | reflexivity].
Qed.

(** [bulk_approve] by an approver on a valid payload: the answer counts the
    plans approved, which are the listed plans that were SUBMITTED, whatever
    their unit; one APPROVE row is logged for each. *)
Lemma bulk_approve_spec user now ids reason st profile :
  get_user_profile user st = Some profile →
  is_approver_role (UserProfile.role profile) = true →
  BulkApproveSerializer_validated_data (BulkData.Build (Some ids) reason)
  = Some (ids, reason) →
  ∃ new st',
    AnnualPlanViewSet.bulk_approve user now (BulkData.Build (Some ids) reason) st
    = (Ok (Response_ok (BulkBody (pretty (Z.of_nat (length new))
                                    +:+ " plans approved successfully")
                                 "approved_count" (Z.of_nat (length new)))), st')
    ∧ audits st' = audits st ++ new
    ∧ Forall (λ row, WorkflowAudit.action row = "APPROVE") new
    ∧ NoDup (WorkflowAudit.context_plan <$> new)
    ∧ (∀ pk, Some pk ∈ (WorkflowAudit.context_plan <$> new)
             ↔ pk ∈ ids ∧ ∃ p, plans st !! pk = Some p ∧ AnnualPlan.status p = SUBMITTED)
    ∧ (∀ pk, plans st' !! pk = bulk_transition user now ids pk <$> plans st !! pk).
Proof.
  intros Hp Hr Hv.
  destruct (bulk_approve_loop user (default "" reason) now ids
              (get_user_profile_not_anonymous _ _ _ Hp) 0 st)
    as (new & st' & Hrun & Haud & Hact & Hnd & Hin & Hpl & _).
  exists new, st'. split; [| tauto].
  unfold AnnualPlanViewSet.bulk_approve. run.
  rewrite Hp. cbn beta iota delta [profile_role]. rewrite Hr.
  cbn beta iota delta [negb]. rewrite Hv. cbn beta iota zeta.
  rewrite Hrun. rewrite Z.add_0_l. reflexivity.
Qed.

(** C3, at the failing input: [bob], Strategic Affairs of office A, sends
    [plan_ids = [2]]; plan 2 belongs to office B and is SUBMITTED.  [bob] does
    not pass [can_user_access_unit] for office B, and [approve] on plan 2
    answers 403 for him; [bulk_approve] approves the plan in his name, logs
    the approval and counts it. *)
Theorem bulk_approve_skips_access_check :
  let now := Sample.midnight 2025 2 1 in
  let out := AnnualPlanViewSet.bulk_approve Sample.bob now
               (BulkData.Build (Some [2]) None) Sample.store in
  plans Sample.store !! 2 = Some Sample.plan2
  ∧ AnnualPlan.status Sample.plan2 = SUBMITTED
  ∧ can_user_access_unit Sample.bob (AnnualPlan.unit Sample.plan2) Sample.store = false
  ∧ AnnualPlanViewSet.approve Sample.bob now 2 Sample.plan2 Sample.store
    = (Ok (Response.Build (ErrorBody "Permission denied") HTTP_403_FORBIDDEN), Sample.store)
  ∧ out.1 = Ok (Response_ok (BulkBody "1 plans approved successfully" "approved_count" 1))
  ∧ plans out.2 !! 2 = Some (approved Sample.bob now Sample.plan2)
  ∧ audits out.2 = [bulk_approve_audit Sample.bob "" now 2 Sample.plan2].
Proof.
  cbv zeta. split; [vm_compute; reflexivity |]. split; [reflexivity |].
  split; [vm_compute; reflexivity |]. split.
  { rewrite approve_cases. reflexivity. }
  repeat split; vm_compute; reflexivity.
Qed.

(** The example of the specification: bulk approval of [[1; 2; 3]] where plan 2
    is already APPROVED counts two plans, leaves plan 2 as it was and logs two
    rows. *)
Lemma bulk_approve_example :
  let now := Sample.midnight 2026 2 1 in
  let out := AnnualPlanViewSet.bulk_approve Sample.bob now
               (BulkData.Build (Some [1; 2; 3]) None) Sample.bulk_store in
  out.1 = Ok (Response_ok (BulkBody "2 plans approved successfully" "approved_count" 2))
  ∧ plans out.2 !! 2 = Some Sample.plan_approved
  ∧ AnnualPlan.status <$> plans out.2 !! 1 = Some APPROVED
  ∧ AnnualPlan.status <$> plans out.2 !! 3 = Some APPROVED
  ∧ length (audits out.2) = 2%nat.
Proof. cbv zeta. repeat split; vm_compute; reflexivity. Qed.

(** ** Indicators of another unit *)

(** [add_target] refuses an indicator that is not owned by the plan's unit,
    and writes nothing. *)
Lemma add_target_foreign_indicator user now pk plan data st i v indicator :
  can_user_access_unit user (AnnualPlan.unit plan) st = true →
  AnnualPlan.status plan = DRAFT →
  TargetData.indicator_id data = Some i →
  TargetData.target_value data = Some v →
  indicators st !! i = Some indicator →
  Unit.eqb (Indicator.owner_unit indicator) (AnnualPlan.unit plan) = false →
  AnnualPlanViewSet.add_target user now pk plan data st
  = (Ok (Response.Build (ErrorBody "Invalid indicator for this unit")
                        HTTP_400_BAD_REQUEST), st).
Proof.
  intros Ha Hs Hi Hv Hind Hown. unfold AnnualPlanViewSet.add_target. run.
  rewrite Ha. mstep. rewrite Hs. mstep.
  unfold AnnualPlanTargetSerializer.validated_data. rewrite Hi, Hv. simpl.
  unfold Indicator_objects_get_owned. rewrite Hind, Hown. reflexivity.
Qed.

(** With an indicator of the plan's own unit, [add_target] gets past the
    lookup and raises in [serializer.save(plan=plan, indicator=indicator)]:
    [create] passes [indicator] to the manager both by name and inside
    [validated_data]. *)
Lemma add_target_own_indicator user now pk plan data st i v indicator :
  can_user_access_unit user (AnnualPlan.unit plan) st = true →
  AnnualPlan.status plan = DRAFT →
  TargetData.indicator_id data = Some i →
  TargetData.target_value data = Some v →
  indicators st !! i = Some indicator →
  Unit.eqb (Indicator.owner_unit indicator) (AnnualPlan.unit plan) = true →
  AnnualPlanViewSet.add_target user now pk plan data st = (Raise TypeError, st).
Proof.
  intros Ha Hs Hi Hv Hind Hown. unfold AnnualPlanViewSet.add_target. run.
  rewrite Ha. mstep. rewrite Hs. mstep.
  unfold AnnualPlanTargetSerializer.validated_data. rewrite Hi, Hv. simpl.
  unfold Indicator_objects_get_owned. rewrite Hind, Hown.
  unfold AnnualPlanTargetSerializer.save, AnnualPlanTargetSerializer.create. run. simpl.
  unfold Indicator_objects_get. rewrite Hind. reflexivity.
Qed.

(** C4, at the failing input: [alice] of office A posts a target for plan 1
    (office A, DRAFT) with indicator 6, which office B owns.  [add_target]
    refuses the payload; [perform_create] of the target endpoint stores the
    target and logs a CREATE row: it fetches the indicator by its id alone. *)
Theorem target_create_foreign_indicator :
  let now := Sample.midnight 2025 1 10 in
  let data := TargetData.Build (Some 1) (Some 6) (Some 5000) None None in
  let serializer := TargetDict.Build (Some 6) (Some 5000) None None None None in
  let out := AnnualPlanTargetViewSet.perform_create Sample.alice now data serializer
               Sample.store in
  AnnualPlanTargetSerializer.validated_data false data = Some serializer
  ∧ plans Sample.store !! 1 = Some Sample.plan1
  ∧ Indicator.owner_unit <$> indicators Sample.store !! 6 = Some Sample.office_b
  ∧ Unit.eqb Sample.office_b (AnnualPlan.unit Sample.plan1) = false
  ∧ AnnualPlanViewSet.add_target Sample.alice now 1 Sample.plan1 data Sample.store
    = (Ok (Response.Build (ErrorBody "Invalid indicator for this unit")
                          HTTP_400_BAD_REQUEST), Sample.store)
  ∧ out.1 = Ok None
  ∧ targets out.2 = [Sample.target1; AnnualPlanTarget.Build 2 1 6 5000 None None]
  ∧ audits out.2
    = [WorkflowAudit.Build 10 Sample.office_a "CREATE" (Some 1) None
         "Added target for indicator B-01" now].
Proof.
  cbv zeta. split; [reflexivity |]. split; [vm_compute; reflexivity |].
  split; [vm_compute; reflexivity |]. split; [reflexivity |]. split.
  { eapply add_target_foreign_indicator; try reflexivity; vm_compute; reflexivity. }
  repeat split; vm_compute; reflexivity.
Qed.

(** ** Actors without a profile *)

(** [get_queryset] dereferences the profile without looking at it. *)
Lemma get_queryset_no_profile user year_param now st :
  get_user_profile user st = None →
  year_param ≠ QNotInt →
  AnnualPlanViewSet.get_queryset user year_param now st = Raise AttributeError.
Proof.
  intros Hp Hy. unfold AnnualPlanViewSet.get_queryset. rewrite Hp.
  destruct year_param; [reflexivity | reflexivity | congruence].
Qed.

(** An object the lookup resolves is one the actor may access: behind a
    detail route the access guard of a view cannot fail. *)
Lemma get_object_access user year_param now pk st plan :
  AnnualPlanViewSet.get_object user year_param now pk st = Ok plan →
  can_user_access_unit user (AnnualPlan.unit plan) st = true.
Proof.
  unfold AnnualPlanViewSet.get_object, AnnualPlanViewSet.get_queryset,
    can_user_access_unit. run.
  intros H.
  destruct (match year_param with
            | QAbsent => Ok (datetime.year now)
            | QInt n => Ok n
            | QNotInt => Raise ValueError
            end) as [year|]; [| discriminate H].
  destruct (get_user_profile user st) as [profile|]; [| discriminate H].
  cbn [profile_role profile_unit] in H.
  destruct (Role_eqb (UserProfile.role profile) SUPERADMIN); [reflexivity |].
  cbn [negb] in H.
  destruct (plans st !! pk) as [p|]; [| discriminate H].
  destruct ((AnnualPlan.year p =? year)
            && Unit.eqb (AnnualPlan.unit p) (UserProfile.unit profile)) eqn:E;
    [| discriminate H].
  injection H as <-. apply andb_true_iff in E as [_ E].
  unfold Unit.eqb in *. rewrite Z.eqb_sym. exact E.
Qed.

Lemma bulk_approve_no_profile user now data st :
  get_user_profile user st = None →
  AnnualPlanViewSet.bulk_approve user now data st = (Raise AttributeError, st).
Proof.
  intros Hp. unfold AnnualPlanViewSet.bulk_approve. run. rewrite Hp. reflexivity.
Qed.

(** C5, at the failing input: [carol] is authenticated and has no profile.
    Listing the annual plans raises [AttributeError] in [get_queryset], so
    does a detail route such as [submit], which resolves its object through
    it, and so does [bulk_approve], which reads [profile.role] itself; the
    framework's exception handler raises the error again, and no response is
    returned. *)
Theorem no_profile_raises :
  let now := Sample.midnight 2025 3 1 in
  User.is_anonymous Sample.carol = false
  ∧ get_user_profile Sample.carol Sample.store = None
  ∧ AnnualPlanViewSet.get_queryset Sample.carol QAbsent now Sample.store
    = Raise AttributeError
  ∧ AnnualPlanViewSet.detail_route (AnnualPlanViewSet.submit Sample.carol now)
      Sample.carol QAbsent now 1 Sample.store
    = (Raise AttributeError, Sample.store)
  ∧ handle_exception
      (AnnualPlanViewSet.bulk_approve Sample.carol now (BulkData.Build (Some [2]) None))
      Sample.store
    = (Raise AttributeError, Sample.store).
Proof.
  cbv zeta.
  assert (Hp : get_user_profile Sample.carol Sample.store = None)
    by (vm_compute; reflexivity).
  split; [reflexivity |]. split; [exact Hp |]. split; [| split].
  - apply get_queryset_no_profile; [exact Hp | discriminate].
  - unfold AnnualPlanViewSet.detail_route, dispatch.
    change (User.is_anonymous Sample.carol) with false. cbn iota.
    unfold AnnualPlanViewSet.get_object, handle_exception. run.
    rewrite get_queryset_no_profile by (exact Hp || discriminate). reflexivity.
  - unfold handle_exception. run. rewrite bulk_approve_no_profile by exact Hp.
    reflexivity.
Qed.

(** ** Entry windows *)

Lemma between_decide (s w e : Z) :
  datetime.between s w e = bool_decide (s ≤ w ≤ e).
Proof.
  unfold datetime.between.
  destruct (Z.leb_spec s w), (Z.leb_spec w e); simpl; symmetry;
    (apply bool_decide_eq_true_2 || apply bool_decide_eq_false_2); lia.
Qed.

Lemma days_before_year_bounds (year : Z) :
  1 ≤ year ≤ 9999 →
  0 ≤ datetime.days_before_year year ≤ 3651694
  ∧ (year ≤ 9998 → datetime.days_before_year year ≤ 3651329).
Proof.
  intros Hy. unfold datetime.days_before_year. cbv zeta. split; [split |].
  - Z.div_mod_to_equations. lia.
  - Z.div_mod_to_equations. lia.
  - intros Hy'. Z.div_mod_to_equations. lia.
Qed.

(** The ordinals of the dates the models build: 1 January and the last days
    of the quarters. *)
Lemma ymd2ord_model_dates (year : Z) :
  let leap := if datetime.is_leap year then 1 else 0 in
  datetime.ymd2ord year 1 1 = datetime.days_before_year year + 1
  ∧ datetime.ymd2ord year 3 31 = datetime.days_before_year year + 90 + leap
  ∧ datetime.ymd2ord year 6 30 = datetime.days_before_year year + 181 + leap
  ∧ datetime.ymd2ord year 9 30 = datetime.days_before_year year + 273 + leap
  ∧ datetime.ymd2ord year 12 31 = datetime.days_before_year year + 365 + leap.
Proof.
  unfold datetime.ymd2ord, datetime.days_before_month.
  generalize (datetime.days_before_year year). intros d.
  destruct (datetime.is_leap year); cbv zeta; simpl; repeat split; lia.
Qed.

(** The constructor on the dates the models build. *)
Lemma datetime_new_ok (year month day hour minute second : Z) :
  1 ≤ year ≤ 9999 → 1 ≤ month ≤ 12 → 1 ≤ day ≤ datetime.days_in_month year month →
  0 ≤ hour ≤ 23 → 0 ≤ minute ≤ 59 → 0 ≤ second ≤ 59 →
  datetime.new year month day hour minute second
  = Ok (datetime.ymd2ord year month day * 86400 + hour * 3600 + minute * 60 + second).
Proof.
  intros Hy Hm Hd Hh Hmi Hs. unfold datetime.new, datetime.MINYEAR, datetime.MAXYEAR.
  rewrite !(proj2 (Z.leb_le _ _)) by lia. reflexivity.
Qed.

Lemma plan_default_entry_window (p : AnnualPlan.t) :
  1 ≤ AnnualPlan.year p ≤ 9999 →
  ∃ jan1, datetime.new (AnnualPlan.year p) 1 1 0 0 0 = Ok jan1
          ∧ AnnualPlan.default_entry_window p = Ok (jan1, jan1 + 30 * 86400).
Proof.
  intros Hy. eexists. split.
  - apply datetime_new_ok; try lia. cbn. lia.
  - unfold AnnualPlan.default_entry_window.
    rewrite datetime_new_ok by (try lia; cbn; lia).
    cbn [result_bind]. unfold datetime.add, datetime.timedelta, datetime.seconds_per_day.
    pose proof (days_before_year_bounds _ Hy) as [Hb _].
    destruct (ymd2ord_model_dates (AnnualPlan.year p)) as [Hord _]. rewrite Hord.
    assert (Hmin : datetime.min = 86400) by reflexivity.
    assert (Hmax : datetime.max = 315537983999) by reflexivity.
    rewrite Hmin, Hmax. cbv zeta.
    rewrite !(proj2 (Z.leb_le _ _)) by lia. reflexivity.
Qed.

(** The last day of a quarter. *)
Lemma report_default_entry_window (r : QuarterlyReport.t) :
  1 ≤ QuarterlyReport.year r ≤ 9999 →
  1 ≤ QuarterlyReport.quarter r ≤ 4 →
  ¬ (QuarterlyReport.year r = 9999 ∧ QuarterlyReport.quarter r = 4) →
  ∃ qend, datetime.new (QuarterlyReport.year r)
            (quarter_end_month (QuarterlyReport.quarter r))
            (quarter_end_day (QuarterlyReport.quarter r)) 23 59 59 = Ok qend
          ∧ QuarterlyReport.default_entry_window r = Ok (qend, qend + 15 * 86400).
Proof.
  intros Hy Hq Hlast. destruct r as [year quarter ? ? ? ? ? ? ? ?]. simpl in *.
  pose proof (days_before_year_bounds _ Hy) as [Hb Hb'].
  assert (Hmin : datetime.min = 86400) by reflexivity.
  assert (Hmax : datetime.max = 315537983999) by reflexivity.
  assert (Hcases : quarter = 1 ∨ quarter = 2 ∨ quarter = 3 ∨ quarter = 4) by lia.
  destruct Hcases as [-> | [-> | [-> | ->]]];
    repeat match goal with
    | |- context [quarter_end_month ?q] =>
        let x := eval vm_compute in (quarter_end_month q) in
        change (quarter_end_month q) with x
    | |- context [quarter_end_day ?q] =>
        let x := eval vm_compute in (quarter_end_day q) in
        change (quarter_end_day q) with x
    end;
    eexists; (split;
    [ apply datetime_new_ok; try lia; cbn; lia
    | unfold QuarterlyReport.default_entry_window, QuarterlyReport.quarter_date_range;
      cbn [QuarterlyReport.quarter QuarterlyReport.year Z.eqb Pos.eqb];
      rewrite !datetime_new_ok by (try lia; cbn; lia);
      cbn [result_bind];
      unfold datetime.add, datetime.timedelta, datetime.seconds_per_day;
      rewrite Hmin, Hmax; cbv zeta;
      destruct (ymd2ord_model_dates year) as (_ & H1 & H2 & H3 & H4);
      rewrite ?H1, ?H2, ?H3, ?H4;
      rewrite !(proj2 (Z.leb_le _ _)) by (destruct (datetime.is_leap year); lia);
      reflexivity ]).
Qed.

(** C7, as the code has it: outside the years [datetime] supports, the
    default window cannot be built and [is_within_entry_window] raises.  A
    plan for the year 0 with no stored window raises [ValueError]; a report
    for the last quarter of 9999 raises [OverflowError]. *)
Lemma entry_window_unsupported_year :
  let plan := AnnualPlan.Build 0 Sample.office_a DRAFT 10 None None None None None in
  let report :=
    QuarterlyReport.Build 9999 4 Sample.office_a DRAFT 10 None None None None None in
  let now := Sample.midnight 2025 1 15 in
  AnnualPlan.is_within_entry_window plan None now = Raise ValueError
  ∧ QuarterlyReport.is_within_entry_window report None now = Raise OverflowError
  ∧ ¬ (∃ start end_,
         AnnualPlan.is_within_entry_window plan None now
         = Ok (bool_decide (start ≤ now ≤ end_))).
Proof.
  cbv zeta. split; [vm_compute; reflexivity |]. split; [vm_compute; reflexivity |].
  intros (start & end_ & H).
  assert (Hr : AnnualPlan.is_within_entry_window
                 (AnnualPlan.Build 0 Sample.office_a DRAFT 10 None None None None None)
                 None (Sample.midnight 2025 1 15) = Raise ValueError)
    by (vm_compute; reflexivity).
  rewrite Hr in H. discriminate H.
Qed.

(** C7, amended to the years [datetime] supports: [is_within_entry_window]
    answers [start <= when <= end], both ends included, where [when] is the
    argument or else the current time.  With both window fields stored,
    [(start, end)] are the stored ones.  With either missing, both come from
    the default rule: for an annual plan of a year in 1..9999, midnight of
    1 January of its year and 30 days later; for a quarterly report of a year
    in 1..9999 and quarter 1..4 (the last quarter of 9999 excepted), 23:59:59
    of the last day of the quarter and 15 days later.  So a plan for 2025 with
    no stored window is within its window on 2025-01-15 and not on 2025-02-15,
    and a report for the first quarter of 2025 is on 2025-04-10 and not on
    2025-05-01. *)
Theorem entry_window_rule :
  (∀ (p : AnnualPlan.t) (when_ : option datetime.t) (now : datetime.t),
     let w := default now when_ in
     (∀ start end_,
        AnnualPlan.entry_window_start p = Some start →
        AnnualPlan.entry_window_end p = Some end_ →
        AnnualPlan.is_within_entry_window p when_ now
        = Ok (bool_decide (start ≤ w ≤ end_)))
     ∧ (AnnualPlan.entry_window_start p = None ∨ AnnualPlan.entry_window_end p = None →
        1 ≤ AnnualPlan.year p ≤ 9999 →
        ∃ jan1, datetime.new (AnnualPlan.year p) 1 1 0 0 0 = Ok jan1
                ∧ AnnualPlan.is_within_entry_window p when_ now
                  = Ok (bool_decide (jan1 ≤ w ≤ jan1 + 30 * 86400))))
  ∧ (∀ (r : QuarterlyReport.t) (when_ : option datetime.t) (now : datetime.t),
     let w := default now when_ in
     (∀ start end_,
        QuarterlyReport.entry_window_start r = Some start →
        QuarterlyReport.entry_window_end r = Some end_ →
        QuarterlyReport.is_within_entry_window r when_ now
        = Ok (bool_decide (start ≤ w ≤ end_)))
     ∧ (QuarterlyReport.entry_window_start r = None
        ∨ QuarterlyReport.entry_window_end r = None →
        1 ≤ QuarterlyReport.year r ≤ 9999 →
        1 ≤ QuarterlyReport.quarter r ≤ 4 →
        ¬ (QuarterlyReport.year r = 9999 ∧ QuarterlyReport.quarter r = 4) →
        ∃ qend, datetime.new (QuarterlyReport.year r)
                  (quarter_end_month (QuarterlyReport.quarter r))
                  (quarter_end_day (QuarterlyReport.quarter r)) 23 59 59 = Ok qend
                ∧ QuarterlyReport.is_within_entry_window r when_ now
                  = Ok (bool_decide (qend ≤ w ≤ qend + 15 * 86400))))
  ∧ (∀ (p : AnnualPlan.t) (now : datetime.t),
     AnnualPlan.year p = 2025 →
     AnnualPlan.entry_window_start p = None ∨ AnnualPlan.entry_window_end p = None →
     AnnualPlan.is_within_entry_window p (Some (Sample.midnight 2025 1 15)) now = Ok true
     ∧ AnnualPlan.is_within_entry_window p (Some (Sample.midnight 2025 2 15)) now
       = Ok false)
  ∧ (∀ (r : QuarterlyReport.t) (now : datetime.t),
     QuarterlyReport.year r = 2025 → QuarterlyReport.quarter r = 1 →
     QuarterlyReport.entry_window_start r = None
     ∨ QuarterlyReport.entry_window_end r = None →
     QuarterlyReport.is_within_entry_window r (Some (Sample.midnight 2025 4 10)) now
     = Ok true
     ∧ QuarterlyReport.is_within_entry_window r (Some (Sample.midnight 2025 5 1)) now
       = Ok false).
Proof.
  assert (Hplan : ∀ (p : AnnualPlan.t) when_ now,
            AnnualPlan.entry_window_start p = None ∨ AnnualPlan.entry_window_end p = None →
            AnnualPlan.is_within_entry_window p when_ now
            = result_bind (AnnualPlan.default_entry_window p)
                (λ '(start, end_), Ok (datetime.between start (default now when_) end_))).
  { intros p when_ now H. unfold AnnualPlan.is_within_entry_window.
    destruct H as [-> | ->]; [reflexivity |].
    destruct (AnnualPlan.entry_window_start p); reflexivity. }
  assert (Hreport : ∀ (r : QuarterlyReport.t) when_ now,
            QuarterlyReport.entry_window_start r = None
            ∨ QuarterlyReport.entry_window_end r = None →
            QuarterlyReport.is_within_entry_window r when_ now
            = result_bind (QuarterlyReport.default_entry_window r)
                (λ '(start, end_), Ok (datetime.between start (default now when_) end_))).
  { intros r when_ now H. unfold QuarterlyReport.is_within_entry_window.
    destruct H as [-> | ->]; [reflexivity |].
    destruct (QuarterlyReport.entry_window_start r); reflexivity. }
  split; [| split; [| split]].
  - intros p when_ now w. split.
    + intros start end_ Hs He. unfold AnnualPlan.is_within_entry_window.
      rewrite Hs, He. f_equal. apply between_decide.
    + intros Hnone Hy.
      destruct (plan_default_entry_window p Hy) as (jan1 & Hnew & Hdef).
      exists jan1. split; [exact Hnew |].
      rewrite Hplan by exact Hnone. rewrite Hdef. simpl. f_equal. apply between_decide.
  - intros r when_ now w. split.
    + intros start end_ Hs He. unfold QuarterlyReport.is_within_entry_window.
      rewrite Hs, He. f_equal. apply between_decide.
    + intros Hnone Hy Hq Hlast.
      destruct (report_default_entry_window r Hy Hq Hlast) as (qend & Hnew & Hdef).
      exists qend. split; [exact Hnew |].
      rewrite Hreport by exact Hnone. rewrite Hdef. simpl. f_equal. apply between_decide.
  - intros p now Hy Hnone. rewrite !Hplan by exact Hnone.
    unfold AnnualPlan.default_entry_window. rewrite Hy. split; vm_compute; reflexivity.
  - intros r now Hy Hq Hnone. rewrite !Hreport by exact Hnone.
    unfold QuarterlyReport.default_entry_window, QuarterlyReport.quarter_date_range.
    rewrite Hy, Hq. split; vm_compute; reflexivity.
Qed.

(** A plan can be rendered exactly when it has a stored window or its year
    is one [datetime] supports. *)
Lemma renders_iff (plan : AnnualPlan.t) (now : datetime.t) :
  renders plan now
  ↔ (is_Some (AnnualPlan.entry_window_start plan)
     ∧ is_Some (AnnualPlan.entry_window_end plan))
    ∨ 1 ≤ AnnualPlan.year plan ≤ 9999.
Proof.
  unfold renders, AnnualPlan.is_within_entry_window.
  assert (Hdefault : (∃ within,
              result_bind (AnnualPlan.default_entry_window plan)
                (λ '(start, end_), Ok (datetime.between start (default now None) end_))
              = Ok within)
            ↔ 1 ≤ AnnualPlan.year plan ≤ 9999).
  { split.
    - intros [within H]. unfold AnnualPlan.default_entry_window, datetime.new in H.
      unfold datetime.MINYEAR, datetime.MAXYEAR in H.
      destruct (Z.leb_spec 1 (AnnualPlan.year plan)),
               (Z.leb_spec (AnnualPlan.year plan) 9999);
        simpl in H; try discriminate H. lia.
    - intros Hy. destruct (plan_default_entry_window plan Hy) as (jan1 & _ & ->).
      eexists. reflexivity. }
  destruct (AnnualPlan.entry_window_start plan) as [start|],
           (AnnualPlan.entry_window_end plan) as [end_|].
  - split; [| eexists; reflexivity]. intros _. left. split; eexists; reflexivity.
  - rewrite Hdefault. split; [intros H; right; exact H |].
    intros [[_ [x Hx]] | H]; [discriminate Hx | exact H].
  - rewrite Hdefault. split; [intros H; right; exact H |].
    intros [[[x Hx] _] | H]; [discriminate Hx | exact H].
  - rewrite Hdefault. split; [intros H; right; exact H |].
    intros [[[x Hx] _] | H]; [discriminate Hx | exact H].
Qed.

(** Whether a plan can be rendered does not depend on the clock. *)
Lemma renders_any_time (plan : AnnualPlan.t) (now now' : datetime.t) :
  renders plan now ↔ renders plan now'.
Proof. rewrite !renders_iff. reflexivity. Qed.

(** ** Percentages *)

Lemma completion_percentage_guarded (completed total : Z) :
  0 ≤ total →
  api.completion_percentage completed total = Ok (percentage completed total).
Proof.
  intros Ht. unfold api.completion_percentage, percentage, py_truediv, py_mul_int.
  destruct (Z.ltb_spec 0 total) as [Hpos | Hle].
  - destruct (Z.eqb_spec total 0) as [-> | _]; [lia | reflexivity].
  - assert (total = 0) as -> by lia. reflexivity.
Qed.

Lemma approval_rate_guarded (approved total : Z) :
  0 ≤ total →
  AuditViewSet.approval_rate approved total = Ok (percentage approved total).
Proof.
  intros Ht. unfold AuditViewSet.approval_rate, percentage, py_truediv, py_mul_int.
  destruct (Z.ltb_spec 0 total) as [Hpos | Hle].
  - destruct (Z.eqb_spec total 0) as [-> | _]; [lia | reflexivity].
  - assert (total = 0) as -> by lia. reflexivity.
Qed.

Lemma count_nonneg {A : Type} (rows : list A) : 0 ≤ count rows.
Proof. unfold count. lia. Qed.

(** C9: the completion percentage of [get_annual_plan_progress] is
    [completed_entries / total_targets * 100], and each approval rate of
    [performance_summary] is [approved / total * 100], both in floating point
    and both 0 when the denominator is 0; neither computation raises.  The
    progress view answers every request; for a plan the actor may access it
    answers 200 with the count of the plan's targets, the count of the
    entries of the plan's unit and year, and their percentage.  With 4
    targets and 3 entries the percentage is 75.0. *)
Theorem percentages_guarded :
  (∀ part whole, 0 ≤ whole →
     api.completion_percentage part whole = Ok (percentage part whole)
     ∧ AuditViewSet.approval_rate part whole = Ok (percentage part whole))
  ∧ (∀ plan_id user st, ∃ response,
       api.get_annual_plan_progress plan_id user st = Ok response)
  ∧ (∀ plan_id user st plan,
       User.is_anonymous user = false →
       plans st !! plan_id = Some plan →
       can_user_access_unit user (AnnualPlan.unit plan) st = true →
       let total_targets := count (plan_targets plan_id st) in
       let completed_entries :=
         count (api.entries_of_unit_year (AnnualPlan.unit plan) (AnnualPlan.year plan) st) in
       api.get_annual_plan_progress plan_id user st
       = Ok (api.Build (api.JsonProgress total_targets completed_entries
                          (percentage completed_entries total_targets)) 200))
  ∧ (∀ user year_param now st stats,
       AuditViewSet.performance_summary_stats user year_param now st = Ok stats →
       AuditViewSet.plan_approval_rate stats
       = percentage (AuditViewSet.approved_plans stats) (AuditViewSet.total_plans stats)
       ∧ AuditViewSet.report_approval_rate stats
         = percentage (AuditViewSet.approved_reports stats)
                      (AuditViewSet.total_reports stats))
  ∧ percentage 3 4 = PyFloat 75
  ∧ percentage 3 0 = PyInt 0.
Proof.
  split; [| split; [| split; [| split; [| split]]]].
  - intros part whole Hw. split.
    + apply completion_percentage_guarded, Hw.
    + apply approval_rate_guarded, Hw.
  - intros plan_id user st. unfold api.get_annual_plan_progress, api.login_required.
    destruct (User.is_anonymous user); [eexists; reflexivity |].
    destruct (api.get_annual_plan_progress_body plan_id user st); eexists; reflexivity.
  - intros plan_id user st plan Hu Hp Ha total_targets completed_entries.
    unfold api.get_annual_plan_progress, api.login_required. rewrite Hu.
    unfold api.get_annual_plan_progress_body, api.get_plan_or_404.
    rewrite Hp. run. rewrite Ha. cbn beta iota delta [negb].
    fold total_targets completed_entries.
    rewrite completion_percentage_guarded by apply count_nonneg. reflexivity.
  - intros user year_param now st stats H.
    unfold AuditViewSet.performance_summary_stats in H. run.
    destruct (profile_role (get_user_profile user st)) as [role|]; [| discriminate H].
    destruct (if Role_eqb role SUPERADMIN then _ else _) as [accessible|];
      [| discriminate H].
    destruct year_param as [| year |]; [| | discriminate H].
    all: rewrite !approval_rate_guarded in H by apply count_nonneg.
    all: injection H as <-; split; reflexivity.
  - reflexivity.
  - reflexivity.
Qed.

(** ** Editing the children of a plan or report *)

Lemma Status_eqb_neq a b : a ≠ b → Status_eqb a b = false.
Proof.
  intros H. destruct (Status_eqb a b) eqn:E; [| reflexivity].
  apply Status_eqb_eq in E. contradiction.
Qed.

(** A parent that is not DRAFT: every handler of the targets answers its 400
    and leaves the store as it is. *)
Lemma target_handlers_not_draft user now pk plan st :
  can_user_access_unit user (AnnualPlan.unit plan) st = true →
  AnnualPlan.status plan ≠ DRAFT →
  (∀ data,
     AnnualPlanViewSet.add_target user now pk plan data st
     = (Ok (invalid_state "Cannot add targets to submitted/approved plans"), st))
  ∧ (∀ data serializer,
       TargetData.plan_id data = Some pk → pk ≠ 0 → plans st !! pk = Some plan →
       AnnualPlanTargetViewSet.perform_create user now data serializer st
       = (Ok (Some (invalid_state "Cannot add targets to submitted/approved plans")), st))
  ∧ (∀ target serializer,
       AnnualPlanTarget.plan target = pk → plans st !! pk = Some plan →
       AnnualPlanTargetViewSet.perform_update user now target serializer st
       = (Ok (Some (invalid_state "Cannot modify targets in submitted/approved plans")), st))
  ∧ (∀ target,
       AnnualPlanTarget.plan target = pk → plans st !! pk = Some plan →
       AnnualPlanTargetViewSet.perform_destroy user now target st
       = (Ok (Some (invalid_state "Cannot delete targets from submitted/approved plans")),
          st)).
Proof.
  intros Ha Hs. apply Status_eqb_neq in Hs. split; [| split; [| split]].
  - intros data. unfold AnnualPlanViewSet.add_target. run.
    rewrite Ha. mstep. rewrite Hs. reflexivity.
  - intros data serializer Hid Hpk Hplan.
    unfold AnnualPlanTargetViewSet.perform_create. rewrite Hid.
    rewrite (proj2 (Z.eqb_neq pk 0) Hpk).
    unfold AnnualPlan_objects_get. run. rewrite Hplan, Ha. mstep. rewrite Hs. reflexivity.
  - intros target serializer Hid Hplan.
    unfold AnnualPlanTargetViewSet.perform_update, AnnualPlan_objects_get. run.
    rewrite Hid, Hplan, Ha. mstep. rewrite Hs. reflexivity.
  - intros target Hid Hplan.
    unfold AnnualPlanTargetViewSet.perform_destroy, AnnualPlan_objects_get. run.
    rewrite Hid, Hplan, Ha. mstep. rewrite Hs. reflexivity.
Qed.

(** The same for the entries of a report. *)
Lemma entry_handlers_not_draft user now pk report st :
  can_user_access_unit user (QuarterlyReport.unit report) st = true →
  QuarterlyReport.status report ≠ DRAFT →
  (∀ data,
     QuarterlyReportViewSet.add_entry user now pk report data st
     = (Ok (invalid_state "Cannot add entries to submitted/approved reports"), st))
  ∧ (∀ data serializer,
       EntryData.report_id data = Some pk → pk ≠ 0 → reports st !! pk = Some report →
       QuarterlyIndicatorEntryViewSet.perform_create user now data serializer st
       = (Ok (Some (invalid_state "Cannot add entries to submitted/approved reports")), st))
  ∧ (∀ entry serializer,
       QuarterlyIndicatorEntry.report entry = pk → reports st !! pk = Some report →
       QuarterlyIndicatorEntryViewSet.perform_update user now entry serializer st
       = (Ok (Some (invalid_state "Cannot modify entries in submitted/approved reports")),
          st))
  ∧ (∀ entry,
       QuarterlyIndicatorEntry.report entry = pk → reports st !! pk = Some report →
       QuarterlyIndicatorEntryViewSet.perform_destroy user now entry st
       = (Ok (Some (invalid_state "Cannot delete entries from submitted/approved reports")),
          st)).
Proof.
  intros Ha Hs. apply Status_eqb_neq in Hs. split; [| split; [| split]].
  - intros data. unfold QuarterlyReportViewSet.add_entry. run.
    rewrite Ha. mstep. rewrite Hs. reflexivity.
  - intros data serializer Hid Hpk Hreport.
    unfold QuarterlyIndicatorEntryViewSet.perform_create. rewrite Hid.
    rewrite (proj2 (Z.eqb_neq pk 0) Hpk).
    unfold QuarterlyReport_objects_get. run. rewrite Hreport, Ha. mstep. rewrite Hs.
    reflexivity.
  - intros entry serializer Hid Hreport.
    unfold QuarterlyIndicatorEntryViewSet.perform_update, QuarterlyReport_objects_get. run.
    rewrite Hid, Hreport, Ha. mstep. rewrite Hs. reflexivity.
  - intros entry Hid Hreport.
    unfold QuarterlyIndicatorEntryViewSet.perform_destroy, QuarterlyReport_objects_get. run.
    rewrite Hid, Hreport, Ha. mstep. rewrite Hs. reflexivity.
Qed.

Lemma existsb_false_elem {A : Type} (f : A → bool) (l : list A) :
  (∀ x, x ∈ l → f x = false) → existsb f l = false.
Proof.
  intros H. induction l as [|x l IH]; [reflexivity |]. simpl.
  rewrite (H x) by left. apply IH. intros y Hy. apply H. right. exact Hy.
Qed.

Lemma existsb_true_elem {A : Type} (f : A → bool) (l : list A) (x : A) :
  x ∈ l → f x = true → existsb f l = true.
Proof.
  intros Hx Hf. apply existsb_exists. exists x. split; [| exact Hf].
  apply list_elem_of_In, Hx.
Qed.

(** A DRAFT parent: [perform_update] stores the new values and logs one
    UPDATE row, at whatever time. *)
Lemma target_update_performed user now target serializer plan indicator st :
  plans st !! AnnualPlanTarget.plan target = Some plan →
  can_user_access_unit user (AnnualPlan.unit plan) st = true →
  AnnualPlan.status plan = DRAFT →
  target ∈ targets st →
  targets_unique st →
  indicators st !! AnnualPlanTarget.indicator target = Some indicator →
  TargetDict.indicator_id serializer = None →
  TargetDict.plan serializer = None →
  TargetDict.indicator serializer = None →
  AnnualPlanTargetViewSet.perform_update user now target serializer st
  = (Ok None,
     set_audits (λ rows, rows ++
         [WorkflowAudit.Build (User.id user) (AnnualPlan.unit plan) "UPDATE"
            (Some (AnnualPlanTarget.plan target)) None
            ("Updated target for indicator " +:+ Indicator.code indicator) now])
       (set_targets (map (λ t, if AnnualPlanTarget.id t =? AnnualPlanTarget.id target
                               then target_updated target serializer else t)) st)).
Proof.
  intros Hplan Ha Hs Hin Huniq Hind Hi Hp Hind'.
  unfold AnnualPlanTargetViewSet.perform_update, AnnualPlan_objects_get. run.
  rewrite Hplan, Ha. mstep. rewrite Hs. mstep.
  unfold AnnualPlanTargetSerializer.save, AnnualPlanTargetSerializer.update. run.
  cbn [TargetDict.indicator_id TargetDict.plan TargetDict.indicator
       TargetDict.target_value TargetDict.baseline_value TargetDict.remarks].
  rewrite Hi, Hp, Hind'. cbn [fmap option_fmap option_map default].
  fold (target_updated target serializer).
  unfold AnnualPlanTarget_save. run.
  rewrite existsb_false_elem.
  2:{ intros t Ht. cbn [target_updated AnnualPlanTarget.id AnnualPlanTarget.plan
                        AnnualPlanTarget.indicator].
      destruct (Z.eqb_spec (AnnualPlanTarget.id t) (AnnualPlanTarget.id target)) as [|Hne];
        [reflexivity |].
      destruct (Z.eqb_spec (AnnualPlanTarget.plan t) (AnnualPlanTarget.plan target))
        as [Hp1|]; [| reflexivity].
      destruct (Z.eqb_spec (AnnualPlanTarget.indicator t)
                  (AnnualPlanTarget.indicator target)) as [Hi1|]; [| reflexivity].
      exfalso. apply Hne. apply Huniq; assumption. }
  rewrite (existsb_true_elem _ _ target Hin) by apply Z.eqb_refl.
  cbn beta iota.
  unfold Indicator_objects_get. cbn [indicators set_targets]. rewrite Hind.
  rewrite log_action_plan by eauto using can_user_access_unit_not_anonymous.
  reflexivity.
Qed.

(** C2, as the code has it: on 2025-06-01 plan 1 (for 2025, DRAFT, no stored
    window) is outside its entry window, which ended on 2025-01-31; [alice]
    changes the value of its target through [perform_update], and the change
    is stored: no handler looks at the window. *)
Lemma target_update_outside_window :
  let now := Sample.midnight 2025 6 1 in
  let serializer := TargetDict.Build None (Some 2000000) None None None None in
  let out := AnnualPlanTargetViewSet.perform_update Sample.alice now Sample.target1
               serializer Sample.store in
  plans Sample.store !! AnnualPlanTarget.plan Sample.target1 = Some Sample.plan1
  ∧ AnnualPlan.status Sample.plan1 = DRAFT
  ∧ AnnualPlan.is_within_entry_window Sample.plan1 None now = Ok false
  ∧ AnnualPlanTargetSerializer.validated_data true
      (TargetData.Build None None (Some 2000000) None None) = Some serializer
  ∧ out.1 = Ok None
  ∧ targets out.2 = [AnnualPlanTarget.Build 1 1 5 2000000 None None]
  ∧ targets out.2 ≠ targets Sample.store.
Proof.
  cbv zeta. repeat split; try (vm_compute; reflexivity).
  vm_compute. discriminate.
Qed.

(** C2, amended: for an actor who passes [can_user_access_unit], adding,
    modifying or deleting a child of a plan or report that is not DRAFT is
    answered by the handler's 400 and leaves the store unchanged, at whatever
    time.  On a DRAFT parent the entry window is not consulted: a change of a
    target's values through [perform_update] at a time outside the window is
    stored and logged with one UPDATE row. *)
Theorem child_edit_guards :
  (∀ user now pk plan st,
     can_user_access_unit user (AnnualPlan.unit plan) st = true →
     AnnualPlan.status plan ≠ DRAFT →
     (∀ data,
        AnnualPlanViewSet.add_target user now pk plan data st
        = (Ok (invalid_state "Cannot add targets to submitted/approved plans"), st))
     ∧ (∀ data serializer,
          TargetData.plan_id data = Some pk → pk ≠ 0 → plans st !! pk = Some plan →
          AnnualPlanTargetViewSet.perform_create user now data serializer st
          = (Ok (Some (invalid_state "Cannot add targets to submitted/approved plans")),
             st))
     ∧ (∀ target serializer,
          AnnualPlanTarget.plan target = pk → plans st !! pk = Some plan →
          AnnualPlanTargetViewSet.perform_update user now target serializer st
          = (Ok (Some (invalid_state "Cannot modify targets in submitted/approved plans")),
             st))
     ∧ (∀ target,
          AnnualPlanTarget.plan target = pk → plans st !! pk = Some plan →
          AnnualPlanTargetViewSet.perform_destroy user now target st
          = (Ok (Some (invalid_state
                         "Cannot delete targets from submitted/approved plans")), st)))
  ∧ (∀ user now pk report st,
     can_user_access_unit user (QuarterlyReport.unit report) st = true →
     QuarterlyReport.status report ≠ DRAFT →
     (∀ data,
        QuarterlyReportViewSet.add_entry user now pk report data st
        = (Ok (invalid_state "Cannot add entries to submitted/approved reports"), st))
     ∧ (∀ data serializer,
          EntryData.report_id data = Some pk → pk ≠ 0 → reports st !! pk = Some report →
          QuarterlyIndicatorEntryViewSet.perform_create user now data serializer st
          = (Ok (Some (invalid_state "Cannot add entries to submitted/approved reports")),
             st))
     ∧ (∀ entry serializer,
          QuarterlyIndicatorEntry.report entry = pk → reports st !! pk = Some report →
          QuarterlyIndicatorEntryViewSet.perform_update user now entry serializer st
          = (Ok (Some (invalid_state
                         "Cannot modify entries in submitted/approved reports")), st))
     ∧ (∀ entry,
          QuarterlyIndicatorEntry.report entry = pk → reports st !! pk = Some report →
          QuarterlyIndicatorEntryViewSet.perform_destroy user now entry st
          = (Ok (Some (invalid_state
                         "Cannot delete entries from submitted/approved reports")), st)))
  ∧ (∀ user now target serializer plan indicator st,
     plans st !! AnnualPlanTarget.plan target = Some plan →
     can_user_access_unit user (AnnualPlan.unit plan) st = true →
     AnnualPlan.status plan = DRAFT →
     AnnualPlan.is_within_entry_window plan None now ≠ Ok true →
     target ∈ targets st →
     targets_unique st →
     indicators st !! AnnualPlanTarget.indicator target = Some indicator →
     TargetDict.indicator_id serializer = None →
     TargetDict.plan serializer = None →
     TargetDict.indicator serializer = None →
     AnnualPlanTargetViewSet.perform_update user now target serializer st
     = (Ok None,
        set_audits (λ rows, rows ++
            [WorkflowAudit.Build (User.id user) (AnnualPlan.unit plan) "UPDATE"
               (Some (AnnualPlanTarget.plan target)) None
               ("Updated target for indicator " +:+ Indicator.code indicator) now])
          (set_targets (map (λ t, if AnnualPlanTarget.id t =? AnnualPlanTarget.id target
                                  then target_updated target serializer else t)) st))).
Proof.
  split; [| split].
  - intros. apply target_handlers_not_draft; assumption.
  - intros. apply entry_handlers_not_draft; assumption.
  - intros user now target serializer plan indicator st Hplan Ha Hs _.
    intros. apply target_update_performed; assumption.
Qed.

(** ** The theorems at concrete inputs *)



Lemma approve_twice_witness :
  let now := Sample.midnight 2025 2 1 in
  let st1 := (AnnualPlanViewSet.approve Sample.dana now 2 Sample.plan2 Sample.store).2 in
  AnnualPlanViewSet.approve Sample.dana (Sample.midnight 2025 2 2) 2
    (approved Sample.dana now Sample.plan2) st1
  = (Ok (Response.Build (ErrorBody "Only submitted plans can be approved")
                        HTTP_400_BAD_REQUEST), st1).
Proof.
  cbv zeta.
  refine (proj1 (approve_twice Sample.dana (Sample.midnight 2025 2 1)
                   (Sample.midnight 2025 2 2) 2 Sample.plan2
                   (approved Sample.dana (Sample.midnight 2025 2 1) Sample.plan2)
                   Sample.store
                   (PlanBody 2 (approved Sample.dana (Sample.midnight 2025 2 1) Sample.plan2))
                   _ _ _)).
  - vm_compute. reflexivity.
  - vm_compute. reflexivity.
Defined.

Lemma entry_window_rule_witness :
  ∃ jan1, datetime.new (AnnualPlan.year Sample.plan1) 1 1 0 0 0 = Ok jan1
          ∧ AnnualPlan.is_within_entry_window Sample.plan1 None (Sample.midnight 2025 1 15)
            = Ok (bool_decide (jan1 ≤ Sample.midnight 2025 1 15 ≤ jan1 + 30 * 86400)).
Proof.
  apply (proj2 (proj1 entry_window_rule Sample.plan1 None (Sample.midnight 2025 1 15))).
  - left. reflexivity.
  - simpl. lia.
Defined.

Lemma percentages_guarded_witness :
  api.completion_percentage 3 4 = Ok (percentage 3 4)
  ∧ AuditViewSet.approval_rate 3 4 = Ok (percentage 3 4).
Proof.
  apply (proj1 percentages_guarded 3 4). lia.
Defined.

Lemma child_edit_guards_witness :
  let now := Sample.midnight 2025 6 1 in
  let serializer := TargetDict.Build None (Some 2000000) None None None None in
  AnnualPlanViewSet.add_target Sample.dana now 2 Sample.plan2
    (TargetData.Build None (Some 6) (Some 1) None None) Sample.store
  = (Ok (invalid_state "Cannot add targets to submitted/approved plans"), Sample.store)
  ∧ AnnualPlanTargetViewSet.perform_update Sample.alice now Sample.target1 serializer
      Sample.store
    = (Ok None,
       set_audits (λ rows, rows ++
           [WorkflowAudit.Build 10 Sample.office_a "UPDATE" (Some 1) None
              "Updated target for indicator A-01" now])
         (set_targets (map (λ t, if AnnualPlanTarget.id t =? 1
                                 then target_updated Sample.target1 serializer else t))
            Sample.store)).
Proof.
  cbv zeta. destruct child_edit_guards as (Hplan & _ & Hdraft). split.
  - apply (Hplan Sample.dana (Sample.midnight 2025 6 1) 2 Sample.plan2 Sample.store).
    + vm_compute. reflexivity.
    + discriminate.
  - apply (Hdraft Sample.alice (Sample.midnight 2025 6 1) Sample.target1
             (TargetDict.Build None (Some 2000000) None None None None)
             Sample.plan1 (Indicator.Build "A-01" "Irrigated area" Sample.office_a true)
             Sample.store).
    + vm_compute. reflexivity.
    + vm_compute. reflexivity.
    + reflexivity.
    + vm_compute. discriminate.
    + left.
    + intros t1 t2 H1 H2 _ _.
      apply list_elem_of_singleton in H1, H2. subst. reflexivity.
    + vm_compute. reflexivity.
    + reflexivity.
    + reflexivity.
    + reflexivity.
Defined.

(** * Further properties of the code *)

(** ** Access, and the audit log *)

(** X1: [can_user_access_unit] holds exactly when the user is not anonymous,
    has a profile, and either the profile's role is SUPERADMIN or the
    profile's unit has the primary key of the unit asked for (the names of
    the units play no part). *)
Theorem can_user_access_unit_iff user unit st :
  can_user_access_unit user unit st = true
  ↔ User.is_anonymous user = false
    ∧ ∃ profile, profiles st !! User.id user = Some profile
                 ∧ (UserProfile.role profile = SUPERADMIN
                    ∨ Unit.id (UserProfile.unit profile) = Unit.id unit).
Proof.
  unfold can_user_access_unit, get_user_profile, Unit.eqb.
  destruct (User.is_anonymous user).
  - split; [discriminate | intros [H _]; discriminate H].
  - destruct (profiles st !! User.id user) as [profile|].
    + split.
      * intros H. split; [reflexivity |]. exists profile. split; [reflexivity |].
        destruct (UserProfile.role profile) eqn:Hr; simpl in H;
          [left; reflexivity | right | right | right]; apply Z.eqb_eq, H.
      * intros (_ & profile' & Hp & Hor). injection Hp as <-.
        destruct Hor as [-> | Hid]; [reflexivity |].
        destruct (Role_eqb (UserProfile.role profile) SUPERADMIN); [reflexivity |].
        apply Z.eqb_eq, Hid.
    + split; [discriminate |]. intros (_ & profile & Hp & _). discriminate Hp.
Qed.

(** X2: whatever objects a caller puts in its positions, [log_action] either
    raises [ValueError] or [IntegrityError] and leaves the store as it is, or
    appends exactly one row, by the requesting user, to the end of the audit
    log and changes nothing else.  It appends when the user is not anonymous,
    [unit] is a unit, [action] is not [None], and the two contexts are [None]
    or a plan and a report respectively. *)
Theorem log_action_appends_or_raises user unit action context_plan context_report
    message now st :
  let out := log_action user unit action context_plan context_report message now st in
  (out = (Raise ValueError, st) ∨ out = (Raise IntegrityError, st)
   ∨ ∃ row, out = (Ok (), set_audits (λ rows, rows ++ [row]) st)
            ∧ WorkflowAudit.actor row = User.id user
            ∧ WorkflowAudit.message row = message
            ∧ WorkflowAudit.created_at row = now)
  ∧ (User.is_anonymous user = false →
     ∀ u a, unit = PUnit u → action = PStr a →
       (context_plan = PNone ∨ ∃ pk p, context_plan = PPlan pk p) →
       (context_report = PNone ∨ ∃ pk r, context_report = PReport pk r) →
       ∃ row, out = (Ok (), set_audits (λ rows, rows ++ [row]) st)
              ∧ WorkflowAudit.unit row = u ∧ WorkflowAudit.action row = a).
Proof.
  cbv zeta. unfold log_action, log_workflow_action, WorkflowAudit_objects_create.
  run. unfold fk_user, user_pk. split.
  - destruct (User.is_anonymous user); [left; reflexivity |]. cbn beta iota.
    destruct unit; cbn; try (left; reflexivity);
      destruct context_plan; cbn; try (left; reflexivity);
      destruct context_report; cbn; try (left; reflexivity);
      try (right; left; reflexivity);
      destruct action; cbn; try (right; left; reflexivity);
      right; right; eexists; repeat split; reflexivity.
  - intros Hu u a -> -> Hp Hr. rewrite Hu. cbn.
    destruct Hp as [-> | (pk & p & ->)], Hr as [-> | (pk' & r & ->)]; cbn;
      eexists; repeat split; reflexivity.
Qed.

Lemma log_action_appends_or_raises_witness :
  ∃ row,
    log_action Sample.alice (PUnit Sample.office_a) (PStr "UPDATE") PNone PNone
      "Indicator A-01 deactivated" (Sample.midnight 2025 3 1) Sample.store
    = (Ok (), set_audits (λ rows, rows ++ [row]) Sample.store)
    ∧ WorkflowAudit.unit row = Sample.office_a ∧ WorkflowAudit.action row = "UPDATE".
Proof.
  apply (proj2 (log_action_appends_or_raises Sample.alice (PUnit Sample.office_a)
                  (PStr "UPDATE") PNone PNone "Indicator A-01 deactivated"
                  (Sample.midnight 2025 3 1) Sample.store)
           eq_refl Sample.office_a "UPDATE" eq_refl eq_refl).
  - left. reflexivity.
  - left. reflexivity.
Defined.

(** ** Rejection and the roles *)

(** X3: a [reject] that answers 200 was called on a SUBMITTED plan; it stores
    the plan with status REJECTED and with [submitted_at], [approved_by] and
    [approved_at] as they were, appends one REJECT row for the plan, and
    leaves every other plan alone. *)
Theorem reject_performed user now pk plan st body st' :
  AnnualPlanViewSet.reject user now pk plan st = (Ok (Response_ok body), st') →
  AnnualPlan.status plan = SUBMITTED
  ∧ body = PlanBody pk (rejected plan)
  ∧ plans st' !! pk = Some (rejected plan)
  ∧ AnnualPlan.status (rejected plan) = REJECTED
  ∧ AnnualPlan.submitted_at (rejected plan) = AnnualPlan.submitted_at plan
  ∧ AnnualPlan.approved_by (rejected plan) = AnnualPlan.approved_by plan
  ∧ AnnualPlan.approved_at (rejected plan) = AnnualPlan.approved_at plan
  ∧ audits st' = audits st ++ [reject_audit user now pk plan]
  ∧ WorkflowAudit.action (reject_audit user now pk plan) = "REJECT"
  ∧ (∀ pk', pk' ≠ pk → plans st' !! pk' = plans st !! pk').
Proof.
  intros H. rewrite reject_cases in H.
  destruct (negb (can_user_access_unit user (AnnualPlan.unit plan) st)); [discriminate H |].
  destruct (get_user_profile user st) as [profile|]; [| discriminate H].
  destruct (negb (is_approver_role (UserProfile.role profile))); [discriminate H |].
  destruct (Status_eqb (AnnualPlan.status plan) SUBMITTED) eqn:Hs; [| discriminate H].
  cbn [negb] in H. injection H as Hbody <-. apply Status_eqb_eq in Hs.
  apply rendered_succeeded in Hbody as [-> _].
  split; [exact Hs |]. split; [reflexivity |]. simpl.
  rewrite lookup_insert_eq. repeat split; try reflexivity.
  intros pk' Hne. apply lookup_insert_ne. congruence.
Qed.

Lemma reject_performed_witness :
  let now := Sample.midnight 2025 2 1 in
  let out := AnnualPlanViewSet.reject Sample.dana now 2 Sample.plan2 Sample.store in
  plans out.2 !! 2 = Some (rejected Sample.plan2)
  ∧ audits out.2 = audits Sample.store ++ [reject_audit Sample.dana now 2 Sample.plan2].
Proof.
  cbv zeta.
  pose proof (reject_performed Sample.dana (Sample.midnight 2025 2 1) 2 Sample.plan2
                Sample.store (PlanBody 2 (rejected Sample.plan2))
                (AnnualPlanViewSet.reject Sample.dana (Sample.midnight 2025 2 1) 2
                   Sample.plan2 Sample.store).2) as H.
  destruct H as (_ & _ & Hp & _ & _ & _ & _ & Ha & _).
  - vm_compute. reflexivity.
  - split; [exact Hp | exact Ha].
Defined.

Lemma can_user_access_unit_scope user unit st :
  can_user_access_unit user unit st = true →
  ∃ profile, get_user_profile user st = Some profile
             ∧ (UserProfile.role profile = SUPERADMIN
                ∨ Unit.id (UserProfile.unit profile) = Unit.id unit).
Proof.
  unfold can_user_access_unit, Unit.eqb.
  destruct (get_user_profile user st) as [profile|]; [| discriminate].
  intros H. exists profile. split; [reflexivity |].
  destruct (UserProfile.role profile); simpl in H;
    [left; reflexivity | right | right | right]; apply Z.eqb_eq, H.
Qed.

(** X4: [approve] and [reject] change the store only when the plan is
    SUBMITTED and the actor is a SUPERADMIN, or a STRATEGIC_AFFAIRS user whose
    own unit is the plan's unit; for every other actor, and for a plan in any
    other status, the store is left as it is. *)
Theorem approval_needs_role_and_unit user now pk plan st :
  (AnnualPlanViewSet.approve user now pk plan st).2 ≠ st
  ∨ (AnnualPlanViewSet.reject user now pk plan st).2 ≠ st →
  AnnualPlan.status plan = SUBMITTED
  ∧ ∃ profile, get_user_profile user st = Some profile
      ∧ (UserProfile.role profile = SUPERADMIN
         ∨ (UserProfile.role profile = STRATEGIC_AFFAIRS
            ∧ Unit.id (UserProfile.unit profile) = Unit.id (AnnualPlan.unit plan))).
Proof.
  rewrite approve_cases, reject_cases.
  destruct (can_user_access_unit user (AnnualPlan.unit plan) st) eqn:Ha;
    [| intros [H | H]; contradiction].
  cbn [negb]. apply can_user_access_unit_scope in Ha as (profile & Hprofile & Hor).
  rewrite Hprofile.
  destruct (is_approver_role (UserProfile.role profile)) eqn:Hr;
    [| intros [H | H]; contradiction].
  cbn [negb].
  destruct (Status_eqb (AnnualPlan.status plan) SUBMITTED) eqn:Hs;
    [| intros [H | H]; contradiction].
  intros _. split; [apply Status_eqb_eq, Hs |]. exists profile. split; [reflexivity |].
  destruct (UserProfile.role profile) eqn:Hrole; try discriminate Hr.
  - left. reflexivity.
  - right. split; [reflexivity |]. destruct Hor as [Hc | Hid]; [discriminate Hc | exact Hid].
Qed.

Lemma approval_needs_role_and_unit_witness :
  AnnualPlan.status Sample.plan2 = SUBMITTED
  ∧ ∃ profile, get_user_profile Sample.dana Sample.store = Some profile
      ∧ (UserProfile.role profile = SUPERADMIN
         ∨ (UserProfile.role profile = STRATEGIC_AFFAIRS
            ∧ Unit.id (UserProfile.unit profile) = Unit.id (AnnualPlan.unit Sample.plan2))).
Proof.
  apply (approval_needs_role_and_unit Sample.dana (Sample.midnight 2025 2 1) 2
           Sample.plan2 Sample.store).
  left. vm_compute. discriminate.
Defined.

(** ** Bulk approval and rejection of plans *)

Lemma plan_is_submitted_iff st pk :
  plan_is_submitted st pk = true
  ↔ ∃ p, plans st !! pk = Some p ∧ AnnualPlan.status p = SUBMITTED.
Proof.
  unfold plan_is_submitted. destruct (plans st !! pk) as [p|].
  - rewrite Status_eqb_eq. split; [eauto |]. intros (p' & Hp & Hs). congruence.
  - split; [discriminate |]. intros (p' & Hp & _). discriminate Hp.
Qed.

(** The rows a list of distinct keys accounts for. *)
Lemma length_of_keys {A : Type} (rows : list A) (key : A → option Z) (keys : list Z) :
  NoDup (key <$> rows) → NoDup keys →
  (∀ pk, Some pk ∈ key <$> rows ↔ pk ∈ keys) →
  (∀ row, row ∈ rows → ∃ pk, key row = Some pk) →
  length rows = length keys.
Proof.
  intros Hnd Hnd' Hiff Hsome.
  rewrite <- (length_fmap key rows), <- (length_fmap Some keys).
  apply Permutation_length, NoDup_Permutation; [exact Hnd | |].
  - apply NoDup_fmap; [intros x y; congruence | exact Hnd'].
  - intros o. split.
    + intros Ho. apply list_elem_of_fmap in Ho as Ho'. destruct Ho' as (row & -> & Hrow).
      destruct (Hsome row Hrow) as (pk & Hk). rewrite Hk in *.
      apply list_elem_of_fmap. exists pk. split; [reflexivity |]. apply Hiff, Ho.
    + intros Ho. apply list_elem_of_fmap in Ho as (pk & -> & Hpk). apply Hiff, Hpk.
Qed.

(** Every row the loop appends names the plan it is about. *)
Lemma bulk_approve_loop_contexts user reason now ids :
  User.is_anonymous user = false →
  ∀ n st, ∃ count new st',
    for_each (AnnualPlanViewSet.bulk_approve_item user reason now) n ids st
    = (Ok count, st')
    ∧ audits st' = audits st ++ new
    ∧ Forall (λ row, ∃ pk, WorkflowAudit.context_plan row = Some pk) new.
Proof.
  intros Hu. induction ids as [|id ids IH]; intros n st.
  - exists n, [], st. rewrite app_nil_r. repeat split. constructor.
  - cbn [for_each]. unfold mbind at 1, M_bind at 1, bind at 1.
    rewrite bulk_approve_item_cases by exact Hu.
    destruct (plans st !! id) as [plan|];
      [destruct (Status_eqb (AnnualPlan.status plan) SUBMITTED) |]; try apply IH.
    set (st1 := set_audits _ _).
    destruct (IH (n + 1) st1) as (count & new & st' & Hrun & Haud & Hctx).
    exists count, (bulk_approve_audit user reason now id plan :: new), st'.
    split; [exact Hrun |]. split.
    + rewrite Haud. subst st1. simpl. rewrite <- app_assoc. reflexivity.
    + constructor; [eexists; reflexivity | exact Hctx].
Qed.

Lemma bulk_payload_valid ids reason :
  ids ≠ [] → (∀ r, reason = Some r → reason_ok r = true) →
  BulkApproveSerializer_validated_data (BulkData.Build (Some ids) reason)
  = Some (ids, reason).
Proof.
  intros Hids Hr. unfold BulkApproveSerializer_validated_data. simpl.
  destruct ids as [|id ids]; [congruence |].
  destruct reason as [r|]; [| reflexivity]. rewrite (Hr r eq_refl). reflexivity.
Qed.

(** [bulk_approve] past its guards is its loop. *)
Lemma bulk_approve_run user now ids reason st profile count st' :
  get_user_profile user st = Some profile →
  is_approver_role (UserProfile.role profile) = true →
  BulkApproveSerializer_validated_data (BulkData.Build (Some ids) reason)
  = Some (ids, reason) →
  for_each (AnnualPlanViewSet.bulk_approve_item user (default "" reason) now) 0 ids st
  = (Ok count, st') →
  AnnualPlanViewSet.bulk_approve user now (BulkData.Build (Some ids) reason) st
  = (Ok (Response_ok (BulkBody (pretty count +:+ " plans approved successfully")
                               "approved_count" count)), st').
Proof.
  intros Hp Hr Hv Hrun. unfold AnnualPlanViewSet.bulk_approve. run.
  rewrite Hp. cbn beta iota delta [profile_role]. rewrite Hr.
  cbn beta iota delta [negb]. rewrite Hv. cbn beta iota zeta.
  rewrite Hrun. reflexivity.
Qed.

(** X5: [bulk_approve] by an approver on a list of ids that is not empty
    answers 200 with, as [approved_count], the number of distinct listed ids
    whose plan was stored as SUBMITTED; exactly those plans become APPROVED by
    the actor at the time of the call and every other plan is as before; as
    many APPROVE rows as the count are appended to the audit log, and targets
    and profiles are untouched.  An id listed twice, an id of no plan and a
    plan in another status are passed over. *)
Theorem bulk_approve_counts user now ids reason st profile :
  get_user_profile user st = Some profile →
  is_approver_role (UserProfile.role profile) = true →
  ids ≠ [] →
  (∀ r, reason = Some r → reason_ok r = true) →
  let n := Z.of_nat (length (filter (λ pk, plan_is_submitted st pk) (remove_dups ids))) in
  ∃ new st',
    AnnualPlanViewSet.bulk_approve user now (BulkData.Build (Some ids) reason) st
    = (Ok (Response_ok (BulkBody (pretty n +:+ " plans approved successfully")
                                 "approved_count" n)), st')
    ∧ (∀ pk, plans st' !! pk = bulk_transition user now ids pk <$> plans st !! pk)
    ∧ audits st' = audits st ++ new
    ∧ Z.of_nat (length new) = n
    ∧ Forall (λ row, WorkflowAudit.action row = "APPROVE") new
    ∧ targets st' = targets st ∧ profiles st' = profiles st.
Proof.
  intros Hp Hr Hids Hreason n.
  pose proof (get_user_profile_not_anonymous _ _ _ Hp) as Hu.
  destruct (bulk_approve_loop user (default "" reason) now ids Hu 0 st)
    as (new & st' & Hrun & Haud & Hact & Hnd & Hin & Hpl & Hprof & Htar & _).
  destruct (bulk_approve_loop_contexts user (default "" reason) now ids Hu 0 st)
    as (count & new' & st'' & Hrun' & Haud' & Hctx).
  rewrite Hrun in Hrun'. injection Hrun' as _ <-.
  rewrite Haud in Haud'. apply app_inv_head in Haud'. subst new'.
  assert (Hlen : length new
                 = length (filter (λ pk, plan_is_submitted st pk) (remove_dups ids))).
  { apply (length_of_keys new WorkflowAudit.context_plan).
    - exact Hnd.
    - apply NoDup_filter, NoDup_remove_dups.
    - intros pk. rewrite Hin, list_elem_of_filter, elem_of_remove_dups.
      rewrite <- plan_is_submitted_iff, Is_true_true. tauto.
    - intros row Hrow. rewrite Forall_forall in Hctx. apply Hctx, Hrow. }
  exists new, st'. split.
  - subst n. rewrite <- Hlen. rewrite Z.add_0_l in Hrun.
    apply (bulk_approve_run _ _ _ _ _ profile); auto using bulk_payload_valid.
  - repeat split; try assumption. subst n. rewrite Hlen. reflexivity.
Qed.

Lemma bulk_approve_counts_witness :
  ∃ new st',
    AnnualPlanViewSet.bulk_approve Sample.bob (Sample.midnight 2026 2 1)
      (BulkData.Build (Some [1; 2; 3; 1; 9]) None) Sample.bulk_store
    = (Ok (Response_ok (BulkBody "2 plans approved successfully" "approved_count" 2)), st')
    ∧ (∀ pk, plans st' !! pk
             = bulk_transition Sample.bob (Sample.midnight 2026 2 1) [1; 2; 3; 1; 9] pk
               <$> plans Sample.bulk_store !! pk)
    ∧ audits st' = audits Sample.bulk_store ++ new
    ∧ Z.of_nat (length new) = 2
    ∧ Forall (λ row, WorkflowAudit.action row = "APPROVE") new
    ∧ targets st' = targets Sample.bulk_store ∧ profiles st' = profiles Sample.bulk_store.
Proof.
  apply (bulk_approve_counts Sample.bob (Sample.midnight 2026 2 1) [1; 2; 3; 1; 9] None
           Sample.bulk_store (UserProfile.Build STRATEGIC_AFFAIRS Sample.office_a)).
  - vm_compute. reflexivity.
  - reflexivity.
  - discriminate.
  - intros r Hr. discriminate Hr.
Defined.



Lemma bulk_approve_loop_nothing user reason now ids :
  User.is_anonymous user = false →
  ∀ n st, (∀ pk, pk ∈ ids → plan_is_submitted st pk = false) →
    for_each (AnnualPlanViewSet.bulk_approve_item user reason now) n ids st = (Ok n, st).
Proof.
  intros Hu. induction ids as [|id ids IH]; intros n st Hnone; [reflexivity |].
  cbn [for_each]. unfold mbind at 1, M_bind at 1, bind at 1.
  rewrite bulk_approve_item_cases by exact Hu.
  pose proof (Hnone id ltac:(left)) as Hid. unfold plan_is_submitted in Hid.
  destruct (plans st !! id) as [plan|]; [rewrite Hid |];
    apply IH; intros pk Hpk; apply Hnone; right; exact Hpk.
Qed.

(** X7: repeating a [bulk_approve] with the same list of ids approves
    nothing more: on the store the first call left, the second call answers
    an [approved_count] of 0 and leaves the store as it is, whatever the time
    of the second call. *)
Theorem bulk_approve_twice user now now' ids reason st profile :
  get_user_profile user st = Some profile →
  is_approver_role (UserProfile.role profile) = true →
  ids ≠ [] →
  (∀ r, reason = Some r → reason_ok r = true) →
  let data := BulkData.Build (Some ids) reason in
  let st1 := (AnnualPlanViewSet.bulk_approve user now data st).2 in
  AnnualPlanViewSet.bulk_approve user now' data st1
  = (Ok (Response_ok (BulkBody "0 plans approved successfully" "approved_count" 0)), st1).
Proof.
  intros Hp Hr Hids Hreason data st1.
  pose proof (get_user_profile_not_anonymous _ _ _ Hp) as Hu.
  destruct (bulk_approve_loop user (default "" reason) now ids Hu 0 st)
    as (new & st' & Hrun & _ & _ & _ & _ & Hpl & Hprof & _).
  assert (Hst1 : st1 = st').
  { subst st1 data.
    rewrite (bulk_approve_run _ _ _ _ _ profile _ st' Hp Hr
               (bulk_payload_valid _ _ Hids Hreason) Hrun). reflexivity. }
  rewrite Hst1.
  assert (Hp' : get_user_profile user st' = Some profile).
  { unfold get_user_profile in *. rewrite Hprof. exact Hp. }
  apply (bulk_approve_run _ _ _ _ _ profile 0 st' Hp' Hr
           (bulk_payload_valid _ _ Hids Hreason)).
  apply bulk_approve_loop_nothing; [exact Hu |].
  intros pk Hpk. unfold plan_is_submitted. rewrite Hpl.
  destruct (plans st !! pk) as [p|]; [| reflexivity]. simpl.
  unfold bulk_transition. rewrite (bool_decide_eq_true_2 _ Hpk). simpl.
  destruct (Status_eqb (AnnualPlan.status p) SUBMITTED) eqn:Hs; [reflexivity | exact Hs].
Qed.

Lemma bulk_approve_twice_witness :
  let data := BulkData.Build (Some [1; 2; 3]) None in
  let st1 := (AnnualPlanViewSet.bulk_approve Sample.bob (Sample.midnight 2026 2 1) data
                Sample.bulk_store).2 in
  AnnualPlanViewSet.bulk_approve Sample.bob (Sample.midnight 2026 2 2) data st1
  = (Ok (Response_ok (BulkBody "0 plans approved successfully" "approved_count" 0)), st1).
Proof.
  apply (bulk_approve_twice Sample.bob (Sample.midnight 2026 2 1) (Sample.midnight 2026 2 2)
           [1; 2; 3] None Sample.bulk_store
           (UserProfile.Build STRATEGIC_AFFAIRS Sample.office_a)).
  - vm_compute. reflexivity.
  - reflexivity.
  - discriminate.
  - intros r Hr. discriminate Hr.
Defined.

Lemma bulk_reject_item_cases user reason now n plan_id st :
  User.is_anonymous user = false →
  AnnualPlanViewSet.bulk_reject_item user reason now n plan_id st
  = match plans st !! plan_id with
    | Some plan =>
        if Status_eqb (AnnualPlan.status plan) SUBMITTED then
          (Ok (n + 1),
           set_audits (λ rows, rows ++ [bulk_reject_audit user reason now plan_id plan])
             (set_plans (λ m, <[plan_id := rejected plan]> m) st))
        else (Ok n, st)
    | None => (Ok n, st)
    end.
Proof.
  intros Hu. unfold AnnualPlanViewSet.bulk_reject_item, AnnualPlan_objects_get. run.
  destruct (plans st !! plan_id) as [plan|]; [| reflexivity].
  destruct (Status_eqb (AnnualPlan.status plan) SUBMITTED); [| reflexivity].
  unfold AnnualPlan_save. run. cbn beta iota.
  rewrite log_action_plan by exact Hu. reflexivity.
Qed.

(** The loop of [bulk_reject]: it never raises; the plans it rejects are the
    listed ones that were SUBMITTED, each once; it appends one REJECT row per
    plan it rejects, in the order of the list; no other table changes. *)
Lemma bulk_reject_loop user reason now ids :
  User.is_anonymous user = false →
  ∀ n st, ∃ keys new st',
    for_each (AnnualPlanViewSet.bulk_reject_item user reason now) n ids st
    = (Ok (n + Z.of_nat (length keys)), st')
    ∧ audits st' = audits st ++ new
    ∧ WorkflowAudit.context_plan <$> new = Some <$> keys
    ∧ Forall (λ row, WorkflowAudit.action row = "REJECT"
                     ∧ WorkflowAudit.actor row = User.id user
                     ∧ WorkflowAudit.message row = "Bulk rejected: " +:+ reason) new
    ∧ NoDup keys
    ∧ (∀ pk, pk ∈ keys ↔ pk ∈ ids ∧ plan_is_submitted st pk = true)
    ∧ (∀ pk, plans st' !! pk = bulk_reject_transition ids pk <$> plans st !! pk)
    ∧ profiles st' = profiles st ∧ targets st' = targets st
    ∧ reports st' = reports st ∧ entries st' = entries st.
Proof.
  intros Hu. induction ids as [|id ids IH]; intros n st.
  - exists [], [], st. simpl. rewrite Z.add_0_r, app_nil_r.
    split; [reflexivity |]. split; [reflexivity |]. split; [reflexivity |].
    split; [constructor |]. split; [constructor |]. split; [| split; [| repeat split]].
    + intros pk. split.
      * intros Hc. inversion Hc.
      * intros [Hc _]. inversion Hc.
    + intros pk. unfold bulk_reject_transition. destruct (plans st !! pk); reflexivity.
  - cbn [for_each]. unfold mbind at 1, M_bind at 1, bind at 1.
    rewrite bulk_reject_item_cases by exact Hu.
    destruct (plans st !! id) as [plan|] eqn:Hplan;
      [destruct (Status_eqb (AnnualPlan.status plan) SUBMITTED) eqn:Hs |].
    + (* the plan is rejected *)
      set (st1 := set_audits _ _).
      destruct (IH (n + 1) st1)
        as (keys & new & st' & Hrun & Haud & Hctx & Hact & Hnd & Hin & Hpl & Hrest).
      exists (id :: keys), (bulk_reject_audit user reason now id plan :: new), st'.
      assert (Hfresh : id ∉ keys).
      { intros Hc. apply Hin in Hc as (_ & Hc). unfold plan_is_submitted in Hc.
        subst st1. simpl in Hc. rewrite lookup_insert_eq in Hc. discriminate Hc. }
      split; [| split; [| split; [| split; [| split; [| split; [| split]]]]]].
      * rewrite Hrun. f_equal. f_equal. simpl length. lia.
      * rewrite Haud. subst st1. simpl. rewrite <- app_assoc. reflexivity.
      * rewrite !fmap_cons, Hctx. reflexivity.
      * constructor; [repeat split | exact Hact].
      * constructor; [exact Hfresh | exact Hnd].
      * intros pk. rewrite elem_of_cons, Hin, elem_of_cons.
        unfold plan_is_submitted. subst st1. simpl. split.
        -- intros [-> | (Hpk & Hp)].
           ++ split; [left; reflexivity |]. rewrite Hplan. exact Hs.
           ++ split; [right; exact Hpk |].
              destruct (decide (pk = id)) as [->|Hne].
              ** rewrite lookup_insert_eq in Hp. discriminate Hp.
              ** rewrite lookup_insert_ne in Hp by congruence. exact Hp.
        -- intros ([-> | Hpk] & Hp); [left; reflexivity |].
           destruct (decide (pk = id)) as [->|Hne]; [left; reflexivity |].
           right. split; [exact Hpk |].
           rewrite lookup_insert_ne by congruence. exact Hp.
      * intros pk. rewrite Hpl. subst st1. simpl.
        destruct (decide (pk = id)) as [->|Hne].
        -- rewrite lookup_insert_eq, Hplan. simpl. f_equal.
           unfold bulk_reject_transition. rewrite Hs.
           rewrite (bool_decide_eq_true_2 (id ∈ id :: ids)) by left.
           simpl. rewrite andb_false_r. reflexivity.
        -- rewrite lookup_insert_ne by congruence.
           destruct (plans st !! pk) as [p|]; [| reflexivity]. simpl. f_equal.
           unfold bulk_reject_transition.
           rewrite (bool_decide_ext (pk ∈ id :: ids) (pk ∈ ids)); [reflexivity |].
           rewrite elem_of_cons. tauto.
      * subst st1. simpl in Hrest. exact Hrest.
    + (* the plan is not SUBMITTED: skipped *)
      destruct (IH n st)
        as (keys & new & st' & Hrun & Haud & Hctx & Hact & Hnd & Hin & Hpl & Hrest).
      exists keys, new, st'.
      split; [exact Hrun |]. split; [exact Haud |]. split; [exact Hctx |].
      split; [exact Hact |]. split; [exact Hnd |]. split; [| split; [| exact Hrest]].
      * intros pk. rewrite Hin, elem_of_cons. split.
        -- intros (Hpk & Hp). split; [right; exact Hpk | exact Hp].
        -- intros ([-> | Hpk] & Hp); [| eauto].
           unfold plan_is_submitted in Hp. rewrite Hplan in Hp. congruence.
      * intros pk. rewrite Hpl.
        destruct (plans st !! pk) as [p|] eqn:Hp; [| reflexivity]. simpl. f_equal.
        unfold bulk_reject_transition.
        destruct (Status_eqb (AnnualPlan.status p) SUBMITTED) eqn:Hps;
          [| rewrite !andb_false_r; reflexivity].
        rewrite (bool_decide_ext (pk ∈ id :: ids) (pk ∈ ids)); [reflexivity |].
        rewrite elem_of_cons. split; [| tauto].
        intros [-> | H]; [| exact H]. congruence.
    + (* no such plan: continue *)
      destruct (IH n st)
        as (keys & new & st' & Hrun & Haud & Hctx & Hact & Hnd & Hin & Hpl & Hrest).
      exists keys, new, st'.
      split; [exact Hrun |]. split; [exact Haud |]. split; [exact Hctx |].
      split; [exact Hact |]. split; [exact Hnd |]. split; [| split; [| exact Hrest]].
      * intros pk. rewrite Hin, elem_of_cons. split.
        -- intros (Hpk & Hp). split; [right; exact Hpk | exact Hp].
        -- intros ([-> | Hpk] & Hp); [| eauto].
           unfold plan_is_submitted in Hp. rewrite Hplan in Hp. discriminate Hp.
      * intros pk. rewrite Hpl.
        destruct (plans st !! pk) as [p|] eqn:Hp; [| reflexivity]. simpl. f_equal.
        unfold bulk_reject_transition.
        rewrite (bool_decide_ext (pk ∈ id :: ids) (pk ∈ ids)); [reflexivity |].
        rewrite elem_of_cons. split; [| tauto].
        intros [-> | H]; [| exact H]. congruence.
Qed.

(** X8: [bulk_reject] wants a reason: without one an approver gets 400 and
    nothing changes.  With a reason of 1 to 500 characters and a list of ids
    that is not empty it answers 200 with, as [rejected_count], the number of
    distinct listed ids whose plan was stored as SUBMITTED; exactly those
    plans become REJECTED, with [submitted_at], [approved_by] and
    [approved_at] as they were, and every other plan is as before; as many
    REJECT rows as the count, by the actor and carrying the reason, are
    appended to the audit log. *)
Theorem bulk_reject_counts user now ids reason st profile :
  get_user_profile user st = Some profile →
  is_approver_role (UserProfile.role profile) = true →
  ids ≠ [] →
  reason_ok reason = true →
  let n := Z.of_nat (length (filter (λ pk, plan_is_submitted st pk) (remove_dups ids))) in
  AnnualPlanViewSet.bulk_reject user now (BulkData.Build (Some ids) None) st
  = (Ok (Response.Build ErrorsBody HTTP_400_BAD_REQUEST), st)
  ∧ ∃ new st',
      AnnualPlanViewSet.bulk_reject user now (BulkData.Build (Some ids) (Some reason)) st
      = (Ok (Response_ok (BulkBody (pretty n +:+ " plans rejected successfully")
                                   "rejected_count" n)), st')
      ∧ (∀ pk, plans st' !! pk = bulk_reject_transition ids pk <$> plans st !! pk)
      ∧ audits st' = audits st ++ new
      ∧ Z.of_nat (length new) = n
      ∧ Forall (λ row, WorkflowAudit.action row = "REJECT"
                       ∧ WorkflowAudit.actor row = User.id user
                       ∧ WorkflowAudit.message row = "Bulk rejected: " +:+ reason) new
      ∧ targets st' = targets st ∧ profiles st' = profiles st.
Proof.
  intros Hp Hr Hids Hreason n.
  pose proof (get_user_profile_not_anonymous _ _ _ Hp) as Hu.
  destruct ids as [|id ids]; [congruence |].
  split.
  { unfold AnnualPlanViewSet.bulk_reject. run.
    rewrite Hp. cbn beta iota delta [profile_role]. rewrite Hr. reflexivity. }
  destruct (bulk_reject_loop user reason now (id :: ids) Hu 0 st)
    as (keys & new & st' & Hrun & Haud & Hctx & Hact & Hnd & Hin & Hpl & Hprof & Htar & _).
  assert (Hlen : length keys
                 = length (filter (λ pk, plan_is_submitted st pk) (remove_dups (id :: ids)))).
  { apply Permutation_length, NoDup_Permutation.
    - exact Hnd.
    - apply NoDup_filter, NoDup_remove_dups.
    - intros pk. rewrite Hin, list_elem_of_filter, elem_of_remove_dups, Is_true_true.
      tauto. }
  assert (Hnew : length new = length keys).
  { rewrite <- (length_fmap WorkflowAudit.context_plan new), Hctx. apply length_fmap. }
  exists new, st'. split.
  - unfold AnnualPlanViewSet.bulk_reject. run.
    rewrite Hp. cbn beta iota delta [profile_role]. rewrite Hr.
    cbn beta iota delta [negb]. unfold BulkRejectSerializer_validated_data.
    cbn beta iota delta [BulkData.plan_ids BulkData.reason]. rewrite Hreason.
    cbn beta iota zeta. rewrite Hrun. rewrite Z.add_0_l. subst n. rewrite <- Hlen.
    reflexivity.
  - repeat split; try assumption. subst n. rewrite <- Hlen, Hnew. reflexivity.
Qed.

Lemma bulk_reject_counts_witness :
  AnnualPlanViewSet.bulk_reject Sample.bob (Sample.midnight 2026 2 1)
    (BulkData.Build (Some [3; 2; 3; 7]) None) Sample.bulk_store
  = (Ok (Response.Build ErrorsBody HTTP_400_BAD_REQUEST), Sample.bulk_store)
  ∧ ∃ new st',
      AnnualPlanViewSet.bulk_reject Sample.bob (Sample.midnight 2026 2 1)
        (BulkData.Build (Some [3; 2; 3; 7]) (Some "incomplete")) Sample.bulk_store
      = (Ok (Response_ok (BulkBody "1 plans rejected successfully" "rejected_count" 1)), st')
      ∧ (∀ pk, plans st' !! pk
               = bulk_reject_transition [3; 2; 3; 7] pk <$> plans Sample.bulk_store !! pk)
      ∧ audits st' = audits Sample.bulk_store ++ new
      ∧ Z.of_nat (length new) = 1
      ∧ Forall (λ row, WorkflowAudit.action row = "REJECT"
                       ∧ WorkflowAudit.actor row = 11
                       ∧ WorkflowAudit.message row = "Bulk rejected: incomplete") new
      ∧ targets st' = targets Sample.bulk_store
      ∧ profiles st' = profiles Sample.bulk_store.
Proof.
  apply (bulk_reject_counts Sample.bob (Sample.midnight 2026 2 1) [3; 2; 3; 7] "incomplete"
           Sample.bulk_store (UserProfile.Build STRATEGIC_AFFAIRS Sample.office_a)).
  - vm_compute. reflexivity.
  - reflexivity.
  - discriminate.
  - reflexivity.
Defined.

(** ** What the bulk approval of reports and the nested creations never do *)

Lemma report_bulk_approve_item_cases user reason now n report_id st :
  QuarterlyReportViewSet.bulk_approve_item user reason now n report_id st
  = match reports st !! report_id with
    | Some report =>
        if Status_eqb (QuarterlyReport.status report) SUBMITTED then
          (Raise ValueError,
           set_reports (λ m, <[report_id := report_approved user now report]> m) st)
        else (Ok n, st)
    | None => (Ok n, st)
    end.
Proof.
  unfold QuarterlyReportViewSet.bulk_approve_item, QuarterlyReport_objects_get. run.
  destruct (reports st !! report_id) as [report|]; [| reflexivity].
  destruct (Status_eqb (QuarterlyReport.status report) SUBMITTED); [| reflexivity].
  unfold QuarterlyReport_save. run. cbn beta iota.
  rewrite log_action_user_as_unit. reflexivity.
Qed.

(** The loop of the bulk approval of reports stops, raising, at the first
    listed report that is SUBMITTED; without one it changes nothing. *)
Lemma report_bulk_approve_loop user reason now ids :
  ∀ n st, ∃ st',
    for_each (QuarterlyReportViewSet.bulk_approve_item user reason now) n ids st
    = (if existsb (report_is_submitted st) ids then Raise ValueError else Ok n, st')
    ∧ (existsb (report_is_submitted st) ids = false → st' = st).
Proof.
  induction ids as [|id ids IH]; intros n st.
  - exists st. split; reflexivity.
  - cbn [for_each existsb]. unfold mbind at 1, M_bind at 1, bind at 1.
    rewrite report_bulk_approve_item_cases. unfold report_is_submitted at 1 3.
    destruct (reports st !! id) as [report|];
      [destruct (Status_eqb (QuarterlyReport.status report) SUBMITTED) |].
    + eexists. split; [reflexivity | discriminate].
    + apply IH.
    + apply IH.
Qed.

(** X9: the bulk approval of quarterly reports never approves a report.  For
    every actor and payload it leaves the store as it was.  For an approver
    with a valid payload: when a listed report is SUBMITTED, the view raises
    [ValueError] out of its atomic block (the audit call puts the user in the
    position of the unit), which rolls the approval back; when none is, it
    answers 200 with an [approved_count] of 0. *)
Theorem report_bulk_approve_approves_nothing user now data st :
  (QuarterlyReportViewSet.bulk_approve user now data st).2 = st
  ∧ ∀ profile ids reason,
      get_user_profile user st = Some profile →
      is_approver_role (UserProfile.role profile) = true →
      ids ≠ [] →
      (∀ r, reason = Some r → reason_ok r = true) →
      data = BulkData.Build (Some ids) reason →
      (QuarterlyReportViewSet.bulk_approve user now data st).1
      = if existsb (report_is_submitted st) ids then Raise ValueError
        else Ok (Response_ok (BulkBody "0 reports approved successfully"
                                       "approved_count" 0)).
Proof.
  split.
  - unfold QuarterlyReportViewSet.bulk_approve. run.
    destruct (get_user_profile user st) as [profile|]; [| reflexivity].
    cbn beta iota delta [profile_role].
    destruct (is_approver_role (UserProfile.role profile)); [| reflexivity].
    cbn beta iota delta [negb].
    destruct (BulkApproveSerializer_validated_data data) as [[ids reason]|];
      [| reflexivity].
    cbn beta iota zeta.
    destruct (report_bulk_approve_loop user (default "" reason) now ids 0 st)
      as (st' & -> & Hst).
    destruct (existsb (report_is_submitted st) ids); [reflexivity |].
    simpl. apply Hst. reflexivity.
  - intros profile ids reason Hp Hr Hids Hreason ->.
    unfold QuarterlyReportViewSet.bulk_approve. run.
    rewrite Hp. cbn beta iota delta [profile_role]. rewrite Hr.
    cbn beta iota delta [negb]. rewrite (bulk_payload_valid _ _ Hids Hreason).
    cbn beta iota zeta.
    destruct (report_bulk_approve_loop user (default "" reason) now ids 0 st)
      as (st' & -> & Hst).
    destruct (existsb (report_is_submitted st) ids); reflexivity.
Qed.

Lemma report_bulk_approve_approves_nothing_witness :
  let st := set_reports
              (λ m, <[1 := report_submitted (Sample.midnight 2025 4 2) Sample.report1]> m)
              Sample.store in
  let data := BulkData.Build (Some [7; 1]) None in
  (QuarterlyReportViewSet.bulk_approve Sample.bob (Sample.midnight 2025 4 3) data st).2 = st
  ∧ (QuarterlyReportViewSet.bulk_approve Sample.bob (Sample.midnight 2025 4 3) data st).1
    = Raise ValueError.
Proof.
  intros st data.
  destruct (report_bulk_approve_approves_nothing Sample.bob (Sample.midnight 2025 4 3)
              data st) as [Hstore Hresult].
  split; [exact Hstore |].
  apply (Hresult (UserProfile.Build STRATEGIC_AFFAIRS Sample.office_a) [7; 1] None).
  - vm_compute. reflexivity.
  - reflexivity.
  - discriminate.
  - intros r Hr. discriminate Hr.
  - reflexivity.
Defined.

(** [serializer.save(plan=plan, indicator=indicator)] on a serializer without
    an instance raises and writes nothing: the indicator reaches the manager
    twice. *)
Lemma target_save_with_indicator_raises validated_data plan indicator st :
  ∃ e, AnnualPlanTargetSerializer.save None validated_data plan (Some indicator) st
       = (Raise e, st).
Proof.
  unfold AnnualPlanTargetSerializer.save, AnnualPlanTargetSerializer.create. run.
  cbn beta iota delta [TargetDict.indicator_id].
  destruct (TargetDict.indicator_id validated_data) as [i|]; [| eexists; reflexivity].
  unfold Indicator_objects_get.
  destruct (indicators st !! i); [| eexists; reflexivity].
  eexists. reflexivity.
Qed.

(** What [add_target] can return, and the store it leaves. *)
Lemma add_target_outcome user now pk plan data st :
  ∃ r, AnnualPlanViewSet.add_target user now pk plan data st = (r, st)
       ∧ match r with
         | Ok response => Response.status response = HTTP_403_FORBIDDEN
                          ∨ Response.status response = HTTP_400_BAD_REQUEST
         | Raise _ => True
         end.
Proof.
  unfold AnnualPlanViewSet.add_target. run.
  destruct (can_user_access_unit user (AnnualPlan.unit plan) st);
    cbn beta iota delta [negb]; [| eexists; split; [reflexivity | left; reflexivity]].
  destruct (Status_eqb (AnnualPlan.status plan) DRAFT);
    cbn beta iota delta [negb]; [| eexists; split; [reflexivity | right; reflexivity]].
  destruct (AnnualPlanTargetSerializer.validated_data false data) as [validated_data|];
    [| eexists; split; [reflexivity | right; reflexivity]].
  destruct (TargetDict.indicator_id validated_data) as [i|]; cbn beta iota;
    [| eexists; split; [reflexivity | right; reflexivity]].
  destruct (Indicator_objects_get_owned i (AnnualPlan.unit plan) st) as [[indicator|e] st1]
    eqn:Hget.
  - assert (st1 = st) as ->.
    { unfold Indicator_objects_get_owned in Hget.
      destruct (indicators st !! i) as [ind|]; [| discriminate Hget].
      destruct (Unit.eqb _ _); congruence. }
    destruct (target_save_with_indicator_raises validated_data (Some (pk, plan))
                (i, indicator) st) as (e & ->).
    destruct (is_DoesNotExist "Indicator" e);
      eexists; (split; [reflexivity |]); [right; reflexivity | exact I].
  - assert (st1 = st) as ->.
    { unfold Indicator_objects_get_owned in Hget.
      destruct (indicators st !! i) as [ind|]; [| congruence].
      destruct (Unit.eqb _ _); congruence. }
    destruct (is_DoesNotExist "Indicator" e);
      eexists; (split; [reflexivity |]); [right; reflexivity | exact I].
Qed.

(** X10: [add_target] never creates a target.  Whatever the actor, the plan
    and the payload, it leaves the store as it was and its answer is not the
    201 response: it is a 403 or 400 response, or an exception. *)
Theorem add_target_never_creates user now pk plan data st :
  (AnnualPlanViewSet.add_target user now pk plan data st).2 = st
  ∧ ∀ response, (AnnualPlanViewSet.add_target user now pk plan data st).1 = Ok response →
      Response.status response = HTTP_403_FORBIDDEN
      ∨ Response.status response = HTTP_400_BAD_REQUEST.
Proof.
  destruct (add_target_outcome user now pk plan data st) as (r & -> & Hr).
  split; [reflexivity |]. intros response [= ->]. exact Hr.
Qed.

(** [serializer.save(report=report, updated_by=request.user)] on a serializer
    without an instance raises and writes nothing: [updated_by] reaches the
    manager twice. *)
Lemma entry_save_with_updated_by_raises validated_data report indicator updated_by now st :
  ∃ e, QuarterlyIndicatorEntrySerializer.save None validated_data report indicator
         (Some updated_by) now st
       = (Raise e, st).
Proof.
  unfold QuarterlyIndicatorEntrySerializer.save, QuarterlyIndicatorEntrySerializer.create.
  run. cbn beta iota delta [EntryDict.indicator_id EntryDict.updated_by_id].
  destruct (EntryDict.indicator_id validated_data) as [i|]; [| eexists; reflexivity].
  destruct (EntryDict.updated_by_id validated_data) as [u|]; [| eexists; reflexivity].
  unfold Indicator_objects_get, User_objects_get.
  destruct (indicators st !! i); [| eexists; reflexivity].
  destruct (users st !! u); [| eexists; reflexivity].
  unfold QuarterlyIndicatorEntry_objects_create. cbn beta iota delta [EntryDict.updated_by].
  rewrite (bool_decide_eq_true_2 (is_Some (Some updated_by))) by eauto.
  rewrite orb_true_r. eexists. reflexivity.
Qed.

(** X11: neither [add_entry] nor the entry endpoint creates or deletes an
    entry.  Whatever the actor, the report and the payload, [add_entry], and
    [perform_create] and [perform_destroy] of the entry endpoint, leave the
    store as it was; [add_entry] answers 403, 400 or an exception, never
    201, and the two hooks never run to their end: they return an error
    response or raise. *)
Theorem entries_never_created_or_deleted user now st :
  (∀ pk report data,
     (QuarterlyReportViewSet.add_entry user now pk report data st).2 = st
     ∧ ∀ response,
         (QuarterlyReportViewSet.add_entry user now pk report data st).1 = Ok response →
         Response.status response = HTTP_403_FORBIDDEN
         ∨ Response.status response = HTTP_400_BAD_REQUEST)
  ∧ (∀ data serializer,
       (QuarterlyIndicatorEntryViewSet.perform_create user now data serializer st).2 = st
       ∧ (QuarterlyIndicatorEntryViewSet.perform_create user now data serializer st).1
         ≠ Ok None)
  ∧ (∀ instance,
       (QuarterlyIndicatorEntryViewSet.perform_destroy user now instance st).2 = st
       ∧ (QuarterlyIndicatorEntryViewSet.perform_destroy user now instance st).1
         ≠ Ok None).
Proof.
  split; [| split].
  - intros pk report data. unfold QuarterlyReportViewSet.add_entry. run.
    destruct (can_user_access_unit user (QuarterlyReport.unit report) st);
      cbn beta iota delta [negb];
      [| split; [reflexivity | intros r [= <-]; left; reflexivity]].
    destruct (Status_eqb (QuarterlyReport.status report) DRAFT);
      cbn beta iota delta [negb];
      [| split; [reflexivity | intros r [= <-]; right; reflexivity]].
    destruct (QuarterlyIndicatorEntrySerializer.validated_data false data)
      as [validated_data|];
      [| split; [reflexivity | intros r [= <-]; right; reflexivity]].
    destruct (EntryDict.indicator_id validated_data) as [i|]; cbn beta iota;
      [| split; [reflexivity | intros r [= <-]; right; reflexivity]].
    destruct (Indicator_objects_get_owned i (QuarterlyReport.unit report) st)
      as [[indicator|e] st1] eqn:Hget.
    + assert (st1 = st) as ->.
      { unfold Indicator_objects_get_owned in Hget.
        destruct (indicators st !! i) as [ind|]; [| discriminate Hget].
        destruct (Unit.eqb _ _); congruence. }
      destruct (entry_save_with_updated_by_raises validated_data (Some (pk, report))
                  (Some (i, indicator)) user now st) as (e & ->).
      destruct (is_DoesNotExist "Indicator" e);
        split; try reflexivity; intros r [= <-]; right; reflexivity.
    + assert (st1 = st) as ->.
      { unfold Indicator_objects_get_owned in Hget.
        destruct (indicators st !! i) as [ind|]; [| congruence].
        destruct (Unit.eqb _ _); congruence. }
      destruct (is_DoesNotExist "Indicator" e);
        split; try reflexivity; intros r [= <-]; right; reflexivity.
  - intros data serializer. unfold QuarterlyIndicatorEntryViewSet.perform_create.
    destruct (EntryData.report_id data) as [report_id|]; [| split; [reflexivity | discriminate]].
    destruct (report_id =? 0); [split; [reflexivity | discriminate] |].
    unfold QuarterlyReport_objects_get. run.
    destruct (reports st !! report_id) as [report|];
      [| split; [reflexivity | discriminate]].
    destruct (can_user_access_unit user (QuarterlyReport.unit report) st);
      cbn beta iota delta [negb]; [| split; [reflexivity | discriminate]].
    destruct (Status_eqb (QuarterlyReport.status report) DRAFT);
      cbn beta iota delta [negb]; [| split; [reflexivity | discriminate]].
    destruct (entry_save_with_updated_by_raises serializer (Some (report_id, report))
                None user now st) as (e & ->).
    destruct (is_DoesNotExist "QuarterlyReport" e); split; try reflexivity; discriminate.
  - intros instance.
    unfold QuarterlyIndicatorEntryViewSet.perform_destroy, QuarterlyReport_objects_get. run.
    destruct (reports st !! QuarterlyIndicatorEntry.report instance) as [report|];
      [| split; [reflexivity | discriminate]].
    destruct (can_user_access_unit user (QuarterlyReport.unit report) st);
      cbn beta iota delta [negb]; [| split; [reflexivity | discriminate]].
    destruct (Status_eqb (QuarterlyReport.status report) DRAFT);
      cbn beta iota delta [negb]; [| split; [reflexivity | discriminate]].
    unfold Indicator_objects_get.
    destruct (indicators st !! QuarterlyIndicatorEntry.indicator instance) as [indicator|];
      [| split; [reflexivity | discriminate]].
    rewrite log_action_user_as_unit. split; [reflexivity | discriminate].
Qed.

(** ** Invariants of the stored targets *)

Section Preservation.

Context (P : State → Prop).

Lemma preserves_ret {A : Type} (a : A) : preserves P (mret a : M A).
Proof. intros st H. exact H. Qed.

Lemma preserves_bind {A B : Type} (m : M A) (k : A → M B) :
  preserves P m → (∀ a, preserves P (k a)) → preserves P (m ≫= k).
Proof.
  intros Hm Hk st H. specialize (Hm st H). unfold mbind, M_bind, bind.
  destruct (m st) as [[a|e] st']; [apply Hk, Hm | exact Hm].
Qed.

Lemma preserves_gets {A : Type} (f : State → A) : preserves P (gets f).
Proof. intros st H. exact H. Qed.

Lemma preserves_lift {A : Type} (r : Result A) : preserves P (lift r).
Proof. intros st H. exact H. Qed.

Lemma preserves_raise {A : Type} (e : Exn) : preserves P (raise e : M A).
Proof. intros st H. exact H. Qed.

Lemma preserves_modify (f : State → State) :
  (∀ st, P st → P (f st)) → preserves P (modify f).
Proof. intros Hf st H. apply Hf, H. Qed.

Lemma preserves_try_except {A : Type} (m : M A) handles (h : Exn → M A) :
  preserves P m → (∀ e, preserves P (h e)) → preserves P (try_except m handles h).
Proof.
  intros Hm Hh st H. specialize (Hm st H). unfold try_except.
  destruct (m st) as [[a|e] st']; [exact Hm |].
  destruct (handles e); [apply Hh, Hm | exact Hm].
Qed.

Lemma preserves_AnnualPlan_objects_get pk : preserves P (AnnualPlan_objects_get pk).
Proof.
  intros st H. unfold AnnualPlan_objects_get. destruct (plans st !! pk); exact H.
Qed.

Lemma preserves_Indicator_objects_get pk : preserves P (Indicator_objects_get pk).
Proof.
  intros st H. unfold Indicator_objects_get. destruct (indicators st !! pk); exact H.
Qed.

(** A property that does not read the audit log survives [log_action]. *)
Lemma preserves_log_action user unit action context_plan context_report message now :
  (∀ f st, P st → P (set_audits f st)) →
  preserves P (log_action user unit action context_plan context_report message now).
Proof.
  intros Haud. unfold log_action, log_workflow_action, WorkflowAudit_objects_create.
  repeat (apply preserves_bind; [apply preserves_lift | intros ?]).
  apply preserves_modify. intros st H. apply Haud, H.
Qed.

End Preservation.

Ltac preserve_step :=
  lazymatch goal with
  | |- preserves _ (mret _) => apply preserves_ret
  | |- preserves _ (gets _) => apply preserves_gets
  | |- preserves _ (lift _) => apply preserves_lift
  | |- preserves _ (raise _) => apply preserves_raise
  | |- preserves _ (AnnualPlan_objects_get _) => apply preserves_AnnualPlan_objects_get
  | |- preserves _ (Indicator_objects_get _) => apply preserves_Indicator_objects_get
  | |- preserves _ (mbind _ _) => apply preserves_bind; [| intros ?]
  | |- preserves _ (try_except _ _ _) => apply preserves_try_except; [| intros ?]
  | |- preserves _ (if ?b then _ else _) => destruct b
  | |- preserves _ (match ?x with _ => _ end) => destruct x
  end.

Ltac preserve := repeat preserve_step.

Lemma next_id_fresh (ids : list Z) (x : Z) : x ∈ ids → x < next_id ids.
Proof.
  unfold next_id. induction ids as [|y ids IH]; intros Hx; [inversion Hx |].
  apply elem_of_cons in Hx as [-> | Hx]; simpl; [lia |].
  specialize (IH Hx). lia.
Qed.

Lemma existsb_false_elem_iff {A : Type} (f : A → bool) (l : list A) :
  existsb f l = false ↔ ∀ x, x ∈ l → f x = false.
Proof.
  split; [| apply existsb_false_elem].
  intros H x Hx. destruct (f x) eqn:Hf; [| reflexivity].
  rewrite (existsb_true_elem f l x Hx Hf) in H. discriminate H.
Qed.

Lemma targets_wf_set_audits f st : targets_wf st → targets_wf (set_audits f st).
Proof. intros H. exact H. Qed.

Lemma targets_wf_delete row :
  preserves targets_wf (AnnualPlanTarget_delete row).
Proof.
  apply preserves_modify. intros st [Hnd Hu]. split.
  - unfold set_targets. cbn [targets].
    apply (sublist_NoDup _ _ Hnd), fmap_sublist, sublist_filter.
  - intros t1 t2 H1 H2. unfold set_targets in H1, H2. simpl in H1, H2.
    apply list_elem_of_filter in H1 as [_ H1]. apply list_elem_of_filter in H2 as [_ H2].
    apply Hu; assumption.
Qed.

Lemma targets_wf_create indicator kwargs :
  preserves targets_wf (AnnualPlanTarget_objects_create indicator kwargs).
Proof.
  unfold AnnualPlanTarget_objects_create.
  destruct (bool_decide _); [apply preserves_raise |].
  apply preserves_bind; [apply preserves_lift | intros plan].
  apply preserves_bind; [apply preserves_lift | intros target_value].
  intros st [Hnd Hu]. unfold mbind, M_bind, bind, gets.
  destruct (existsb _ (targets st)) eqn:Hdup; [split; assumption |].
  unfold modify, mret, M_ret, ret. cbn [snd].
  set (row := AnnualPlanTarget.Build _ _ _ _ _ _).
  split.
  - cbn [targets set_targets set_target_seq]. rewrite fmap_app. apply NoDup_app.
    split; [exact Hnd |]. split; [| apply NoDup_singleton].
    intros x Hx Hx'. apply list_elem_of_singleton in Hx'. subst x.
    apply (Z.lt_irrefl (AnnualPlanTarget.id row)).
    apply (next_id_fresh (target_seq st :: map AnnualPlanTarget.id (targets st))).
    right. exact Hx.
  - assert (Hnew : ∀ t, t ∈ targets st →
               AnnualPlanTarget.plan t = plan.1 → AnnualPlanTarget.indicator t = indicator.1 →
               False).
    { intros t Ht Hp Hi. rewrite existsb_false_elem_iff in Hdup.
      specialize (Hdup t Ht). rewrite Hp, Hi, !Z.eqb_refl in Hdup. discriminate Hdup. }
    intros t1 t2 H1 H2 Hp Hi. cbn [targets set_targets set_target_seq] in H1, H2.
    apply elem_of_app in H1 as [H1 | H1], H2 as [H2 | H2].
    + apply Hu; assumption.
    + apply list_elem_of_singleton in H2. subst t2. exfalso.
      apply (Hnew t1 H1); [rewrite Hp | rewrite Hi]; reflexivity.
    + apply list_elem_of_singleton in H1. subst t1. exfalso.
      apply (Hnew t2 H2); [rewrite <- Hp | rewrite <- Hi]; reflexivity.
    + apply list_elem_of_singleton in H1, H2. subst. reflexivity.
Qed.

Lemma targets_wf_save row : preserves targets_wf (AnnualPlanTarget_save row).
Proof.
  intros st [Hnd Hu]. unfold AnnualPlanTarget_save, mbind, M_bind, bind, gets.
  destruct (existsb _ (targets st)) eqn:Hdup; [split; assumption |].
  rewrite existsb_false_elem_iff in Hdup.
  assert (Hother : ∀ t, t ∈ targets st →
            AnnualPlanTarget.id t ≠ AnnualPlanTarget.id row →
            AnnualPlanTarget.plan t = AnnualPlanTarget.plan row →
            AnnualPlanTarget.indicator t = AnnualPlanTarget.indicator row → False).
  { intros t Ht Hid Hp Hi. specialize (Hdup t Ht).
    rewrite Hp, Hi, !Z.eqb_refl, (proj2 (Z.eqb_neq _ _) Hid) in Hdup. discriminate Hdup. }
  destruct (existsb (λ t, AnnualPlanTarget.id t =? AnnualPlanTarget.id row) (targets st))
    eqn:Hstored; unfold modify; cbn [snd targets set_targets set_target_seq].
  - (* the row of the instance is replaced *)
    set (g := λ t, if AnnualPlanTarget.id t =? AnnualPlanTarget.id row then row else t).
    assert (Hid : ∀ t, AnnualPlanTarget.id (g t) = AnnualPlanTarget.id t).
    { intros t. unfold g. destruct (Z.eqb_spec (AnnualPlanTarget.id t)
                                      (AnnualPlanTarget.id row)); congruence. }
    split.
    + replace (AnnualPlanTarget.id <$> map g (targets st))
        with (AnnualPlanTarget.id <$> targets st); [exact Hnd |].
      clear -Hid. induction (targets st) as [|t rows IH]; [reflexivity |].
      cbn [map]. rewrite !fmap_cons, Hid, IH. reflexivity.
    + intros t1' t2' H1 H2 Hp Hi.
      cbn [targets set_targets] in H1, H2.
      change (map g (targets st)) with (g <$> targets st) in H1, H2.
      apply list_elem_of_fmap in H1 as (t1 & -> & H1).
      apply list_elem_of_fmap in H2 as (t2 & -> & H2).
      rewrite !Hid. unfold g in Hp, Hi.
      destruct (Z.eqb_spec (AnnualPlanTarget.id t1) (AnnualPlanTarget.id row)) as [E1|N1],
               (Z.eqb_spec (AnnualPlanTarget.id t2) (AnnualPlanTarget.id row)) as [E2|N2].
      * congruence.
      * exfalso. apply (Hother t2 H2 N2); congruence.
      * exfalso. apply (Hother t1 H1 N1); congruence.
      * apply Hu; assumption.
  - (* no stored row has the key of the instance: a row is added *)
    rewrite existsb_false_elem_iff in Hstored.
    assert (Hne : ∀ t, t ∈ targets st → AnnualPlanTarget.id t ≠ AnnualPlanTarget.id row).
    { intros t Ht. apply Z.eqb_neq, Hstored, Ht. }
    split.
    + cbn [targets set_targets set_target_seq]. rewrite fmap_app. apply NoDup_app.
      split; [exact Hnd |]. split; [| apply NoDup_singleton].
      intros x Hx Hx'. apply list_elem_of_singleton in Hx'. subst x.
      apply list_elem_of_fmap in Hx as (t & Hid & Ht). apply (Hne t Ht). congruence.
    + intros t1 t2 H1 H2 Hp Hi. cbn [targets set_targets set_target_seq] in H1, H2.
      apply elem_of_app in H1 as [H1 | H1], H2 as [H2 | H2].
      * apply Hu; assumption.
      * apply list_elem_of_singleton in H2. subst t2. exfalso.
        apply (Hother t1 H1 (Hne t1 H1)); assumption.
      * apply list_elem_of_singleton in H1. subst t1. exfalso.
        apply (Hother t2 H2 (Hne t2 H2)); congruence.
      * apply list_elem_of_singleton in H1, H2. subst. reflexivity.
Qed.

Lemma targets_wf_serializer_save instance validated_data plan indicator :
  preserves targets_wf
    (AnnualPlanTargetSerializer.save instance validated_data plan indicator).
Proof.
  unfold AnnualPlanTargetSerializer.save, AnnualPlanTargetSerializer.create,
         AnnualPlanTargetSerializer.update.
  destruct instance as [instance|].
  - apply preserves_bind; [preserve | intros ?].
    apply preserves_bind; [apply targets_wf_save | intros ?]. apply preserves_ret.
  - apply preserves_bind; [preserve | intros ?].
    apply preserves_bind; [preserve | intros ?]. apply targets_wf_create.
Qed.

(** X12: the hooks of the target endpoint keep the stored targets well
    formed.  From a store where no two targets share a primary key and no two
    targets share plan and indicator, [perform_create], [perform_update] and
    [perform_destroy] lead, for every actor, payload and instance, and
    whether they return or raise, to a store with the same two properties. *)
Theorem target_hooks_keep_targets_wf user now st :
  targets_wf st →
  (∀ data serializer,
     targets_wf (AnnualPlanTargetViewSet.perform_create user now data serializer st).2)
  ∧ (∀ target serializer,
       targets_wf (AnnualPlanTargetViewSet.perform_update user now target serializer st).2)
  ∧ (∀ instance,
       targets_wf (AnnualPlanTargetViewSet.perform_destroy user now instance st).2).
Proof.
  intros Hwf. split; [| split].
  - intros data serializer. revert st Hwf.
    change (preserves targets_wf
              (AnnualPlanTargetViewSet.perform_create user now data serializer)).
    unfold AnnualPlanTargetViewSet.perform_create.
    preserve; try apply targets_wf_serializer_save;
      apply preserves_log_action, targets_wf_set_audits.
  - intros target serializer. revert st Hwf.
    change (preserves targets_wf
              (AnnualPlanTargetViewSet.perform_update user now target serializer)).
    unfold AnnualPlanTargetViewSet.perform_update.
    preserve; try apply targets_wf_serializer_save;
      apply preserves_log_action, targets_wf_set_audits.
  - intros instance. revert st Hwf.
    change (preserves targets_wf
              (AnnualPlanTargetViewSet.perform_destroy user now instance)).
    unfold AnnualPlanTargetViewSet.perform_destroy.
    preserve; try apply targets_wf_delete;
      apply preserves_log_action, targets_wf_set_audits.
Qed.

Lemma targets_wf_sample : targets_wf Sample.store.
Proof.
  split.
  - change (NoDup [1]). apply NoDup_singleton.
  - intros t1 t2 H1 H2 _ _. change (targets Sample.store) with [Sample.target1] in H1, H2.
    apply list_elem_of_singleton in H1, H2. subst. reflexivity.
Qed.

Lemma target_hooks_keep_targets_wf_witness :
  targets_wf
    (AnnualPlanTargetViewSet.perform_create Sample.alice (Sample.midnight 2025 1 10)
       (TargetData.Build (Some 1) (Some 6) (Some 5000) None None)
       (TargetDict.Build (Some 6) (Some 5000) None None None None) Sample.store).2
  ∧ targets_wf
      (AnnualPlanTargetViewSet.perform_update Sample.alice (Sample.midnight 2025 1 10)
         Sample.target1 (TargetDict.Build None (Some 7000) None None None None)
         Sample.store).2
  ∧ targets_wf
      (AnnualPlanTargetViewSet.perform_destroy Sample.alice (Sample.midnight 2025 1 10)
         Sample.target1 Sample.store).2.
Proof.
  destruct (target_hooks_keep_targets_wf Sample.alice (Sample.midnight 2025 1 10)
              Sample.store targets_wf_sample) as (Hcreate & Hupdate & Hdestroy).
  split; [apply Hcreate |]. split; [apply Hupdate | apply Hdestroy].
Defined.

(** [perform_create] past its guards. *)
Lemma target_create_cases user now data serializer st plan_id plan i v indicator :
  TargetData.plan_id data = Some plan_id → plan_id ≠ 0 →
  plans st !! plan_id = Some plan →
  can_user_access_unit user (AnnualPlan.unit plan) st = true →
  AnnualPlan.status plan = DRAFT →
  TargetDict.indicator_id serializer = Some i →
  TargetDict.target_value serializer = Some v →
  TargetDict.plan serializer = None →
  TargetDict.indicator serializer = None →
  indicators st !! i = Some indicator →
  AnnualPlanTargetViewSet.perform_create user now data serializer st
  = if has_target plan_id i st then (Raise IntegrityError, st)
    else (Ok None,
          set_audits (λ rows, rows ++ [target_audit user now "CREATE" "Added"
                                         plan_id plan indicator])
            (set_target_seq
               (λ _, AnnualPlanTarget.id (target_created plan_id i serializer v st))
               (set_targets (λ rows, rows ++ [target_created plan_id i serializer v st])
                  st))).
Proof.
  intros Hid Hnz Hplan Ha Hs Hi Hv Hp Hind Hindicator.
  pose proof (can_user_access_unit_not_anonymous _ _ _ Ha) as Hu.
  unfold AnnualPlanTargetViewSet.perform_create. rewrite Hid.
  rewrite (proj2 (Z.eqb_neq plan_id 0) Hnz).
  unfold AnnualPlan_objects_get. run. rewrite Hplan, Ha. mstep. rewrite Hs. mstep.
  unfold AnnualPlanTargetSerializer.save, AnnualPlanTargetSerializer.create. run.
  cbn [TargetDict.indicator_id TargetDict.plan TargetDict.indicator
       TargetDict.target_value TargetDict.baseline_value TargetDict.remarks].
  rewrite Hi, Hv, Hind. unfold Indicator_objects_get. rewrite Hindicator.
  unfold AnnualPlanTarget_objects_create. run.
  cbn [TargetDict.indicator_id TargetDict.plan TargetDict.indicator
       TargetDict.target_value TargetDict.baseline_value TargetDict.remarks
       not_null fst snd].
  rewrite bool_decide_eq_false_2 by (intros [x Hx]; discriminate Hx).
  cbn beta iota. fold (has_target plan_id i st).
  destruct (has_target plan_id i st); [reflexivity |].
  cbn [indicators targets set_targets set_target_seq AnnualPlanTarget.indicator].
  rewrite Hindicator.
  rewrite log_action_plan by exact Hu. reflexivity.
Qed.

(** The key of a created target is above the keys of the stored targets and
    above every key the table has held. *)
Lemma target_created_fresh plan_id i serializer v st :
  target_seq st < AnnualPlanTarget.id (target_created plan_id i serializer v st)
  ∧ ∀ t, t ∈ targets st →
         AnnualPlanTarget.id t < AnnualPlanTarget.id (target_created plan_id i serializer v st).
Proof.
  cbn [target_created AnnualPlanTarget.id]. split.
  - apply next_id_fresh. left.
  - intros t Ht. apply next_id_fresh. right.
    change (map AnnualPlanTarget.id (targets st)) with (AnnualPlanTarget.id <$> targets st).
    apply list_elem_of_fmap. eauto.
Qed.

(** X13: [perform_create] of the target endpoint, for an actor with access
    to the unit of a DRAFT plan and a payload naming a stored indicator:
    when the plan has a target for the indicator already, the hook raises
    [IntegrityError] and writes nothing; otherwise it runs to its end, adds
    after the stored targets one target with the plan, the indicator and the
    values of the payload, under a key that is above the keys of the stored
    targets and above every key a target ever had, and appends one CREATE row
    for the plan to the audit log, after which the plan has a target for the
    indicator.  Whether the indicator is active, and which unit owns it, is
    not looked at. *)
Theorem target_create_performed user now data serializer st plan_id plan i v indicator :
  TargetData.plan_id data = Some plan_id → plan_id ≠ 0 →
  plans st !! plan_id = Some plan →
  can_user_access_unit user (AnnualPlan.unit plan) st = true →
  AnnualPlan.status plan = DRAFT →
  TargetDict.indicator_id serializer = Some i →
  TargetDict.target_value serializer = Some v →
  TargetDict.plan serializer = None →
  TargetDict.indicator serializer = None →
  indicators st !! i = Some indicator →
  let out := AnnualPlanTargetViewSet.perform_create user now data serializer st in
  (has_target plan_id i st = true → out = (Raise IntegrityError, st))
  ∧ (has_target plan_id i st = false →
     ∃ created,
       out.1 = Ok None
       ∧ targets out.2 = targets st ++ [created]
       ∧ AnnualPlanTarget.plan created = plan_id
       ∧ AnnualPlanTarget.indicator created = i
       ∧ AnnualPlanTarget.target_value created = v
       ∧ AnnualPlanTarget.baseline_value created
         = default None (TargetDict.baseline_value serializer)
       ∧ AnnualPlanTarget.remarks created = default None (TargetDict.remarks serializer)
       ∧ target_seq st < AnnualPlanTarget.id created
       ∧ (∀ t, t ∈ targets st → AnnualPlanTarget.id t < AnnualPlanTarget.id created)
       ∧ target_seq out.2 = AnnualPlanTarget.id created
       ∧ audits out.2
         = audits st ++ [target_audit user now "CREATE" "Added" plan_id plan indicator]
       ∧ plans out.2 = plans st ∧ indicators out.2 = indicators st
       ∧ has_target plan_id i out.2 = true).
Proof.
  intros Hid Hnz Hplan Ha Hs Hi Hv Hp Hind Hindicator out. subst out.
  rewrite (target_create_cases _ _ _ _ _ _ _ _ _ _
             Hid Hnz Hplan Ha Hs Hi Hv Hp Hind Hindicator).
  split; intros ->; [reflexivity |].
  destruct (target_created_fresh plan_id i serializer v st) as [Hseq Hfresh].
  exists (target_created plan_id i serializer v st).
  cbn [fst snd targets audits plans indicators target_seq
       set_audits set_targets set_target_seq].
  repeat split; try assumption.
  unfold has_target. cbn [targets set_audits set_targets set_target_seq].
  rewrite existsb_app. cbn [existsb target_created AnnualPlanTarget.plan
                            AnnualPlanTarget.indicator].
  rewrite !Z.eqb_refl. rewrite !orb_true_r. reflexivity.
Qed.

Lemma target_create_performed_witness :
  AnnualPlanTargetViewSet.perform_create Sample.alice (Sample.midnight 2025 1 10)
    (TargetData.Build (Some 1) (Some 5) (Some 5000) None None)
    (TargetDict.Build (Some 5) (Some 5000) None None None None) Sample.store
  = (Raise IntegrityError, Sample.store).
Proof.
  refine (proj1 (target_create_performed Sample.alice (Sample.midnight 2025 1 10)
           (TargetData.Build (Some 1) (Some 5) (Some 5000) None None)
           (TargetDict.Build (Some 5) (Some 5000) None None None None) Sample.store
           1 Sample.plan1 5 5000
           (Indicator.Build "A-01" "Irrigated area" Sample.office_a true)
           _ _ _ _ _ _ _ _ _ _) _);
    try reflexivity; try discriminate; vm_compute; reflexivity.
Defined.

Lemma filter_all {A : Type} (P : A → Prop) `{∀ x, Decision (P x)} (l : list A) :
  (∀ x, x ∈ l → P x) → filter P l = l.
Proof.
  intros HP. induction l as [|x l IH]; [reflexivity |].
  rewrite filter_cons_True by (apply HP; left).
  f_equal. apply IH. intros y Hy. apply HP. right. exact Hy.
Qed.

(** X14: deleting the target that [perform_create] has just stored leaves
    the stored targets as they were, and does not give its key back.  After a
    [perform_create] that ran to its end, [perform_destroy] of the created
    target by the same actor runs to its end; the stored targets are then
    those before the creation, the audit log keeps both steps, a CREATE row
    followed by a DELETE row for the plan, and the table remembers the key of
    the deleted target: the same creation, done again, stores its target
    under the next key. *)
Theorem target_create_then_destroy user now now' data serializer st plan_id plan i v
    indicator :
  TargetData.plan_id data = Some plan_id → plan_id ≠ 0 →
  plans st !! plan_id = Some plan →
  can_user_access_unit user (AnnualPlan.unit plan) st = true →
  AnnualPlan.status plan = DRAFT →
  TargetDict.indicator_id serializer = Some i →
  TargetDict.target_value serializer = Some v →
  TargetDict.plan serializer = None →
  TargetDict.indicator serializer = None →
  indicators st !! i = Some indicator →
  has_target plan_id i st = false →
  let st1 := (AnnualPlanTargetViewSet.perform_create user now data serializer st).2 in
  ∃ created st2,
    targets st1 = targets st ++ [created]
    ∧ AnnualPlanTargetViewSet.perform_destroy user now' created st1 = (Ok None, st2)
    ∧ targets st2 = targets st
    ∧ audits st2 = audits st ++ [target_audit user now "CREATE" "Added"
                                   plan_id plan indicator;
                                 target_audit user now' "DELETE" "Deleted"
                                   plan_id plan indicator]
    ∧ plans st2 = plans st ∧ indicators st2 = indicators st
    ∧ target_seq st2 = AnnualPlanTarget.id created
    ∧ ∃ again,
        targets (AnnualPlanTargetViewSet.perform_create user now' data serializer st2).2
        = targets st ++ [again]
        ∧ AnnualPlanTarget.id again = AnnualPlanTarget.id created + 1.
Proof.
  intros Hid Hnz Hplan Ha Hs Hi Hv Hp Hind Hindicator Hnew st1.
  pose proof (can_user_access_unit_not_anonymous _ _ _ Ha) as Hu.
  subst st1.
  rewrite (target_create_cases _ _ _ _ _ _ _ _ _ _
             Hid Hnz Hplan Ha Hs Hi Hv Hp Hind Hindicator), Hnew.
  cbn [snd]. set (created := target_created plan_id i serializer v st).
  destruct (target_created_fresh plan_id i serializer v st) as [Hseq Hfresh].
  fold created in Hseq, Hfresh.
  set (st2 := set_audits (λ rows, rows ++ [target_audit user now "CREATE" "Added"
                                             plan_id plan indicator;
                                           target_audit user now' "DELETE" "Deleted"
                                             plan_id plan indicator])
                (set_target_seq (λ _, AnnualPlanTarget.id created) st)).
  assert (Hdestroy :
    AnnualPlanTargetViewSet.perform_destroy user now' created
      (set_audits (λ rows, rows ++ [target_audit user now "CREATE" "Added"
                                      plan_id plan indicator])
         (set_target_seq (λ _, AnnualPlanTarget.id created)
            (set_targets (λ rows, rows ++ [created]) st)))
    = (Ok None, st2)).
  { unfold AnnualPlanTargetViewSet.perform_destroy, AnnualPlan_objects_get. run.
    cbn [plans set_audits set_targets set_target_seq].
    change (AnnualPlanTarget.plan created) with plan_id.
    change (AnnualPlanTarget.indicator created) with i.
    rewrite Hplan.
    erewrite (can_user_access_unit_profiles user (AnnualPlan.unit plan) st)
      by reflexivity.
    rewrite Ha. mstep. rewrite Hs. mstep.
    unfold Indicator_objects_get.
    cbn [indicators set_audits set_targets set_target_seq]. rewrite Hindicator.
    rewrite log_action_plan by exact Hu.
    unfold AnnualPlanTarget_delete. run. cbn [fst snd].
    f_equal. subst st2. unfold set_audits, set_targets, set_target_seq.
    cbn [users profiles indicators plans targets reports entries audits
         target_seq entry_seq].
    f_equal.
    - rewrite filter_app, filter_cons, filter_nil.
      rewrite decide_False by (intros H; apply H; reflexivity).
      rewrite app_nil_r. apply filter_all.
      intros t Ht. specialize (Hfresh t Ht). lia.
    - rewrite <- app_assoc. reflexivity. }
  exists created, st2. split; [reflexivity |]. split; [exact Hdestroy |].
  split; [reflexivity |]. split; [reflexivity |]. split; [reflexivity |].
  split; [reflexivity |]. split; [reflexivity |].
  assert (Hagain :
    AnnualPlanTargetViewSet.perform_create user now' data serializer st2
    = (Ok None,
       set_audits (λ rows, rows ++ [target_audit user now' "CREATE" "Added"
                                      plan_id plan indicator])
         (set_target_seq
            (λ _, AnnualPlanTarget.id (target_created plan_id i serializer v st2))
            (set_targets (λ rows, rows ++ [target_created plan_id i serializer v st2])
               st2)))).
  { rewrite (target_create_cases user now' data serializer st2 plan_id plan i v indicator
               Hid Hnz Hplan Ha Hs Hi Hv Hp Hind Hindicator).
    change (has_target plan_id i st2) with (has_target plan_id i st).
    rewrite Hnew. reflexivity. }
  exists (target_created plan_id i serializer v st2). rewrite Hagain.
  split; [reflexivity |].
  cbn [target_created AnnualPlanTarget.id]. subst st2.
  cbn [target_seq targets set_audits set_target_seq].
  unfold next_id. cbn [foldr].
  assert (Hmax : foldr Z.max 0 (map AnnualPlanTarget.id (targets st))
                 < AnnualPlanTarget.id created).
  { cbn [created target_created AnnualPlanTarget.id]. unfold next_id. cbn [foldr]. lia. }
  lia.
Qed.

Lemma target_create_then_destroy_witness :
  let now := Sample.midnight 2025 1 10 in
  let now' := Sample.midnight 2025 1 11 in
  let data := TargetData.Build (Some 1) (Some 6) (Some 5000) None None in
  let serializer := TargetDict.Build (Some 6) (Some 5000) None None None None in
  let indicator := Indicator.Build "B-01" "Seed distributed" Sample.office_b true in
  let st1 := (AnnualPlanTargetViewSet.perform_create Sample.alice now data serializer
                Sample.store).2 in
  ∃ created st2,
    targets st1 = targets Sample.store ++ [created]
    ∧ AnnualPlanTargetViewSet.perform_destroy Sample.alice now' created st1
      = (Ok None, st2)
    ∧ targets st2 = targets Sample.store
    ∧ audits st2
      = audits Sample.store
        ++ [target_audit Sample.alice now "CREATE" "Added" 1 Sample.plan1 indicator;
            target_audit Sample.alice now' "DELETE" "Deleted" 1 Sample.plan1 indicator]
    ∧ plans st2 = plans Sample.store ∧ indicators st2 = indicators Sample.store
    ∧ target_seq st2 = AnnualPlanTarget.id created
    ∧ ∃ again,
        targets (AnnualPlanTargetViewSet.perform_create Sample.alice now' data serializer
                   st2).2
        = targets Sample.store ++ [again]
        ∧ AnnualPlanTarget.id again = AnnualPlanTarget.id created + 1.
Proof.
  apply (target_create_then_destroy Sample.alice (Sample.midnight 2025 1 10)
           (Sample.midnight 2025 1 11)
           (TargetData.Build (Some 1) (Some 6) (Some 5000) None None)
           (TargetDict.Build (Some 6) (Some 5000) None None None None) Sample.store
           1 Sample.plan1 6 5000
           (Indicator.Build "B-01" "Seed distributed" Sample.office_b true));
    try reflexivity; try discriminate; vm_compute; reflexivity.
Defined.

(** ** Runs of requests *)

Lemma plan_advances_refl p : plan_advances p p.
Proof. repeat split; lia. Qed.

Lemma plan_advances_trans p1 p2 p3 :
  plan_advances p1 p2 → plan_advances p2 p3 → plan_advances p1 p3.
Proof.
  intros (Hy1 & Hu1 & Hc1 & Hr1 & He1) (Hy2 & Hu2 & Hc2 & Hr2 & He2).
  split; [congruence |]. split; [congruence |]. split; [congruence |].
  split; [lia |]. intros Hr.
  assert (p2 = p1) as -> by (apply He1; lia). apply He2, Hr.
Qed.

Lemma plan_advances_submitted now p :
  AnnualPlan.status p = DRAFT → plan_advances p (submitted now p).
Proof. intros Hs. repeat split; simpl; rewrite Hs; simpl; lia. Qed.

Lemma plan_advances_approved user now p :
  AnnualPlan.status p = SUBMITTED → plan_advances p (approved user now p).
Proof. intros Hs. repeat split; simpl; rewrite Hs; simpl; lia. Qed.

Lemma plan_advances_rejected p :
  AnnualPlan.status p = SUBMITTED → plan_advances p (rejected p).
Proof. intros Hs. repeat split; simpl; rewrite Hs; simpl; lia. Qed.

Lemma advances_refl st : advances st st.
Proof.
  exists []. rewrite app_nil_r. split; [reflexivity |]. split; [| split; [| split]].
  - intros pk. destruct (plans st !! pk) as [p|] eqn:Hp; [| reflexivity].
    exists p. split; [reflexivity | apply plan_advances_refl].
  - intros pk H. contradiction.
  - reflexivity.
  - reflexivity.
Qed.

Lemma advances_trans st1 st2 st3 : advances st1 st2 → advances st2 st3 → advances st1 st3.
Proof.
  intros (new1 & Ha1 & Hp1 & Hc1 & Ht1 & Hf1) (new2 & Ha2 & Hp2 & Hc2 & Ht2 & Hf2).
  exists (new1 ++ new2). split; [| split; [| split; [| split]]].
  - rewrite Ha2, Ha1, app_assoc. reflexivity.
  - intros pk. specialize (Hp1 pk). specialize (Hp2 pk).
    destruct (plans st1 !! pk) as [p1|].
    + destruct Hp1 as (p2 & Hp2' & Hadv1). rewrite Hp2' in Hp2.
      destruct Hp2 as (p3 & Hp3 & Hadv2). exists p3. split; [exact Hp3 |].
      eapply plan_advances_trans; eassumption.
    + rewrite Hp1 in Hp2. exact Hp2.
  - intros pk Hne.
    assert (Hcases : plans st2 !! pk = plans st1 !! pk ∨ plans st2 !! pk ≠ plans st1 !! pk).
    { specialize (Hp1 pk). destruct (plans st1 !! pk) as [p1|]; [| left; exact Hp1].
      destruct Hp1 as (p2 & -> & _ & _ & _ & _ & Hsame).
      destruct (decide (rank (AnnualPlan.status p1) = rank (AnnualPlan.status p2)))
        as [Hr|Hr].
      - left. rewrite (Hsame Hr). reflexivity.
      - right. intros [= ->]. apply Hr. reflexivity. }
    destruct Hcases as [Heq|Hne1].
    + rewrite <- Heq in Hne. destruct (Hc2 pk Hne) as (row & Hrow & Hctx).
      exists row. split; [apply elem_of_app; right; exact Hrow | exact Hctx].
    + destruct (Hc1 pk Hne1) as (row & Hrow & Hctx).
      exists row. split; [apply elem_of_app; left; exact Hrow | exact Hctx].
  - congruence.
  - congruence.
Qed.

(** One plan moves a stage and one row about it is logged. *)
Lemma advances_one st pk p p' row :
  plans st !! pk = Some p → plan_advances p p' →
  WorkflowAudit.context_plan row = Some pk →
  advances st (set_audits (λ rows, rows ++ [row]) (set_plans (λ m, <[pk := p']> m) st)).
Proof.
  intros Hp Hadv Hctx. exists [row]. split; [reflexivity |].
  split; [| split; [| split; reflexivity]].
  - intros pk'. cbn [plans set_audits set_plans].
    destruct (decide (pk' = pk)) as [->|Hne].
    + rewrite Hp, lookup_insert_eq. eauto.
    + rewrite lookup_insert_ne by congruence.
      destruct (plans st !! pk') as [q|]; [| reflexivity].
      exists q. split; [reflexivity | apply plan_advances_refl].
  - intros pk'. cbn [plans set_audits set_plans].
    destruct (decide (pk' = pk)) as [->|Hne].
    + intros _. exists row. split; [apply list_elem_of_singleton; reflexivity | exact Hctx].
    + rewrite lookup_insert_ne by congruence. intros H. contradiction.
Qed.

(** [get_object] resolves the stored row. *)
Lemma get_object_stored user year_param now pk st plan :
  AnnualPlanViewSet.get_object user year_param now pk st = Ok plan →
  plans st !! pk = Some plan.
Proof.
  unfold AnnualPlanViewSet.get_object, result_bind.
  destruct (AnnualPlanViewSet.get_queryset user year_param now st) as [queryset|];
    [| discriminate].
  destruct (plans st !! pk) as [p|]; [| discriminate].
  destruct (queryset p); [| discriminate]. congruence.
Qed.

(** A route leaves the store its view leaves, or the store it found. *)
Lemma dispatch_advances user (view : M Response.t) st :
  advances st (view st).2 → advances st (dispatch user view st).2.
Proof.
  intros Hview. unfold dispatch.
  destruct (User.is_anonymous user); [apply advances_refl |].
  unfold handle_exception. run.
  destruct (view st) as [[response|e] st']; [exact Hview |].
  destruct e; exact Hview.
Qed.

Lemma detail_route_advances view user year_param utc_now pk st :
  (∀ plan, plans st !! pk = Some plan → advances st (view pk plan st).2) →
  advances st (AnnualPlanViewSet.detail_route view user year_param utc_now pk st).2.
Proof.
  intros Hview. unfold AnnualPlanViewSet.detail_route. apply dispatch_advances. run.
  destruct (AnnualPlanViewSet.get_object user year_param utc_now pk st) as [plan|e]
    eqn:Hget; [| apply advances_refl].
  apply Hview. exact (get_object_stored _ _ _ _ _ _ Hget).
Qed.

Lemma submit_advances user now pk plan st :
  plans st !! pk = Some plan →
  advances st (AnnualPlanViewSet.submit user now pk plan st).2.
Proof.
  intros Hplan.
  destruct (can_user_access_unit user (AnnualPlan.unit plan) st) eqn:Ha.
  2:{ rewrite (submit_denied _ _ _ _ _ Ha). apply advances_refl. }
  destruct (decide (AnnualPlan.status plan = DRAFT)) as [Hs|Hs].
  2:{ rewrite (submit_not_draft _ _ _ _ _ Ha Hs). apply advances_refl. }
  destruct (exists_ (plan_targets pk st)) eqn:Ht.
  2:{ rewrite (submit_empty _ _ _ _ _ Ha Hs Ht). apply advances_refl. }
  rewrite (submit_committed _ _ _ _ _ Ha Hs Ht).
  apply (advances_one st pk plan); [exact Hplan | | reflexivity].
  apply plan_advances_submitted, Hs.
Qed.

Lemma approve_advances user now pk plan st :
  plans st !! pk = Some plan →
  advances st (AnnualPlanViewSet.approve user now pk plan st).2.
Proof.
  intros Hplan. rewrite approve_cases.
  destruct (negb (can_user_access_unit user (AnnualPlan.unit plan) st));
    [apply advances_refl |].
  destruct (get_user_profile user st) as [profile|]; [| apply advances_refl].
  destruct (negb (is_approver_role (UserProfile.role profile))); [apply advances_refl |].
  destruct (Status_eqb (AnnualPlan.status plan) SUBMITTED) eqn:Hs;
    [| apply advances_refl].
  apply (advances_one st pk plan); [exact Hplan | | reflexivity].
  apply plan_advances_approved, Status_eqb_eq, Hs.
Qed.

Lemma reject_advances user now pk plan st :
  plans st !! pk = Some plan →
  advances st (AnnualPlanViewSet.reject user now pk plan st).2.
Proof.
  intros Hplan. rewrite reject_cases.
  destruct (negb (can_user_access_unit user (AnnualPlan.unit plan) st));
    [apply advances_refl |].
  destruct (get_user_profile user st) as [profile|]; [| apply advances_refl].
  destruct (negb (is_approver_role (UserProfile.role profile))); [apply advances_refl |].
  destruct (Status_eqb (AnnualPlan.status plan) SUBMITTED) eqn:Hs;
    [| apply advances_refl].
  apply (advances_one st pk plan); [exact Hplan | | reflexivity].
  apply plan_advances_rejected, Status_eqb_eq, Hs.
Qed.

Lemma bulk_approve_advances user now data st :
  advances st (AnnualPlanViewSet.bulk_approve user now data st).2.
Proof.
  unfold AnnualPlanViewSet.bulk_approve. run.
  destruct (get_user_profile user st) as [profile|] eqn:Hp; [| apply advances_refl].
  cbn beta iota delta [profile_role].
  destruct (negb (is_approver_role (UserProfile.role profile))); [apply advances_refl |].
  destruct (BulkApproveSerializer_validated_data data) as [[ids reason]|];
    [| apply advances_refl].
  cbn beta iota zeta.
  pose proof (get_user_profile_not_anonymous _ _ _ Hp) as Hu.
  destruct (bulk_approve_loop user (default "" reason) now ids Hu 0 st)
    as (new & st' & -> & Haud & _ & _ & Hin & Hpl & Hprof & Htar & _).
  cbn [snd]. exists new. split; [exact Haud |]. split; [| split; [| split; assumption]].
  - intros pk. rewrite Hpl. destruct (plans st !! pk) as [p|]; [| reflexivity].
    eexists. split; [reflexivity |]. unfold bulk_transition.
    destruct (bool_decide (pk ∈ ids)); [| apply plan_advances_refl].
    destruct (Status_eqb (AnnualPlan.status p) SUBMITTED) eqn:Hs;
      [| apply plan_advances_refl].
    apply plan_advances_approved, Status_eqb_eq, Hs.
  - intros pk Hne. rewrite Hpl in Hne.
    destruct (plans st !! pk) as [p|] eqn:Hplan; [| contradiction].
    unfold bulk_transition in Hne. cbn [fmap option_fmap option_map] in Hne.
    destruct (bool_decide (pk ∈ ids)) eqn:Hpk; [| contradiction].
    destruct (Status_eqb (AnnualPlan.status p) SUBMITTED) eqn:Hs; [| contradiction].
    assert (Hrow : Some pk ∈ WorkflowAudit.context_plan <$> new).
    { apply Hin. split; [exact (bool_decide_eq_true_1 _ Hpk) |].
      exists p. split; [exact Hplan | apply Status_eqb_eq, Hs]. }
    apply list_elem_of_fmap in Hrow as (row & Hctx & Hrow). eauto.
Qed.

Lemma bulk_reject_advances user now data st :
  advances st (AnnualPlanViewSet.bulk_reject user now data st).2.
Proof.
  unfold AnnualPlanViewSet.bulk_reject. run.
  destruct (get_user_profile user st) as [profile|] eqn:Hp; [| apply advances_refl].
  cbn beta iota delta [profile_role].
  destruct (negb (is_approver_role (UserProfile.role profile))); [apply advances_refl |].
  destruct (BulkRejectSerializer_validated_data data) as [[ids reason]|];
    [| apply advances_refl].
  pose proof (get_user_profile_not_anonymous _ _ _ Hp) as Hu.
  destruct (bulk_reject_loop user reason now ids Hu 0 st)
    as (keys & new & st' & -> & Haud & Hctx & _ & _ & Hin & Hpl & Hprof & Htar & _).
  cbn [snd]. exists new. split; [exact Haud |]. split; [| split; [| split; assumption]].
  - intros pk. rewrite Hpl. destruct (plans st !! pk) as [p|]; [| reflexivity].
    eexists. split; [reflexivity |]. unfold bulk_reject_transition.
    destruct (bool_decide (pk ∈ ids)); [| apply plan_advances_refl].
    destruct (Status_eqb (AnnualPlan.status p) SUBMITTED) eqn:Hs;
      [| apply plan_advances_refl].
    apply plan_advances_rejected, Status_eqb_eq, Hs.
  - intros pk Hne. rewrite Hpl in Hne.
    destruct (plans st !! pk) as [p|] eqn:Hplan; [| contradiction].
    unfold bulk_reject_transition in Hne. cbn [fmap option_fmap option_map] in Hne.
    destruct (bool_decide (pk ∈ ids)) eqn:Hpk; [| contradiction].
    destruct (Status_eqb (AnnualPlan.status p) SUBMITTED) eqn:Hs; [| contradiction].
    assert (Hkey : pk ∈ keys).
    { apply Hin. split; [exact (bool_decide_eq_true_1 _ Hpk) |].
      unfold plan_is_submitted. rewrite Hplan. exact Hs. }
    assert (Hrow : Some pk ∈ WorkflowAudit.context_plan <$> new).
    { rewrite Hctx. apply list_elem_of_fmap. eauto. }
    apply list_elem_of_fmap in Hrow as (row & Hrow_ctx & Hrow). eauto.
Qed.

Lemma handle_advances user year_param utc_now now request st :
  advances st (handle user year_param utc_now now request st).2.
Proof.
  destruct request as [pk|pk|pk|pk data|data|data]; cbn [handle].
  - apply detail_route_advances. intros plan. apply submit_advances.
  - apply detail_route_advances. intros plan. apply approve_advances.
  - apply detail_route_advances. intros plan. apply reject_advances.
  - apply detail_route_advances. intros plan _.
    destruct (add_target_outcome user now pk plan data st) as (r & -> & _).
    apply advances_refl.
  - apply dispatch_advances, bulk_approve_advances.
  - apply dispatch_advances, bulk_reject_advances.
Qed.

Lemma reachable_advances st st' : reachable st st' → advances st st'.
Proof.
  induction 1
    as [st | st1 st2 st3 (user & year_param & utc_now & now & request & <-) _ IH].
  - apply advances_refl.
  - eapply advances_trans; [apply handle_advances | exact IH].
Qed.

(** X15: over any run of requests to the workflow endpoints of annual plans
    (submit, approve, reject, add_target, bulk_approve, bulk_reject), by any
    users at any times, no plan is created or deleted, and a stored plan keeps
    its year, unit and creator while its status only moves forward: from
    DRAFT to SUBMITTED, from SUBMITTED to APPROVED or REJECTED.  APPROVED and
    REJECTED are final: a plan stored with one of them is stored unchanged
    after the run. *)
Theorem workflow_status_only_advances st st' :
  reachable st st' →
  ∀ pk,
    match plans st !! pk with
    | Some p =>
        ∃ p', plans st' !! pk = Some p' ∧ plan_advances p p'
              ∧ (AnnualPlan.status p = APPROVED ∨ AnnualPlan.status p = REJECTED → p' = p)
    | None => plans st' !! pk = None
    end.
Proof.
  intros Hrun pk.
  destruct (reachable_advances st st' Hrun) as (new & _ & Hplans & _).
  specialize (Hplans pk). destruct (plans st !! pk) as [p|]; [| exact Hplans].
  destruct Hplans as (p' & Hp' & Hadv). exists p'. split; [exact Hp' |].
  split; [exact Hadv |].
  destruct Hadv as (_ & _ & _ & Hrank & Hsame). intros Hfinal. apply Hsame.
  destruct Hfinal as [Hs | Hs]; rewrite Hs in *;
    destruct (AnnualPlan.status p'); simpl in *; lia.
Qed.

(** X16: over any run of such requests the audit log only grows at its end,
    every plan whose stored row has changed is named by one of the rows
    added, and the stored targets and profiles are as before. *)
Theorem workflow_changes_are_audited st st' :
  reachable st st' →
  ∃ new,
    audits st' = audits st ++ new
    ∧ (∀ pk, plans st' !! pk ≠ plans st !! pk →
             ∃ row, row ∈ new ∧ WorkflowAudit.context_plan row = Some pk)
    ∧ targets st' = targets st
    ∧ profiles st' = profiles st.
Proof.
  intros Hrun.
  destruct (reachable_advances st st' Hrun) as (new & Haud & _ & Hcov & Htar & Hprof).
  exists new. repeat split; assumption.
Qed.

Lemma workflow_status_only_advances_witness :
  let st1 := (handle Sample.alice QAbsent (Sample.midnight 2025 1 15)
                (Sample.midnight 2025 1 15) (Submit 1) Sample.store).2 in
  let st2 := (handle Sample.bob QAbsent (Sample.midnight 2025 1 20)
                (Sample.midnight 2025 1 20) (Approve 1) st1).2 in
  ∃ p', plans st2 !! 1 = Some p' ∧ plan_advances Sample.plan1 p'
        ∧ (AnnualPlan.status Sample.plan1 = APPROVED
           ∨ AnnualPlan.status Sample.plan1 = REJECTED → p' = Sample.plan1).
Proof.
  intros st1 st2.
  assert (Hrun : reachable Sample.store st2).
  { eapply rtc_l.
    - exists Sample.alice, QAbsent, (Sample.midnight 2025 1 15), (Sample.midnight 2025 1 15),
        (Submit 1). reflexivity.
    - eapply rtc_l; [| apply rtc_refl].
      exists Sample.bob, QAbsent, (Sample.midnight 2025 1 20), (Sample.midnight 2025 1 20),
        (Approve 1). reflexivity. }
  exact (workflow_status_only_advances Sample.store st2 Hrun 1).
Defined.

Lemma workflow_changes_are_audited_witness :
  let st1 := (handle Sample.bob QAbsent (Sample.midnight 2026 2 1)
                (Sample.midnight 2026 2 1)
                (BulkReject (BulkData.Build (Some [3]) (Some "late"))) Sample.bulk_store).2 in
  let st2 := (handle Sample.bob QAbsent (Sample.midnight 2026 2 2)
                (Sample.midnight 2026 2 2)
                (BulkApprove (BulkData.Build (Some [1; 3]) None)) st1).2 in
  ∃ new,
    audits st2 = audits Sample.bulk_store ++ new
    ∧ (∀ pk, plans st2 !! pk ≠ plans Sample.bulk_store !! pk →
             ∃ row, row ∈ new ∧ WorkflowAudit.context_plan row = Some pk)
    ∧ targets st2 = targets Sample.bulk_store
    ∧ profiles st2 = profiles Sample.bulk_store.
Proof.
  intros st1 st2.
  apply (workflow_changes_are_audited Sample.bulk_store st2).
  eapply rtc_l.
  - exists Sample.bob, QAbsent, (Sample.midnight 2026 2 1), (Sample.midnight 2026 2 1),
      (BulkReject (BulkData.Build (Some [3]) (Some "late"))). reflexivity.
  - eapply rtc_l; [| apply rtc_refl].
    exists Sample.bob, QAbsent, (Sample.midnight 2026 2 2), (Sample.midnight 2026 2 2),
      (BulkApprove (BulkData.Build (Some [1; 3]) None)). reflexivity.
Defined.

(** ** The quarters of a year *)

(** The ordinals of the first days of the quarters. *)
Lemma ymd2ord_quarter_starts (year : Z) :
  let leap := if datetime.is_leap year then 1 else 0 in
  datetime.ymd2ord year 4 1 = datetime.days_before_year year + 91 + leap
  ∧ datetime.ymd2ord year 7 1 = datetime.days_before_year year + 182 + leap
  ∧ datetime.ymd2ord year 10 1 = datetime.days_before_year year + 274 + leap.
Proof.
  unfold datetime.ymd2ord, datetime.days_before_month.
  generalize (datetime.days_before_year year). intros d.
  destruct (datetime.is_leap year); cbv zeta; simpl; repeat split; lia.
Qed.

(** The range of a quarter, as seconds. *)
Lemma quarter_date_range_seconds (r : QuarterlyReport.t) :
  1 ≤ QuarterlyReport.year r ≤ 9999 →
  let year := QuarterlyReport.year r in
  let quarter := QuarterlyReport.quarter r in
  let leap := if datetime.is_leap year then 1 else 0 in
  let d := datetime.days_before_year year in
  QuarterlyReport.quarter_date_range r
  = if quarter =? 1 then Ok ((d + 1) * 86400, (d + 90 + leap) * 86400 + 86399)
    else if quarter =? 2 then
      Ok ((d + 91 + leap) * 86400, (d + 181 + leap) * 86400 + 86399)
    else if quarter =? 3 then
      Ok ((d + 182 + leap) * 86400, (d + 273 + leap) * 86400 + 86399)
    else Ok ((d + 274 + leap) * 86400, (d + 365 + leap) * 86400 + 86399).
Proof.
  intros Hy year quarter leap d. unfold QuarterlyReport.quarter_date_range.
  fold year quarter.
  destruct (ymd2ord_model_dates year) as (H0 & H1 & H2 & H3 & H4).
  destruct (ymd2ord_quarter_starts year) as (H5 & H6 & H7).
  rewrite !datetime_new_ok by (try lia; cbn; lia).
  rewrite H0, H1, H2, H3, H4, H5, H6, H7. fold leap d. cbn [result_bind].
  destruct (quarter =? 1); [f_equal; f_equal; lia |].
  destruct (quarter =? 2); [f_equal; f_equal; lia |].
  destruct (quarter =? 3); f_equal; f_equal; lia.
Qed.

(** X17: the quarters of a year tile it.  For two reports of the same year,
    a year [datetime] supports, whose quarters are consecutive,
    [quarter_date_range] returns for each a range that starts before it ends,
    and the later range starts one second after the earlier one ends; the
    first quarter starts with the year and the fourth ends with its last
    second.  A quarter that is none of 1, 2 and 3 is given the range of the
    fourth. *)
Theorem quarters_are_contiguous (r r' : QuarterlyReport.t) :
  1 ≤ QuarterlyReport.year r ≤ 9999 →
  QuarterlyReport.year r' = QuarterlyReport.year r →
  (1 ≤ QuarterlyReport.quarter r ≤ 3 →
   QuarterlyReport.quarter r' = QuarterlyReport.quarter r + 1 →
   ∃ s e s' e',
     QuarterlyReport.quarter_date_range r = Ok (s, e)
     ∧ QuarterlyReport.quarter_date_range r' = Ok (s', e')
     ∧ s < e ∧ e + 1 = s' ∧ s' < e'
     ∧ (QuarterlyReport.quarter r = 1 →
        datetime.new (QuarterlyReport.year r) 1 1 0 0 0 = Ok s)
     ∧ (QuarterlyReport.quarter r' = 4 →
        datetime.new (QuarterlyReport.year r) 12 31 23 59 59 = Ok e'))
  ∧ (¬ 1 ≤ QuarterlyReport.quarter r ≤ 3 → QuarterlyReport.quarter r' = 4 →
     QuarterlyReport.quarter_date_range r = QuarterlyReport.quarter_date_range r').
Proof.
  intros Hy Hyear.
  assert (Hy' : 1 ≤ QuarterlyReport.year r' ≤ 9999) by (rewrite Hyear; exact Hy).
  rewrite (quarter_date_range_seconds r Hy), (quarter_date_range_seconds r' Hy').
  rewrite Hyear. cbv zeta.
  destruct (ymd2ord_model_dates (QuarterlyReport.year r)) as (H0 & _ & _ & _ & H4).
  set (d := datetime.days_before_year (QuarterlyReport.year r)) in *.
  set (leap := if datetime.is_leap (QuarterlyReport.year r) then 1 else 0) in *.
  assert (Hleap : 0 ≤ leap ≤ 1) by (subst leap; destruct (datetime.is_leap _); lia).
  split.
  - intros Hq Hnext. rewrite Hnext.
    assert (Hcases : QuarterlyReport.quarter r = 1 ∨ QuarterlyReport.quarter r = 2
                     ∨ QuarterlyReport.quarter r = 3) by lia.
    destruct Hcases as [-> | [-> | ->]]; cbn [Z.eqb Z.add Pos.add Pos.succ Pos.eqb];
      do 4 eexists; (split; [reflexivity |]); (split; [reflexivity |]);
      (split; [lia |]); (split; [lia |]); (split; [lia |]); split; intros Hq';
      try discriminate Hq';
      rewrite datetime_new_ok by (try lia; cbn; lia); rewrite ?H0, ?H4; fold d leap;
      f_equal; lia.
  - intros Hq ->. cbn [Z.eqb Pos.eqb].
    destruct (Z.eqb_spec (QuarterlyReport.quarter r) 1); [lia |].
    destruct (Z.eqb_spec (QuarterlyReport.quarter r) 2); [lia |].
    destruct (Z.eqb_spec (QuarterlyReport.quarter r) 3); [lia |]. reflexivity.
Qed.

Lemma quarters_are_contiguous_witness :
  let q1 := QuarterlyReport.Build 2024 1 Sample.office_a DRAFT 10 None None None None None in
  let q2 := QuarterlyReport.Build 2024 2 Sample.office_a DRAFT 10 None None None None None in
  ∃ s e s' e',
    QuarterlyReport.quarter_date_range q1 = Ok (s, e)
    ∧ QuarterlyReport.quarter_date_range q2 = Ok (s', e')
    ∧ s < e ∧ e + 1 = s' ∧ s' < e'
    ∧ (QuarterlyReport.quarter q1 = 1 → datetime.new 2024 1 1 0 0 0 = Ok s)
    ∧ (QuarterlyReport.quarter q2 = 4 → datetime.new 2024 12 31 23 59 59 = Ok e').
Proof.
  intros q1 q2.
  apply (proj1 (quarters_are_contiguous q1 q2 ltac:(simpl; lia) eq_refl)).
  - simpl. lia.
  - reflexivity.
Defined.

(** ** The computed fields and the views *)



(** X19: the status of the answer of [get_annual_plan_progress].  The view
    answers every request: 302 to an anonymous user; otherwise 500 when no
    plan has the id (the [Http404] of the lookup is caught by the view's own
    [except Exception]), 403 when the user has no access to the plan's unit,
    and 200 in the remaining case.  It never answers 404. *)
Theorem progress_status plan_id user st :
  ∃ response,
    api.get_annual_plan_progress plan_id user st = Ok response
    ∧ api.status response
      = (if User.is_anonymous user then 302
         else match plans st !! plan_id with
              | None => 500
              | Some plan =>
                  if can_user_access_unit user (AnnualPlan.unit plan) st then 200 else 403
              end)
    ∧ (plans st !! plan_id = None → User.is_anonymous user = false →
       api.data response = api.JsonException (Http404 "AnnualPlan")).
Proof.
  unfold api.get_annual_plan_progress, api.login_required.
  destruct (User.is_anonymous user).
  { eexists. split; [reflexivity |]. split; [reflexivity | discriminate]. }
  unfold api.get_annual_plan_progress_body, api.get_plan_or_404.
  destruct (plans st !! plan_id) as [plan|]; cbn.
  - destruct (can_user_access_unit user (AnnualPlan.unit plan) st); cbn.
    + rewrite completion_percentage_guarded by apply count_nonneg. cbn.
      eexists. split; [reflexivity |]. split; [reflexivity | discriminate].
    + eexists. split; [reflexivity |]. split; [reflexivity | discriminate].
  - eexists. split; [reflexivity |]. split; reflexivity.
Qed.

(** ** Deleting a plan or a report *)

Lemma log_action_report user unit action pk report message now st :
  User.is_anonymous user = false →
  log_action user (PUnit unit) (PStr action) PNone (PReport pk report) message now st
  = (Ok (), set_audits (λ rows, rows ++ [WorkflowAudit.Build (User.id user) unit action
                                           None (Some pk) message now]) st).
Proof.
  intros Hu. unfold log_action, log_workflow_action, WorkflowAudit_objects_create.
  run. simpl. unfold user_pk. rewrite Hu. reflexivity.
Qed.

(** X20: deleting a plan or a report erases its trail.  [perform_destroy] of
    a plan, for a user who is not anonymous and whatever the status of the
    plan, runs to its end: the plan is gone and the other plans are as they
    were, the targets left are those of the other plans, and the audit rows
    left are the old rows that do not name the plan: the DELETE row the hook
    has just written names it and goes with it.  The same holds for a report,
    its entries and the rows that name it. *)
Theorem destroy_erases_the_trail user now pk st :
  User.is_anonymous user = false →
  (∀ instance, ∃ st',
     AnnualPlanViewSet_perform_destroy user now pk instance st = (Ok (), st')
     ∧ plans st' = delete pk (plans st)
     ∧ targets st' = filter (λ t, AnnualPlanTarget.plan t ≠ pk) (targets st)
     ∧ audits st' = filter (λ row, WorkflowAudit.context_plan row ≠ Some pk) (audits st)
     ∧ (∀ row, row ∈ audits st' → WorkflowAudit.context_plan row ≠ Some pk)
     ∧ reports st' = reports st ∧ entries st' = entries st)
  ∧ (∀ instance, ∃ st',
       QuarterlyReportViewSet_perform_destroy user now pk instance st = (Ok (), st')
       ∧ reports st' = delete pk (reports st)
       ∧ entries st' = filter (λ e, QuarterlyIndicatorEntry.report e ≠ pk) (entries st)
       ∧ audits st'
         = filter (λ row, WorkflowAudit.context_report row ≠ Some pk) (audits st)
       ∧ (∀ row, row ∈ audits st' → WorkflowAudit.context_report row ≠ Some pk)
       ∧ plans st' = plans st ∧ targets st' = targets st).
Proof.
  intros Hu. split; intros instance.
  - unfold AnnualPlanViewSet_perform_destroy, AnnualPlan_delete. run.
    rewrite log_action_plan by exact Hu. cbn beta iota. eexists. split; [reflexivity |].
    cbn [plans targets audits reports entries set_audits set_targets set_plans].
    assert (Haud : filter (λ row, WorkflowAudit.context_plan row ≠ Some pk)
                     (audits st ++ [WorkflowAudit.Build (User.id user)
                        (AnnualPlan.unit instance) "DELETE" (Some pk) None
                        ("Deleted annual plan for " +:+ pretty (AnnualPlan.year instance))
                        now])
                   = filter (λ row, WorkflowAudit.context_plan row ≠ Some pk) (audits st)).
    { rewrite filter_app, filter_cons_False, filter_nil, app_nil_r; [reflexivity |].
      intros H. apply H. reflexivity. }
    rewrite Haud. repeat split.
    intros row Hrow. apply list_elem_of_filter in Hrow as [Hrow _]. exact Hrow.
  - unfold QuarterlyReportViewSet_perform_destroy, QuarterlyReport_delete. run.
    rewrite log_action_report by exact Hu. cbn beta iota. eexists. split; [reflexivity |].
    cbn [plans targets audits reports entries set_audits set_entries set_reports].
    assert (Haud : filter (λ row, WorkflowAudit.context_report row ≠ Some pk)
                     (audits st ++ [WorkflowAudit.Build (User.id user)
                        (QuarterlyReport.unit instance) "DELETE" None (Some pk)
                        ("Deleted quarterly report for Q"
                           +:+ pretty (QuarterlyReport.quarter instance)
                           +:+ " " +:+ pretty (QuarterlyReport.year instance)) now])
                   = filter (λ row, WorkflowAudit.context_report row ≠ Some pk)
                       (audits st)).
    { rewrite filter_app, filter_cons_False, filter_nil, app_nil_r; [reflexivity |].
      intros H. apply H. reflexivity. }
    rewrite Haud. repeat split.
    intros row Hrow. apply list_elem_of_filter in Hrow as [Hrow _]. exact Hrow.
Qed.

Lemma destroy_erases_the_trail_witness :
  let st1 := (AnnualPlanViewSet.submit Sample.alice (Sample.midnight 2025 1 15) 1
                Sample.plan1 Sample.store).2 in
  ∃ st',
    AnnualPlanViewSet_perform_destroy Sample.alice (Sample.midnight 2025 1 16) 1
      (submitted (Sample.midnight 2025 1 15) Sample.plan1) st1 = (Ok (), st')
    ∧ plans st' = delete 1 (plans st1)
    ∧ targets st' = filter (λ t, AnnualPlanTarget.plan t ≠ 1) (targets st1)
    ∧ audits st' = filter (λ row, WorkflowAudit.context_plan row ≠ Some 1) (audits st1)
    ∧ (∀ row, row ∈ audits st' → WorkflowAudit.context_plan row ≠ Some 1)
    ∧ reports st' = reports st1 ∧ entries st' = entries st1.
Proof.
  intros st1.
  apply (proj1 (destroy_erases_the_trail Sample.alice (Sample.midnight 2025 1 16) 1 st1
                  eq_refl)).
Defined.

(** ** The actions of the admin site *)

Lemma update_submitted_lookup selected assign st pk :
  plans (AnnualPlanAdmin.update_submitted selected assign st).2 !! pk
  = (λ plan, if AnnualPlanAdmin.matches selected pk plan then assign plan else plan)
    <$> plans st !! pk.
Proof.
  unfold AnnualPlanAdmin.update_submitted. cbn [snd plans set_plans].
  rewrite map_lookup_imap. destruct (plans st !! pk); reflexivity.
Qed.

Lemma update_submitted_count selected assign st :
  (AnnualPlanAdmin.update_submitted selected assign st).1
  = Ok (Z.of_nat (length (filter (λ pk, plan_is_submitted st pk) (remove_dups selected)))).
Proof.
  unfold AnnualPlanAdmin.update_submitted. cbn [fst]. f_equal. f_equal.
  set (rows := filter _ (map_to_list (plans st))).
  rewrite <- (length_fmap fst rows).
  apply Permutation_length, NoDup_Permutation.
  - apply (sublist_NoDup _ (fst <$> map_to_list (plans st))).
    + apply NoDup_fst_map_to_list.
    + apply fmap_sublist, sublist_filter.
  - apply NoDup_filter, NoDup_remove_dups.
  - intros pk. rewrite list_elem_of_filter, elem_of_remove_dups, Is_true_true.
    unfold plan_is_submitted. split.
    + intros Hpk. apply list_elem_of_fmap in Hpk as ([pk' p] & -> & Hrow).
      apply list_elem_of_filter in Hrow as [Hm Hrow]. cbn [fst snd] in *.
      apply elem_of_map_to_list in Hrow. rewrite Hrow.
      apply andb_true_iff in Hm as [Hsel Hs]. split; [exact Hs |].
      exact (bool_decide_eq_true_1 _ Hsel).
    + intros [Hs Hsel]. destruct (plans st !! pk) as [p|] eqn:Hp; [| discriminate Hs].
      apply list_elem_of_fmap. exists (pk, p). split; [reflexivity |].
      apply list_elem_of_filter. split.
      * unfold AnnualPlanAdmin.matches. cbn [fst snd].
        rewrite (bool_decide_eq_true_2 _ Hsel), Hs. reflexivity.
      * apply elem_of_map_to_list, Hp.
Qed.

(** X21: the admin action [approve_plans] is [bulk_approve] without its
    guard and without its trail.  For any user who is not anonymous,
    whatever the role, it reports the number of distinct selected plans that
    were SUBMITTED and stores each of them as APPROVED by the user at the time
    of the call, the other plans being as before; it writes no audit row.
    When the user is an approver, the plans it leaves are those [bulk_approve]
    leaves for the same ids. *)
Theorem admin_approve_is_unlogged_bulk_approve user now selected st :
  User.is_anonymous user = false →
  let n := Z.of_nat (length (filter (λ pk, plan_is_submitted st pk)
                               (remove_dups selected))) in
  ∃ st',
    AnnualPlanAdmin.approve_plans user now selected st
    = (Ok (pretty n +:+ " plans approved successfully."), st')
    ∧ (∀ pk, plans st' !! pk = bulk_transition user now selected pk <$> plans st !! pk)
    ∧ audits st' = audits st ∧ targets st' = targets st ∧ profiles st' = profiles st
    ∧ (∀ profile reason,
         get_user_profile user st = Some profile →
         is_approver_role (UserProfile.role profile) = true →
         selected ≠ [] → (∀ r, reason = Some r → reason_ok r = true) →
         plans (AnnualPlanViewSet.bulk_approve user now
                  (BulkData.Build (Some selected) reason) st).2 = plans st').
Proof.
  intros Hu n. unfold AnnualPlanAdmin.approve_plans. rewrite Hu. run.
  set (assign := λ plan : AnnualPlan.t, _).
  pose proof (update_submitted_count selected assign st) as Hcount.
  pose proof (update_submitted_lookup selected assign st) as Hlookup.
  destruct (AnnualPlanAdmin.update_submitted selected assign st) as [r st'] eqn:Hrun.
  cbn [fst snd] in Hcount, Hlookup. subst r. cbn beta iota.
  assert (Hplans : ∀ pk, plans st' !! pk
                         = bulk_transition user now selected pk <$> plans st !! pk).
  { intros pk. rewrite Hlookup. reflexivity. }
  assert (Hrest : audits st' = audits st ∧ targets st' = targets st
                  ∧ profiles st' = profiles st).
  { unfold AnnualPlanAdmin.update_submitted in Hrun. injection Hrun as _ <-.
    repeat split. }
  exists st'. split; [reflexivity |]. split; [exact Hplans |].
  destruct Hrest as (Ha & Ht & Hp). repeat split; try assumption.
  intros profile reason Hprofile Hr Hsel Hreason.
  destruct (bulk_approve_loop user (default "" reason) now selected Hu 0 st)
    as (new & st2 & Hloop & _ & _ & _ & _ & Hpl & _).
  rewrite (bulk_approve_run _ _ _ _ _ profile _ st2 Hprofile Hr
             (bulk_payload_valid _ _ Hsel Hreason) Hloop).
  cbn [snd]. apply map_eq. intros pk. rewrite Hpl, Hplans. reflexivity.
Qed.

Lemma admin_approve_is_unlogged_bulk_approve_witness :
  ∃ st',
    AnnualPlanAdmin.approve_plans Sample.alice (Sample.midnight 2026 2 1) [1; 2; 3; 1]
      Sample.bulk_store
    = (Ok "2 plans approved successfully.", st')
    ∧ (∀ pk, plans st' !! pk
             = bulk_transition Sample.alice (Sample.midnight 2026 2 1) [1; 2; 3; 1] pk
               <$> plans Sample.bulk_store !! pk)
    ∧ audits st' = audits Sample.bulk_store ∧ targets st' = targets Sample.bulk_store
    ∧ profiles st' = profiles Sample.bulk_store
    ∧ (∀ profile reason,
         get_user_profile Sample.alice Sample.bulk_store = Some profile →
         is_approver_role (UserProfile.role profile) = true →
         [1; 2; 3; 1] ≠ [] → (∀ r, reason = Some r → reason_ok r = true) →
         plans (AnnualPlanViewSet.bulk_approve Sample.alice (Sample.midnight 2026 2 1)
                  (BulkData.Build (Some [1; 2; 3; 1]) reason) Sample.bulk_store).2
         = plans st').
Proof.
  exact (admin_approve_is_unlogged_bulk_approve Sample.alice (Sample.midnight 2026 2 1)
           [1; 2; 3; 1] Sample.bulk_store eq_refl).
Defined.

Lemma filter_none {A : Type} (P : A → Prop) `{∀ x, Decision (P x)} (l : list A) :
  (∀ x, x ∈ l → ¬ P x) → filter P l = [].
Proof.
  intros HP. induction l as [|x l IH]; [reflexivity |].
  rewrite filter_cons_False by (apply HP; left).
  apply IH. intros y Hy. apply HP. right. exact Hy.
Qed.

Lemma update_submitted_nothing selected assign st :
  (∀ pk, pk ∈ selected → plan_is_submitted st pk = false) →
  AnnualPlanAdmin.update_submitted selected assign st = (Ok 0, st).
Proof.
  intros Hnone.
  pose proof (update_submitted_count selected assign st) as Hcount.
  pose proof (update_submitted_lookup selected assign st) as Hlookup.
  destruct (AnnualPlanAdmin.update_submitted selected assign st) as [r st'] eqn:Hrun.
  cbn [fst snd] in Hcount, Hlookup. subst r. f_equal.
  - f_equal. rewrite filter_none; [reflexivity |].
    intros pk Hpk. rewrite elem_of_remove_dups in Hpk.
    rewrite (Hnone pk Hpk). intros H. exact H.
  - assert (Hplans : plans st' = plans st).
    { apply map_eq. intros pk. rewrite Hlookup.
      destruct (plans st !! pk) as [p|] eqn:Hp; [| reflexivity]. cbn. f_equal.
      unfold AnnualPlanAdmin.matches.
      destruct (decide (pk ∈ selected)) as [Hsel|Hsel].
      - specialize (Hnone pk Hsel). unfold plan_is_submitted in Hnone.
        rewrite Hp in Hnone. rewrite Hnone, andb_false_r. reflexivity.
      - rewrite (bool_decide_eq_false_2 _ Hsel). reflexivity. }
    unfold AnnualPlanAdmin.update_submitted in Hrun. injection Hrun as _ <-.
    cbn [plans set_plans] in Hplans. unfold set_plans. rewrite Hplans.
    destruct st; reflexivity.
Qed.

Lemma update_submitted_settles selected assign st :
  (∀ plan, AnnualPlan.status (assign plan) ≠ SUBMITTED) →
  ∀ pk, pk ∈ selected →
    plan_is_submitted (AnnualPlanAdmin.update_submitted selected assign st).2 pk = false.
Proof.
  intros Hassign pk Hsel. unfold plan_is_submitted.
  rewrite update_submitted_lookup.
  destruct (plans st !! pk) as [p|]; [| reflexivity]. cbn.
  unfold AnnualPlanAdmin.matches. rewrite (bool_decide_eq_true_2 _ Hsel). cbn [andb].
  destruct (Status_eqb (AnnualPlan.status p) SUBMITTED) eqn:Hs; [| exact Hs].
  apply Status_eqb_neq, Hassign.
Qed.

(** X22: the admin action [reject_plans] stores as REJECTED the selected
    plans that were SUBMITTED, reports their number and writes no audit row;
    and both admin actions settle: run again on the store they left, with the
    same selection, [approve_plans] and [reject_plans] report 0 plans and
    change nothing. *)
Theorem admin_actions_settle user now now' selected st :
  User.is_anonymous user = false →
  let n := Z.of_nat (length (filter (λ pk, plan_is_submitted st pk)
                               (remove_dups selected))) in
  (let st1 := (AnnualPlanAdmin.approve_plans user now selected st).2 in
   AnnualPlanAdmin.approve_plans user now' selected st1
   = (Ok "0 plans approved successfully.", st1))
  ∧ ∃ st1,
      AnnualPlanAdmin.reject_plans selected st = (Ok (pretty n +:+ " plans rejected."), st1)
      ∧ (∀ pk, plans st1 !! pk = bulk_reject_transition selected pk <$> plans st !! pk)
      ∧ audits st1 = audits st
      ∧ AnnualPlanAdmin.reject_plans selected st1 = (Ok "0 plans rejected.", st1).
Proof.
  intros Hu n. split.
  - intros st1. subst st1. unfold AnnualPlanAdmin.approve_plans. rewrite Hu. run.
    set (assign := λ plan : AnnualPlan.t,
           AnnualPlan.set_approved_at (Some now)
             (AnnualPlan.set_approved_by (Some (User.id user))
                (AnnualPlan.set_status APPROVED plan))).
    pose proof (update_submitted_settles selected assign st) as Hsettled.
    destruct (AnnualPlanAdmin.update_submitted selected assign st) as [[c|e] st1] eqn:Hrun;
      [| discriminate Hrun].
    cbn [snd] in *.
    rewrite update_submitted_nothing; [reflexivity |].
    apply Hsettled. intros plan. discriminate.
  - unfold AnnualPlanAdmin.reject_plans. run.
    pose proof (update_submitted_count selected (AnnualPlan.set_status REJECTED) st)
      as Hcount.
    pose proof (update_submitted_lookup selected (AnnualPlan.set_status REJECTED) st)
      as Hlookup.
    pose proof (update_submitted_settles selected (AnnualPlan.set_status REJECTED) st)
      as Hsettled.
    destruct (AnnualPlanAdmin.update_submitted selected (AnnualPlan.set_status REJECTED) st)
      as [r st1] eqn:Hrun.
    cbn [fst snd] in *. subst r. cbn beta iota.
    exists st1. split; [reflexivity |]. split; [| split].
    + intros pk. rewrite Hlookup. reflexivity.
    + unfold AnnualPlanAdmin.update_submitted in Hrun. injection Hrun as _ <-. reflexivity.
    + rewrite update_submitted_nothing; [reflexivity |].
      apply Hsettled. intros plan. discriminate.
Qed.

Lemma admin_actions_settle_witness :
  (let st1 := (AnnualPlanAdmin.approve_plans Sample.bob (Sample.midnight 2026 2 1) [1; 3]
                 Sample.bulk_store).2 in
   AnnualPlanAdmin.approve_plans Sample.bob (Sample.midnight 2026 2 2) [1; 3] st1
   = (Ok "0 plans approved successfully.", st1))
  ∧ ∃ st1,
      AnnualPlanAdmin.reject_plans [1; 3] Sample.bulk_store = (Ok "2 plans rejected.", st1)
      ∧ (∀ pk, plans st1 !! pk
               = bulk_reject_transition [1; 3] pk <$> plans Sample.bulk_store !! pk)
      ∧ audits st1 = audits Sample.bulk_store
      ∧ AnnualPlanAdmin.reject_plans [1; 3] st1 = (Ok "0 plans rejected.", st1).
Proof.
  exact (admin_actions_settle Sample.bob (Sample.midnight 2026 2 1)
           (Sample.midnight 2026 2 2) [1; 3] Sample.bulk_store eq_refl).
Defined.

(** ** Indicators *)






